(** * Teledyne power analyser scripts: a shallow embedding and its properties

    Two Python scripts drive a bench power analyser over a serial line with
    SCPI text commands:

    - [Teledyne_Final_W_Integrator.py] configures a timed energy integration
      and repeats: reset, start, poll the integrator state, fetch the numeric
      values, derive the average power, append a CSV row;
    - [t3pm1006_avgAC.py] configures averaging and appends one CSV row per
      numeric query.

    The embedding follows the scripts function by function.  The serial
    device is an oracle (what the n-th write and the n-th read do and how
    long they take), the wall clock is a count of milliseconds, and the
    scripts run in a state-and-exception monad over a [world] that records
    the serial traffic, the console messages and the CSV rows. *)

From Stdlib Require Import ZArith NArith List Bool String Ascii Lia.
From Stdlib Require Import Floats DecimalString.
Import ListNotations.

Set Warnings "-inexact-float".

Local Open Scope Z_scope.

(* ================================================================== *)
(** * Python values used by the scripts *)
(* ================================================================== *)

Module Py.

(** A Python [str] is a sequence of Unicode code points; [bytes] is a
    sequence of octets. *)
Definition str := list N.
Definition bytes := list Byte.byte.

(** The [str] of an ASCII literal of the source. *)
Definition lit (s : string) : str := map N_of_ascii (list_ascii_of_string s).

(** ** [bytes.decode()]: strict UTF-8 *)

Definition is_cont (b : N) : bool := ((0x80 <=? b) && (b <=? 0xBF))%N.
Definition in_range (lo hi b : N) : bool := ((lo <=? b) && (b <=? hi))%N.
Definition cont_bits (b : N) : N := N.land b 0x3F.

Fixpoint utf8_decode (bs : list N) : option str :=
  match bs with
  | [] => Some []
  | b0 :: r0 =>
    if (b0 <? 0x80)%N then option_map (cons b0) (utf8_decode r0)
    else if in_range 0xC2 0xDF b0 then
      match r0 with
      | b1 :: r1 =>
        if is_cont b1
        then option_map
               (cons (N.shiftl (N.land b0 0x1F) 6 + cont_bits b1)%N)
               (utf8_decode r1)
        else None
      | _ => None
      end
    else if in_range 0xE0 0xEF b0 then
      match r0 with
      | b1 :: b2 :: r2 =>
        let lo := if (b0 =? 0xE0)%N then 0xA0%N else 0x80%N in
        let hi := if (b0 =? 0xED)%N then 0x9F%N else 0xBF%N in
        if in_range lo hi b1 && is_cont b2
        then option_map
               (cons (N.shiftl (N.land b0 0x0F) 12
                      + N.shiftl (cont_bits b1) 6 + cont_bits b2)%N)
               (utf8_decode r2)
        else None
      | _ => None
      end
    else if in_range 0xF0 0xF4 b0 then
      match r0 with
      | b1 :: b2 :: b3 :: r3 =>
        let lo := if (b0 =? 0xF0)%N then 0x90%N else 0x80%N in
        let hi := if (b0 =? 0xF4)%N then 0x8F%N else 0xBF%N in
        if in_range lo hi b1 && is_cont b2 && is_cont b3
        then option_map
               (cons (N.shiftl (N.land b0 0x07) 18
                      + N.shiftl (cont_bits b1) 12
                      + N.shiftl (cont_bits b2) 6 + cont_bits b3)%N)
               (utf8_decode r3)
        else None
      | _ => None
      end
    else None
  end.

(** [b.decode()]: [None] stands for [UnicodeDecodeError]. *)
Definition decode (b : bytes) : option str := utf8_decode (map Byte.to_N b).

(** ** [str.strip()], [str.upper()], [in], [str.split(",")] *)

(** The code points for which [str.isspace()] holds. *)
Definition isspace (c : N) : bool :=
  (in_range 0x09 0x0D c || in_range 0x1C 0x20 c || (c =? 0x85) || (c =? 0xA0)
   || (c =? 0x1680) || in_range 0x2000 0x200A c || (c =? 0x2028)
   || (c =? 0x2029) || (c =? 0x202F) || (c =? 0x205F) || (c =? 0x3000))%N.

Fixpoint lstrip (s : str) : str :=
  match s with
  | c :: r => if isspace c then lstrip r else s
  | [] => []
  end.

Definition rstrip (s : str) : str := rev (lstrip (rev s)).
Definition strip (s : str) : str := rstrip (lstrip s).

(** [str.upper()] replaces every character by its full upper case, which
    can be more than one character, without regard to its neighbours.  The
    case data is that of Unicode 14.0 (Python 3.11).

    The characters above ASCII with an upper case of one character, as
    runs [(lo, hi, step, target)]: [lo], [lo + step], ..., [hi] go to
    [target], [target + step], ... *)
Definition upper_runs : list (N * N * N * N) :=
  [(0xB5, 0xB5, 1, 0x39C); (0xE0, 0xF6, 1, 0xC0); (0xF8, 0xFE, 1, 0xD8);
   (0xFF, 0xFF, 1, 0x178); (0x101, 0x12F, 2, 0x100); (0x131, 0x131, 1, 0x49);
   (0x133, 0x137, 2, 0x132); (0x13A, 0x148, 2, 0x139);
   (0x14B, 0x177, 2, 0x14A); (0x17A, 0x17E, 2, 0x179);
   (0x17F, 0x17F, 1, 0x53); (0x180, 0x180, 1, 0x243);
   (0x183, 0x185, 2, 0x182); (0x188, 0x188, 1, 0x187);
   (0x18C, 0x18C, 1, 0x18B); (0x192, 0x192, 1, 0x191);
   (0x195, 0x195, 1, 0x1F6); (0x199, 0x199, 1, 0x198);
   (0x19A, 0x19A, 1, 0x23D); (0x19E, 0x19E, 1, 0x220);
   (0x1A1, 0x1A5, 2, 0x1A0); (0x1A8, 0x1A8, 1, 0x1A7);
   (0x1AD, 0x1AD, 1, 0x1AC); (0x1B0, 0x1B0, 1, 0x1AF);
   (0x1B4, 0x1B6, 2, 0x1B3); (0x1B9, 0x1B9, 1, 0x1B8);
   (0x1BD, 0x1BD, 1, 0x1BC); (0x1BF, 0x1BF, 1, 0x1F7);
   (0x1C5, 0x1C5, 1, 0x1C4); (0x1C6, 0x1C6, 1, 0x1C4);
   (0x1C8, 0x1C8, 1, 0x1C7); (0x1C9, 0x1C9, 1, 0x1C7);
   (0x1CB, 0x1CB, 1, 0x1CA); (0x1CC, 0x1CC, 1, 0x1CA);
   (0x1CE, 0x1DC, 2, 0x1CD); (0x1DD, 0x1DD, 1, 0x18E);
   (0x1DF, 0x1EF, 2, 0x1DE); (0x1F2, 0x1F2, 1, 0x1F1);
   (0x1F3, 0x1F3, 1, 0x1F1); (0x1F5, 0x1F5, 1, 0x1F4);
   (0x1F9, 0x21F, 2, 0x1F8); (0x223, 0x233, 2, 0x222);
   (0x23C, 0x23C, 1, 0x23B); (0x23F, 0x240, 1, 0x2C7E);
   (0x242, 0x242, 1, 0x241); (0x247, 0x24F, 2, 0x246);
   (0x250, 0x250, 1, 0x2C6F); (0x251, 0x251, 1, 0x2C6D);
   (0x252, 0x252, 1, 0x2C70); (0x253, 0x253, 1, 0x181);
   (0x254, 0x254, 1, 0x186); (0x256, 0x257, 1, 0x189);
   (0x259, 0x259, 1, 0x18F); (0x25B, 0x25B, 1, 0x190);
   (0x25C, 0x25C, 1, 0xA7AB); (0x260, 0x260, 1, 0x193);
   (0x261, 0x261, 1, 0xA7AC); (0x263, 0x263, 1, 0x194);
   (0x265, 0x265, 1, 0xA78D); (0x266, 0x266, 1, 0xA7AA);
   (0x268, 0x268, 1, 0x197); (0x269, 0x269, 1, 0x196);
   (0x26A, 0x26A, 1, 0xA7AE); (0x26B, 0x26B, 1, 0x2C62);
   (0x26C, 0x26C, 1, 0xA7AD); (0x26F, 0x26F, 1, 0x19C);
   (0x271, 0x271, 1, 0x2C6E); (0x272, 0x272, 1, 0x19D);
   (0x275, 0x275, 1, 0x19F); (0x27D, 0x27D, 1, 0x2C64);
   (0x280, 0x280, 1, 0x1A6); (0x282, 0x282, 1, 0xA7C5);
   (0x283, 0x283, 1, 0x1A9); (0x287, 0x287, 1, 0xA7B1);
   (0x288, 0x288, 1, 0x1AE); (0x289, 0x289, 1, 0x244);
   (0x28A, 0x28B, 1, 0x1B1); (0x28C, 0x28C, 1, 0x245);
   (0x292, 0x292, 1, 0x1B7); (0x29D, 0x29D, 1, 0xA7B2);
   (0x29E, 0x29E, 1, 0xA7B0); (0x345, 0x345, 1, 0x399);
   (0x371, 0x373, 2, 0x370); (0x377, 0x377, 1, 0x376);
   (0x37B, 0x37D, 1, 0x3FD); (0x3AC, 0x3AC, 1, 0x386);
   (0x3AD, 0x3AF, 1, 0x388); (0x3B1, 0x3C1, 1, 0x391);
   (0x3C2, 0x3C2, 1, 0x3A3); (0x3C3, 0x3CB, 1, 0x3A3);
   (0x3CC, 0x3CC, 1, 0x38C); (0x3CD, 0x3CE, 1, 0x38E);
   (0x3D0, 0x3D0, 1, 0x392); (0x3D1, 0x3D1, 1, 0x398);
   (0x3D5, 0x3D5, 1, 0x3A6); (0x3D6, 0x3D6, 1, 0x3A0);
   (0x3D7, 0x3D7, 1, 0x3CF); (0x3D9, 0x3EF, 2, 0x3D8);
   (0x3F0, 0x3F0, 1, 0x39A); (0x3F1, 0x3F1, 1, 0x3A1);
   (0x3F2, 0x3F2, 1, 0x3F9); (0x3F3, 0x3F3, 1, 0x37F);
   (0x3F5, 0x3F5, 1, 0x395); (0x3F8, 0x3F8, 1, 0x3F7);
   (0x3FB, 0x3FB, 1, 0x3FA); (0x430, 0x44F, 1, 0x410);
   (0x450, 0x45F, 1, 0x400); (0x461, 0x481, 2, 0x460);
   (0x48B, 0x4BF, 2, 0x48A); (0x4C2, 0x4CE, 2, 0x4C1);
   (0x4CF, 0x4CF, 1, 0x4C0); (0x4D1, 0x52F, 2, 0x4D0);
   (0x561, 0x586, 1, 0x531); (0x10D0, 0x10FA, 1, 0x1C90);
   (0x10FD, 0x10FF, 1, 0x1CBD); (0x13F8, 0x13FD, 1, 0x13F0);
   (0x1C80, 0x1C80, 1, 0x412); (0x1C81, 0x1C81, 1, 0x414);
   (0x1C82, 0x1C82, 1, 0x41E); (0x1C83, 0x1C84, 1, 0x421);
   (0x1C85, 0x1C85, 1, 0x422); (0x1C86, 0x1C86, 1, 0x42A);
   (0x1C87, 0x1C87, 1, 0x462); (0x1C88, 0x1C88, 1, 0xA64A);
   (0x1D79, 0x1D79, 1, 0xA77D); (0x1D7D, 0x1D7D, 1, 0x2C63);
   (0x1D8E, 0x1D8E, 1, 0xA7C6); (0x1E01, 0x1E95, 2, 0x1E00);
   (0x1E9B, 0x1E9B, 1, 0x1E60); (0x1EA1, 0x1EFF, 2, 0x1EA0);
   (0x1F00, 0x1F07, 1, 0x1F08); (0x1F10, 0x1F15, 1, 0x1F18);
   (0x1F20, 0x1F27, 1, 0x1F28); (0x1F30, 0x1F37, 1, 0x1F38);
   (0x1F40, 0x1F45, 1, 0x1F48); (0x1F51, 0x1F57, 2, 0x1F59);
   (0x1F60, 0x1F67, 1, 0x1F68); (0x1F70, 0x1F71, 1, 0x1FBA);
   (0x1F72, 0x1F75, 1, 0x1FC8); (0x1F76, 0x1F77, 1, 0x1FDA);
   (0x1F78, 0x1F79, 1, 0x1FF8); (0x1F7A, 0x1F7B, 1, 0x1FEA);
   (0x1F7C, 0x1F7D, 1, 0x1FFA); (0x1FB0, 0x1FB1, 1, 0x1FB8);
   (0x1FBE, 0x1FBE, 1, 0x399); (0x1FD0, 0x1FD1, 1, 0x1FD8);
   (0x1FE0, 0x1FE1, 1, 0x1FE8); (0x1FE5, 0x1FE5, 1, 0x1FEC);
   (0x214E, 0x214E, 1, 0x2132); (0x2170, 0x217F, 1, 0x2160);
   (0x2184, 0x2184, 1, 0x2183); (0x24D0, 0x24E9, 1, 0x24B6);
   (0x2C30, 0x2C5F, 1, 0x2C00); (0x2C61, 0x2C61, 1, 0x2C60);
   (0x2C65, 0x2C65, 1, 0x23A); (0x2C66, 0x2C66, 1, 0x23E);
   (0x2C68, 0x2C6C, 2, 0x2C67); (0x2C73, 0x2C73, 1, 0x2C72);
   (0x2C76, 0x2C76, 1, 0x2C75); (0x2C81, 0x2CE3, 2, 0x2C80);
   (0x2CEC, 0x2CEE, 2, 0x2CEB); (0x2CF3, 0x2CF3, 1, 0x2CF2);
   (0x2D00, 0x2D25, 1, 0x10A0); (0x2D27, 0x2D27, 1, 0x10C7);
   (0x2D2D, 0x2D2D, 1, 0x10CD); (0xA641, 0xA66D, 2, 0xA640);
   (0xA681, 0xA69B, 2, 0xA680); (0xA723, 0xA72F, 2, 0xA722);
   (0xA733, 0xA76F, 2, 0xA732); (0xA77A, 0xA77C, 2, 0xA779);
   (0xA77F, 0xA787, 2, 0xA77E); (0xA78C, 0xA78C, 1, 0xA78B);
   (0xA791, 0xA793, 2, 0xA790); (0xA794, 0xA794, 1, 0xA7C4);
   (0xA797, 0xA7A9, 2, 0xA796); (0xA7B5, 0xA7C3, 2, 0xA7B4);
   (0xA7C8, 0xA7CA, 2, 0xA7C7); (0xA7D1, 0xA7D1, 1, 0xA7D0);
   (0xA7D7, 0xA7D9, 2, 0xA7D6); (0xA7F6, 0xA7F6, 1, 0xA7F5);
   (0xAB53, 0xAB53, 1, 0xA7B3); (0xAB70, 0xABBF, 1, 0x13A0);
   (0xFF41, 0xFF5A, 1, 0xFF21); (0x10428, 0x1044F, 1, 0x10400);
   (0x104D8, 0x104FB, 1, 0x104B0); (0x10597, 0x105BB, 2, 0x10570);
   (0x10598, 0x105A0, 2, 0x10571); (0x105A4, 0x105B0, 2, 0x1057D);
   (0x105B4, 0x105B8, 2, 0x1058D); (0x105BC, 0x105BC, 1, 0x10595);
   (0x10CC0, 0x10CF2, 1, 0x10C80); (0x118C0, 0x118DF, 1, 0x118A0);
   (0x16E60, 0x16E7F, 1, 0x16E40); (0x1E922, 0x1E943, 1, 0x1E900)]%N.

(** The characters whose upper case is more than one character. *)
Definition upper_special : list (N * list N) :=
  [(0xDF, [0x53; 0x53]); (0x149, [0x2BC; 0x4E]); (0x1F0, [0x4A; 0x30C]);
   (0x390, [0x399; 0x308; 0x301]); (0x3B0, [0x3A5; 0x308; 0x301]);
   (0x587, [0x535; 0x552]); (0x1E96, [0x48; 0x331]); (0x1E97, [0x54; 0x308]);
   (0x1E98, [0x57; 0x30A]); (0x1E99, [0x59; 0x30A]); (0x1E9A, [0x41; 0x2BE]);
   (0x1F50, [0x3A5; 0x313]); (0x1F52, [0x3A5; 0x313; 0x300]);
   (0x1F54, [0x3A5; 0x313; 0x301]); (0x1F56, [0x3A5; 0x313; 0x342]);
   (0x1F80, [0x1F08; 0x399]); (0x1F81, [0x1F09; 0x399]);
   (0x1F82, [0x1F0A; 0x399]); (0x1F83, [0x1F0B; 0x399]);
   (0x1F84, [0x1F0C; 0x399]); (0x1F85, [0x1F0D; 0x399]);
   (0x1F86, [0x1F0E; 0x399]); (0x1F87, [0x1F0F; 0x399]);
   (0x1F88, [0x1F08; 0x399]); (0x1F89, [0x1F09; 0x399]);
   (0x1F8A, [0x1F0A; 0x399]); (0x1F8B, [0x1F0B; 0x399]);
   (0x1F8C, [0x1F0C; 0x399]); (0x1F8D, [0x1F0D; 0x399]);
   (0x1F8E, [0x1F0E; 0x399]); (0x1F8F, [0x1F0F; 0x399]);
   (0x1F90, [0x1F28; 0x399]); (0x1F91, [0x1F29; 0x399]);
   (0x1F92, [0x1F2A; 0x399]); (0x1F93, [0x1F2B; 0x399]);
   (0x1F94, [0x1F2C; 0x399]); (0x1F95, [0x1F2D; 0x399]);
   (0x1F96, [0x1F2E; 0x399]); (0x1F97, [0x1F2F; 0x399]);
   (0x1F98, [0x1F28; 0x399]); (0x1F99, [0x1F29; 0x399]);
   (0x1F9A, [0x1F2A; 0x399]); (0x1F9B, [0x1F2B; 0x399]);
   (0x1F9C, [0x1F2C; 0x399]); (0x1F9D, [0x1F2D; 0x399]);
   (0x1F9E, [0x1F2E; 0x399]); (0x1F9F, [0x1F2F; 0x399]);
   (0x1FA0, [0x1F68; 0x399]); (0x1FA1, [0x1F69; 0x399]);
   (0x1FA2, [0x1F6A; 0x399]); (0x1FA3, [0x1F6B; 0x399]);
   (0x1FA4, [0x1F6C; 0x399]); (0x1FA5, [0x1F6D; 0x399]);
   (0x1FA6, [0x1F6E; 0x399]); (0x1FA7, [0x1F6F; 0x399]);
   (0x1FA8, [0x1F68; 0x399]); (0x1FA9, [0x1F69; 0x399]);
   (0x1FAA, [0x1F6A; 0x399]); (0x1FAB, [0x1F6B; 0x399]);
   (0x1FAC, [0x1F6C; 0x399]); (0x1FAD, [0x1F6D; 0x399]);
   (0x1FAE, [0x1F6E; 0x399]); (0x1FAF, [0x1F6F; 0x399]);
   (0x1FB2, [0x1FBA; 0x399]); (0x1FB3, [0x391; 0x399]);
   (0x1FB4, [0x386; 0x399]); (0x1FB6, [0x391; 0x342]);
   (0x1FB7, [0x391; 0x342; 0x399]); (0x1FBC, [0x391; 0x399]);
   (0x1FC2, [0x1FCA; 0x399]); (0x1FC3, [0x397; 0x399]);
   (0x1FC4, [0x389; 0x399]); (0x1FC6, [0x397; 0x342]);
   (0x1FC7, [0x397; 0x342; 0x399]); (0x1FCC, [0x397; 0x399]);
   (0x1FD2, [0x399; 0x308; 0x300]); (0x1FD3, [0x399; 0x308; 0x301]);
   (0x1FD6, [0x399; 0x342]); (0x1FD7, [0x399; 0x308; 0x342]);
   (0x1FE2, [0x3A5; 0x308; 0x300]); (0x1FE3, [0x3A5; 0x308; 0x301]);
   (0x1FE4, [0x3A1; 0x313]); (0x1FE6, [0x3A5; 0x342]);
   (0x1FE7, [0x3A5; 0x308; 0x342]); (0x1FF2, [0x1FFA; 0x399]);
   (0x1FF3, [0x3A9; 0x399]); (0x1FF4, [0x38F; 0x399]);
   (0x1FF6, [0x3A9; 0x342]); (0x1FF7, [0x3A9; 0x342; 0x399]);
   (0x1FFC, [0x3A9; 0x399]); (0xFB00, [0x46; 0x46]); (0xFB01, [0x46; 0x49]);
   (0xFB02, [0x46; 0x4C]); (0xFB03, [0x46; 0x46; 0x49]);
   (0xFB04, [0x46; 0x46; 0x4C]); (0xFB05, [0x53; 0x54]);
   (0xFB06, [0x53; 0x54]); (0xFB13, [0x544; 0x546]); (0xFB14, [0x544; 0x535]);
   (0xFB15, [0x544; 0x53B]); (0xFB16, [0x54E; 0x546]);
   (0xFB17, [0x544; 0x53D])]%N.

Definition in_run (c : N) (r : N * N * N * N) : bool :=
  let '(lo, hi, step, _) := r in
  in_range lo hi c && ((c - lo) mod step =? 0)%N.

Definition upper_char (c : N) : list N :=
  if (c <? 0x80)%N then [if in_range 0x61 0x7A c then (c - 0x20)%N else c]
  else
    match find (in_run c) upper_runs with
    | Some (lo, _, _, target) => [(target + (c - lo))%N]
    | None =>
      match find (fun e => (fst e =? c)%N) upper_special with
      | Some e => snd e
      | None => [c]
      end
    end.

Definition upper (s : str) : str := flat_map upper_char s.

(** The decimal digits: ASCII [0] to [9], and above ASCII the runs of ten
    digits of the other scripts, each given by its zero (Unicode 14.0). *)
Definition decimal_zeros : list N :=
  [0x660; 0x6F0; 0x7C0; 0x966; 0x9E6; 0xA66; 0xAE6; 0xB66; 0xBE6; 0xC66;
   0xCE6; 0xD66; 0xDE6; 0xE50; 0xED0; 0xF20; 0x1040; 0x1090; 0x17E0; 0x1810;
   0x1946; 0x19D0; 0x1A80; 0x1A90; 0x1B50; 0x1BB0; 0x1C40; 0x1C50; 0xA620;
   0xA8D0; 0xA900; 0xA9D0; 0xA9F0; 0xAA50; 0xABF0; 0xFF10; 0x104A0; 0x10D30;
   0x11066; 0x110F0; 0x11136; 0x111D0; 0x112F0; 0x11450; 0x114D0; 0x11650;
   0x116C0; 0x11730; 0x118E0; 0x11950; 0x11C50; 0x11D50; 0x11DA0; 0x16A60;
   0x16AC0; 0x16B50; 0x1D7CE; 0x1D7D8; 0x1D7E2; 0x1D7EC; 0x1D7F6; 0x1E140;
   0x1E2F0; 0x1E950; 0x1FBF0]%N.

(** The value of a decimal digit. *)
Definition to_decimal (c : N) : option N :=
  if in_range 0x30 0x39 c then Some (c - 0x30)%N
  else
    match find (fun z => in_range z (z + 9) c) decimal_zeros with
    | Some z => Some (c - z)%N
    | None => None
    end.

Fixpoint starts_with (p s : str) : bool :=
  match p, s with
  | [], _ => true
  | a :: p', b :: s' => (a =? b)%N && starts_with p' s'
  | _ :: _, [] => false
  end.

(** [p in s] *)
Fixpoint contains (p s : str) : bool :=
  starts_with p s ||
  match s with
  | [] => false
  | _ :: s' => contains p s'
  end.

(** [s.split(sep)] for a one-character separator. *)
Fixpoint split (sep : N) (s : str) : list str :=
  match s with
  | [] => [[]]
  | c :: r =>
    if (c =? sep)%N then [] :: split sep r
    else match split sep r with
         | f :: fs => (c :: f) :: fs
         | [] => [[c]]
         end
  end.

Definition comma : N := 0x2C.

(** Truthiness of a [str]: the empty string is false. *)
Definition truthy (s : str) : bool :=
  match s with [] => false | _ => true end.

(** [f"{n}"] for an integer. *)
Definition str_of_int (n : Z) : string := NilZero.string_of_int (Z.to_int n).

End Py.

(* ================================================================== *)
(** * [seconds_to_hms] *)
(* ================================================================== *)

(** Python's [//] and [%] on integers are floor division and its remainder:
    [Z.div] and [Z.modulo] for the positive divisors used here; [int(...)] of
    an integer is the identity. *)
Definition seconds_to_hms (seconds : Z) : Z * Z * Z :=
  let h := seconds / 3600 in
  let m := (seconds mod 3600) / 60 in
  let s := seconds mod 60 in
  let h := Z.min h 9999 in
  (h, m, s).

(** The largest duration the timer command can carry: 9999 h 59 min 59 s. *)
Definition max_encodable_seconds : Z := 9999 * 3600 + 59 * 60 + 59.

(* ================================================================== *)
(** * [float(...)] on a [str], and the conversions to binary64 *)
(* ================================================================== *)

Module PyFloat.
Import Py.

(** The decimal value [(-1)^sign * m * 10^e10], rounded to the nearest
    binary64 value, ties to even, as Python's [float] does.  A non-negative
    exponent gives an integer to round; a negative one a quotient of two
    integers, rounded once by the division of [SpecFloat]. *)
Definition round_decimal (sign : bool) (m : N) (e10 : Z) : spec_float :=
  match m with
  | N0 => S754_zero sign
  | Npos p =>
    if 0 <=? e10
    then binary_round prec emax sign (p * Z.to_pos (10 ^ e10))%positive 0
    else
      let '(q, e, l) :=
        SFdiv_core_binary prec emax (Zpos p) 0 (10 ^ (- e10)) 0 in
      binary_round_aux prec emax sign q e l
  end.

(** [float(n)] for a Python integer (exact below [2^53]). *)
Definition of_int (n : Z) : float := SF2Prim (binary_normalize prec emax n 0 false).

Definition is_digit (c : N) : bool := in_range 0x30 0x39 c.
Definition digit_val (c : N) : N := (c - 0x30)%N.

(** The white space [float] skips around an ASCII literal. *)
Definition is_c_space (c : N) : bool := in_range 0x09 0x0D c || (c =? 0x20)%N.

Fixpoint skip_space (s : str) : str :=
  match s with
  | c :: r => if is_c_space c then skip_space r else s
  | [] => []
  end.

Definition underscore : N := 0x5F.

(** Underscores are allowed between two digits only, and are dropped. *)
Fixpoint drop_underscores (prev : N) (s : str) : option str :=
  match s with
  | [] => if (prev =? underscore)%N then None else Some []
  | c :: r =>
    if (c =? underscore)%N
    then if is_digit prev then drop_underscores c r else None
    else if (prev =? underscore)%N && negb (is_digit c) then None
         else option_map (cons c) (drop_underscores c r)
  end.

Fixpoint span_digits (s : str) : list N * str :=
  match s with
  | c :: r =>
    if is_digit c
    then let '(ds, rest) := span_digits r in (digit_val c :: ds, rest)
    else ([], s)
  | [] => ([], [])
  end.

Definition digits_value (ds : list N) : N :=
  fold_left (fun acc d => (10 * acc + d)%N) ds 0%N.

Definition take_sign (s : str) : bool * str :=
  match s with
  | 0x2D%N :: r => (true, r)
  | 0x2B%N :: r => (false, r)
  | _ => (false, s)
  end.

(** The exponent part: nothing, or [e] or [E], an optional sign and at least
    one digit, up to the end of the text. *)
Definition parse_exponent (s : str) : option Z :=
  match s with
  | [] => Some 0
  | c :: r =>
    if (c =? 0x65)%N || (c =? 0x45)%N then
      let '(neg, r1) := take_sign r in
      match span_digits r1 with
      | (d :: ds, []) =>
        let e := Z.of_N (digits_value (d :: ds)) in
        Some (if neg then - e else e)
      | _ => None
      end
    else None
  end.

(** An unsigned decimal literal: digits, an optional point and digits (at
    least one digit in all), an optional exponent. *)
Definition parse_decimal (s : str) : option (N * Z) :=
  let '(ip, r1) := span_digits s in
  let '(fp, r2) :=
    match r1 with
    | 0x2E%N :: r => span_digits r
    | _ => ([], r1)
    end in
  match ip ++ fp with
  | [] => None
  | ds =>
    match parse_exponent r2 with
    | Some e => Some (digits_value ds, e - Z.of_nat (List.length fp))
    | None => None
    end
  end.

Definition eq_str (a b : str) : bool :=
  (List.length a =? List.length b)%nat && starts_with a b.

(** [inf], [infinity] and [nan], in any case of their ASCII letters. *)
Definition ascii_upper (s : str) : str :=
  map (fun c => if in_range 0x61 0x7A c then (c - 0x20)%N else c) s.

Definition parse_special (sign : bool) (s : str) : option spec_float :=
  let u := ascii_upper s in
  if eq_str u (lit "INF") || eq_str u (lit "INFINITY")
  then Some (S754_infinity sign)
  else if eq_str u (lit "NAN") then Some S754_nan
  else None.

(** What [float] and [int] first make of a [str]: a character below 127
    stays, white space above becomes a blank, a decimal digit of another
    script becomes its ASCII digit, and anything else becomes a question
    mark, which ends the text and fits no number. *)
Fixpoint to_ascii (s : str) : str :=
  match s with
  | [] => []
  | c :: r =>
    if (c <? 127)%N then c :: to_ascii r
    else if isspace c then 0x20%N :: to_ascii r
    else match to_decimal c with
         | Some d => (0x30 + d)%N :: to_ascii r
         | None => [0x3F%N]
         end
  end.

(** [float(s)]: [None] stands for [ValueError]. *)
Definition parse_spec (s : str) : option spec_float :=
  let body := rev (skip_space (rev (skip_space (to_ascii s)))) in
  match drop_underscores 0%N body with
  | None => None
  | Some t =>
    let '(sign, u) := take_sign t in
    match parse_decimal u with
    | Some (m, e10) => Some (round_decimal sign m e10)
    | None => parse_special sign u
    end
  end.

Definition parse (s : str) : option float := option_map SF2Prim (parse_spec s).

End PyFloat.

(* ================================================================== *)
(** * The serial device, the world, and the monad of the scripts *)
(* ================================================================== *)

(** What one call of [ser.write] does: it returns, or raises
    [SerialTimeoutException], [SerialException] or something else. *)
Inductive write_outcome :=
| WriteOk
| WriteTimeout
| WriteSerialError
| WriteCrash.

(** What one call of [ser.readline] does: it returns the bytes received
    before the read timeout (none: [b""]), or raises. *)
Inductive read_outcome :=
| ReadLine (b : Py.bytes)
| ReadSerialError
| ReadCrash.

(** The instrument and its link: whether the port opens, and the outcome
    and the duration in milliseconds of the n-th write and the n-th read. *)
Record device := {
  dev_opens : bool;
  dev_write : nat -> write_outcome * N;
  dev_read : nat -> read_outcome * N
}.

(** The exception classes the scripts raise or handle.  [SerialException]
    derives from [IOError]; in Python 3 [IOError] is [OSError], of which
    [TimeoutError] is a subclass; [UnicodeDecodeError] derives from
    [ValueError]; [KeyboardInterrupt] is not an [Exception]. *)
Inductive exn_class :=
| SerialTimeoutException
| SerialException
| IOError
| TimeoutError
| UnicodeDecodeError
| ValueError
| IndexError
| Exception
| KeyboardInterrupt.

(** A raised exception: its class, its text, and for a
    [UnicodeDecodeError] the bytes that did not decode. *)
Record exn := {
  exn_class_of : exn_class;
  exn_text : string;
  exn_object : Py.bytes
}.

(** [isinstance c k]: an exception of class [c] is caught by [except k]. *)
Definition isinstance (c k : exn_class) : bool :=
  match k, c with
  | KeyboardInterrupt, KeyboardInterrupt => true
  | _, KeyboardInterrupt => false
  | Exception, _ => true
  | IOError, (IOError | TimeoutError | SerialException | SerialTimeoutException) => true
  | SerialException, (SerialException | SerialTimeoutException) => true
  | SerialTimeoutException, SerialTimeoutException => true
  | TimeoutError, TimeoutError => true
  | ValueError, (ValueError | UnicodeDecodeError) => true
  | UnicodeDecodeError, UnicodeDecodeError => true
  | IndexError, IndexError => true
  | _, _ => false
  end.

(** Serial traffic as the script sees it: a command handed to [ser.write]
    and whether the write returned, and what a read gave back ([None]: the
    read raised). *)
Inductive io_event :=
| Wrote (cmd : string) (ok : bool)
| ReadBack (r : option Py.bytes).

(** Console output.  Fixed texts are [Say]; the others carry the values the
    script interpolates. *)
Inductive message :=
| Say (text : string)
| SayCmd (text : string) (cmd : Py.str)
| SayStr (text : string) (s : Py.str)
| SayOpt (text : string) (s : option Py.str)
| SayCount (text : string) (n : nat) (response : Py.str)
| SayState (state : Py.str) (polling_ms : Z)
| SayCycle (text : string) (loop_count : nat)
| SaySample (timestamp : Z) (values : list float)
| SayExn (text : string) (e : exn).

(** A CSV cell: a header text, a [strftime] time stamp (the clock reading it
    is taken from), a float written with [f"{x:.nf}"], or a float handed to
    the writer as it is. *)
Inductive cell :=
| Text (s : string)
| Stamp (t : Z)
| Fixed (digits : nat) (x : float)
| Number (x : float).

Definition row := list cell.

Record world := {
  now : Z;                   (* wall clock, ms *)
  n_writes : nat;            (* calls of ser.write so far *)
  n_reads : nat;             (* calls of ser.readline so far *)
  ser_open : bool;           (* ser is not None and ser.is_open *)
  traffic : list io_event;
  console : list message;
  csv : list row             (* the rows of the CSV file *)
}.

Definition set_now (t : Z) (w : world) : world :=
  {| now := t; n_writes := n_writes w; n_reads := n_reads w;
     ser_open := ser_open w; traffic := traffic w; console := console w;
     csv := csv w |}.

Definition set_ser_open (b : bool) (w : world) : world :=
  {| now := now w; n_writes := n_writes w; n_reads := n_reads w;
     ser_open := b; traffic := traffic w; console := console w;
     csv := csv w |}.

Definition add_console (m : message) (w : world) : world :=
  {| now := now w; n_writes := n_writes w; n_reads := n_reads w;
     ser_open := ser_open w; traffic := traffic w;
     console := console w ++ [m]; csv := csv w |}.

Definition add_row (r : row) (w : world) : world :=
  {| now := now w; n_writes := n_writes w; n_reads := n_reads w;
     ser_open := ser_open w; traffic := traffic w; console := console w;
     csv := csv w ++ [r] |}.

Definition did_write (cmd : string) (ok : bool) (ms : N) (w : world) : world :=
  {| now := now w + Z.of_N ms; n_writes := S (n_writes w);
     n_reads := n_reads w; ser_open := ser_open w;
     traffic := traffic w ++ [Wrote cmd ok]; console := console w;
     csv := csv w |}.

Definition did_read (r : option Py.bytes) (ms : N) (w : world) : world :=
  {| now := now w + Z.of_N ms; n_writes := n_writes w;
     n_reads := S (n_reads w); ser_open := ser_open w;
     traffic := traffic w ++ [ReadBack r]; console := console w;
     csv := csv w |}.

(** The world a script starts in: the clock reading and the rows already in
    the CSV file (none when the file is missing or empty). *)
Definition initial_world (t0 : Z) (file : list row) : world :=
  {| now := t0; n_writes := 0; n_reads := 0; ser_open := false;
     traffic := []; console := []; csv := file |}.

(** ** The monad: state, exceptions, and running out of loop fuel *)

Inductive outcome (A : Type) :=
| Ret (a : A)
| Raise (e : exn)
| OutOfFuel.

Arguments Ret {A} a.
Arguments Raise {A} e.
Arguments OutOfFuel {A}.

Definition M (A : Type) : Type := world -> outcome A * world.

Definition ret {A} (a : A) : M A := fun w => (Ret a, w).

Definition bind {A B} (m : M A) (k : A -> M B) : M B :=
  fun w =>
    match m w with
    | (Ret a, w') => k a w'
    | (Raise e, w') => (Raise e, w')
    | (OutOfFuel, w') => (OutOfFuel, w')
    end.

Definition raise {A} (c : exn_class) (text : string) : M A :=
  fun w => (Raise {| exn_class_of := c; exn_text := text; exn_object := [] |}, w).

Definition reraise {A} (e : exn) : M A := fun w => (Raise e, w).

(** [try: m  except ...: h e]; the handler re-raises what it does not
    catch. *)
Definition try_except {A} (m : M A) (h : exn -> M A) : M A :=
  fun w =>
    match m w with
    | (Raise e, w') => h e w'
    | r => r
    end.

Declare Scope py_scope.
Delimit Scope py_scope with py.
Notation "x <- m ;; k" := (bind m (fun x => k))
  (at level 61, m at next level, right associativity) : py_scope.
Notation "m ;; k" := (bind m (fun _ => k))
  (at level 61, right associativity) : py_scope.
Local Open Scope py_scope.

(** ** Primitive effects *)

(** [time.time()] *)
Definition time : M Z := fun w => (Ret (now w), w).

(** [time.sleep(ms / 1000)] *)
Definition sleep (ms : Z) : M unit := fun w => (Ret tt, set_now (now w + ms) w).

(** [print(...)] *)
Definition print (m : message) : M unit := fun w => (Ret tt, add_console m w).

(** [csv_writer.writerow(r)] followed by the flush. *)
Definition writerow (r : row) : M unit := fun w => (Ret tt, add_row r w).

Definition newline : string := String (ascii_of_nat 10) EmptyString.

(** A command line of the wire protocol: the text and its ["\n"]. *)
Definition line (s : string) : string := (s ++ newline)%string.

(** [isinstance e k] on a raised exception. *)
Definition caught_by (e : exn) (k : exn_class) : bool :=
  isinstance (exn_class_of e) k.

(* ================================================================== *)
(** * [Teledyne_Final_W_Integrator.py] *)
(* ================================================================== *)

Section Integrator.

Variable dev : device.

(** [integration_interval_seconds], an integer number of seconds. *)
Variable integration_interval_seconds : Z.

(** ** Serial primitives *)

(** [ser_conn.write(command.encode())] *)
Definition ser_write (command : string) : M unit :=
  fun w =>
    let '(o, ms) := dev_write dev (n_writes w) in
    let fail c text :=
      (Raise {| exn_class_of := c; exn_text := text; exn_object := [] |},
       did_write command false ms w) in
    match o with
    | WriteOk => (Ret tt, did_write command true ms w)
    | WriteTimeout => fail SerialTimeoutException "Write timeout"%string
    | WriteSerialError => fail SerialException "write failed"%string
    | WriteCrash => fail Exception "write crashed"%string
    end.

(** [ser_conn.readline()] *)
Definition ser_readline : M Py.bytes :=
  fun w =>
    let '(o, ms) := dev_read dev (n_reads w) in
    let fail c text :=
      (Raise {| exn_class_of := c; exn_text := text; exn_object := [] |},
       did_read None ms w) in
    match o with
    | ReadLine b => (Ret b, did_read (Some b) ms w)
    | ReadSerialError => fail SerialException "read failed"%string
    | ReadCrash => fail Exception "read crashed"%string
    end.

(** [response_bytes.decode()] *)
Definition bytes_decode (b : Py.bytes) : M Py.str :=
  match Py.decode b with
  | Some s => ret s
  | None =>
    fun w => (Raise {| exn_class_of := UnicodeDecodeError;
                       exn_text := "invalid utf-8";
                       exn_object := b |}, w)
  end.

(** ** [safe_serial_write] *)
Definition safe_serial_write (command : string) : M bool :=
  try_except
    (ser_write command ;;
     sleep 100 ;;
     ret true)
    (fun e =>
       let cmd := Py.strip (Py.lit command) in
       if caught_by e SerialTimeoutException then
         print (SayCmd "Error: Serial write timeout sending command" cmd) ;;
         ret false
       else if caught_by e SerialException then
         print (SayCmd "Error: Serial write error sending command" cmd) ;;
         ret false
       else if caught_by e Exception then
         print (SayCmd "Error: Unexpected error sending command" cmd) ;;
         ret false
       else reraise e).

(** ** [safe_serial_read]: the stripped text of the line, or [None] *)
Definition safe_serial_read : M (option Py.str) :=
  try_except
    (response_bytes <- ser_readline ;;
     match response_bytes with
     | _ :: _ =>
       response_str <- bytes_decode response_bytes ;;
       ret (Some (Py.strip response_str))
     | [] => ret None
     end)
    (fun e =>
       if caught_by e SerialException then
         print (SayExn "Error: Serial read error" e) ;;
         ret None
       else if caught_by e UnicodeDecodeError then
         print (SayExn "Error: Could not decode received bytes" e) ;;
         ret None
       else if caught_by e Exception then
         print (SayExn "Error: Unexpected error during serial read" e) ;;
         ret None
       else reraise e).

(** ** Connect and configure *)

(** [serial.Serial(port, baud_rate, timeout=2)] *)
Definition serial_open : M unit :=
  fun w =>
    if dev_opens dev then (Ret tt, set_ser_open true w)
    else (Raise {| exn_class_of := SerialException;
                   exn_text := "could not open port";
                   exn_object := [] |}, w).

(** [ser.close()] *)
Definition serial_close : M unit := fun w => (Ret tt, set_ser_open false w).

(** A set command: [if not safe_serial_write(ser, cmd): raise Exception(text)] *)
Definition must_write (command text : string) : M unit :=
  ok <- safe_serial_write command ;;
  if ok then ret tt else raise Exception text.

(** A read-back: [if safe_serial_write(ser, query): print(f"...: {safe_serial_read(ser)}")] *)
Definition confirm (query label : string) : M unit :=
  ok <- safe_serial_write query ;;
  if ok then
    r <- safe_serial_read ;;
    print (SayOpt label r)
  else ret tt.

Definition timer_cmd : string :=
  let '(h, m, s) := seconds_to_hms integration_interval_seconds in
  line (":INTegrate:TIMer " ++ Py.str_of_int h ++ "," ++ Py.str_of_int m
        ++ "," ++ Py.str_of_int s).

(** The body of the first [try]. *)
Definition configure_body : M unit :=
  print (Say "Attempting to connect...") ;;
  serial_open ;;
  print (Say "Connected successfully.") ;;
  sleep 500 ;;
  must_write (line "*IDN?") "Failed to send *IDN?" ;;
  idn_response <- safe_serial_read ;;
  match idn_response with
  | Some (c :: r) =>
    let idn := c :: r in
    print (SayStr "Instrument ID" idn) ;;
    if negb (Py.contains (Py.lit "TELEDYNE") (Py.upper idn))
       && negb (Py.contains (Py.lit "LECROY") (Py.upper idn))
    then print (Say "Warning: Instrument ID doesn't obviously mention Teledyne/LeCroy. Ensure compatibility.")
    else ret tt
  | _ =>
    print (Say "Warning: No response to *IDN?. Check connection/instrument state/permissions.") ;;
    raise Exception "Failed to get IDN response"
  end ;;
  print (Say "Configuring Integration Settings...") ;;
  must_write (line ":INTegrate:MODE STANdard") "Failed to set integrate mode" ;;
  must_write (line ":INTegrate:FUNCtion WATT") "Failed to set integrate function" ;;
  print (Say "Setting integration timer") ;;
  must_write timer_cmd "Failed to set integrate timer" ;;
  sleep 200 ;;
  confirm (line ":INTEGRATE:MODE?") "Confirm Mode" ;;
  confirm (line ":INTEGRATE:FUNCTION?") "Confirm Function" ;;
  confirm (line ":INTEGRATE:TIMER?") "Confirm Timer" ;;
  print (Say "Configuring Numeric Items (1:Vpk, 2:I, 3:P_inst, 4:WH_int)...") ;;
  must_write (line ":NUMeric:NORMal:ITEM1 UPPeak") "Failed to set NUM ITEM1" ;;
  must_write (line ":NUMeric:NORMal:ITEM2 I") "Failed to set NUM ITEM2" ;;
  must_write (line ":NUMeric:NORMal:ITEM3 P") "Failed to set NUM ITEM3" ;;
  must_write (line ":NUMeric:NORMal:ITEM4 WH") "Failed to set NUM ITEM4" ;;
  must_write (line ":NUMeric:NORMal:NUMBer 4") "Failed to set NUM NUMBER" ;;
  confirm (line ":NUMERIC:NORMAL:NUMBER?") "Confirm Number of Items".

(** [if ser and ser.is_open: ser.close()] *)
Definition close_if_open : M unit :=
  fun w => if ser_open w then serial_close w else (Ret tt, w).

(** The first [try] with its handlers.  [Some code]: the script left through
    [sys.exit(code)]; [None]: configuration is done. *)
Definition configure : M (option Z) :=
  try_except
    (configure_body ;; ret None)
    (fun e =>
       if caught_by e SerialException then
         print (SayExn "Fatal Error: Serial communication error during configuration" e) ;;
         close_if_open ;;
         ret (Some 1)
       else if caught_by e Exception then
         print (SayExn "Fatal Error: An unexpected error occurred during configuration" e) ;;
         close_if_open ;;
         ret (Some 1)
       else reraise e).

(** ** The polling loop *)

(** [software_timeout_seconds = integration_interval_seconds * 1.5 + 5],
    in milliseconds. *)
Definition software_timeout_ms : Z := integration_interval_seconds * 1500 + 5000.

(** Every turn of the loop that goes round again lasts 100 ms or more (the
    pause of a good write, the second slept after a bad one), so this many
    turns outlast the watchdog. *)
Definition poll_fuel : nat := Z.to_nat (software_timeout_ms / 100) + 2.

Definition out_of_fuel {A} : M A := fun w => (OutOfFuel, w).

Definition timed_out (polling_start_time t : Z) : bool :=
  software_timeout_ms <? t - polling_start_time.

(** The [while True:] of step 3.  It returns when the state reports
    completion ([break]) and raises otherwise. *)
Fixpoint poll_loop (fuel : nat) (polling_start_time last_state_print_time : Z)
  : M unit :=
  match fuel with
  | O => out_of_fuel
  | S fuel' =>
    current_time <- time ;;
    if timed_out polling_start_time current_time then
      raise TimeoutError "Integration polling software timeout waiting for TIMEUP/TIM state."
    else
      ok <- safe_serial_write (line ":INTEGRATE:STATE?") ;;
      if negb ok then
        print (Say "Warning: Failed to send STATE query. Retrying...") ;;
        sleep 1000 ;;
        t <- time ;;
        if timed_out polling_start_time t then
          raise TimeoutError "Integration polling software timeout after failing to send STATE query."
        else poll_loop fuel' polling_start_time last_state_print_time
      else
        state_response <- safe_serial_read ;;
        match state_response with
        | None =>
          print (Say "Warning: No response received for STATE query (read timeout). Retrying...") ;;
          t <- time ;;
          if timed_out polling_start_time t then
            raise TimeoutError "Integration polling software timeout after failing to read STATE response."
          else poll_loop fuel' polling_start_time last_state_print_time
        | Some state_response =>
          let state_response_upper := Py.upper state_response in
          last_state_print_time <-
            (if 2000 <? current_time - last_state_print_time then
               print (SayState state_response_upper
                               (current_time - polling_start_time)) ;;
               ret current_time
             else ret last_state_print_time) ;;
          if Py.contains (Py.lit "TIM") state_response_upper
             || Py.contains (Py.lit "TIMEUP") state_response_upper then
            print (SayStr "Integration complete" state_response_upper)
          else if Py.contains (Py.lit "RUN") state_response_upper
                  || Py.contains (Py.lit "RUNNING") state_response_upper then
            sleep 400 ;;
            poll_loop fuel' polling_start_time last_state_print_time
          else if Py.contains (Py.lit "STOP") state_response_upper
                  || Py.contains (Py.lit "RESET") state_response_upper then
            print (SayStr "Error: Integration stopped unexpectedly. State" state_response_upper) ;;
            raise Exception "Integration stopped unexpectedly"
          else if Py.contains (Py.lit "OVERFLOW") state_response_upper then
            print (SayStr "Error: Integration overflow detected. State" state_response_upper) ;;
            raise Exception "Integration overflow"
          else
            print (SayStr "Warning: Unexpected integration state received. Continuing to wait..." state_response_upper) ;;
            sleep 500 ;;
            poll_loop fuel' polling_start_time last_state_print_time
        end
  end.

(** ** Decoding the numeric response and writing the row *)

(** [values[i]] *)
Definition item (values : list Py.str) (i : nat) : M Py.str :=
  match nth_error values i with
  | Some v => ret v
  | None => raise IndexError "list index out of range"
  end.

(** [float(v)] *)
Definition float_of (v : Py.str) : M float :=
  match PyFloat.parse v with
  | Some x => ret x
  | None => raise ValueError "could not convert string to float"
  end.

(** [float(v) if v else 0.0] *)
Definition float_or_zero (v : Py.str) : M float :=
  if Py.truthy v then float_of v else ret 0%float.

(** Step 5: [interval_hours = integration_interval_seconds / 3600.0] and the
    guarded division. *)
Definition interval_hours : float :=
  (PyFloat.of_int integration_interval_seconds / 3600)%float.

Definition average_power_of (watt_hours : float) : float :=
  if (1e-9 <? interval_hours)%float
  then (watt_hours / interval_hours)%float
  else 0%float.

Definition integration_header : row :=
  [Text "Timestamp"; Text "Interval Avg Power (W)";
   Text "Interval WattHours (Wh)"; Text "End Interval V+pk (V)";
   Text "End Interval Current (A)"; Text "End Interval Inst Power (W)"].

(** The [try] of lines 265-313, entered with a non-empty [response]; the
    result is the value left in [cycle_error].  [csv_writer] and
    [csv_file_handle] are the objects made before the loop, so their test
    passes. *)
Definition process_response (response : Py.str) : M bool :=
  try_except
    (let values := Py.split Py.comma response in
     if (4 <=? List.length values)%nat then
       v0 <- item values 0 ;;
       peak_voltage <- float_or_zero v0 ;;
       v1 <- item values 1 ;;
       current <- float_or_zero v1 ;;
       v2 <- item values 2 ;;
       instant_power <- float_or_zero v2 ;;
       v3 <- item values 3 ;;
       watt_hours <- float_or_zero v3 ;;
       let average_power := average_power_of watt_hours in
       timestamp <- time ;;
       print (SaySample timestamp
                [average_power; watt_hours; peak_voltage; current;
                 instant_power]) ;;
       writerow [Stamp timestamp; Fixed 4 average_power; Fixed 6 watt_hours;
                 Fixed 4 peak_voltage; Fixed 4 current;
                 Fixed 4 instant_power] ;;
       ret false
     else
       print (SayCount "Warning: Received unexpected number of values"
                       (List.length values) response) ;;
       ret true)
    (fun e =>
       if caught_by e ValueError || caught_by e IndexError then
         print (SayStr "Error parsing measurement response" response) ;;
         ret true
       else if caught_by e Exception then
         print (SayExn "An unexpected error occurred during data processing/writing" e) ;;
         ret true
       else reraise e).

(** ** One integration cycle *)

(** Steps 4 and 5 of the cycle (lines 257-316): the numeric query, the
    read, and the decoding; the result is [cycle_error]. *)
Definition fetch_results : M bool :=
  print (Say "Querying measurement results...") ;;
  must_write (line ":NUMERIC:NORMAL:VALUE?") "Failed to send numeric query" ;;
  response <- safe_serial_read ;;
  match response with
  | Some (c :: r) => process_response (c :: r)
  | _ =>
    print (Say "Warning: No measurement response received after integration.") ;;
    ret true
  end.

(** The body of the inner [try] (lines 181-316); the result is
    [cycle_error]. *)
Definition cycle_body : M bool :=
  print (Say "Resetting integrator...") ;;
  must_write (line ":INTegrate:RESet") "Failed to send RESET command" ;;
  sleep 300 ;;
  print (Say "Starting integrator...") ;;
  must_write (line ":INTegrate:STARt") "Failed to send START command" ;;
  sleep 100 ;;
  print (Say "Integrating...") ;;
  polling_start_time <- time ;;
  poll_loop poll_fuel polling_start_time 0 ;;
  fetch_results.

(** How a turn of the main loop ends: it goes on to the next cycle with
    the flag [cycle_error], or leaves the loop through [break]. *)
Inductive cycle_end :=
| NextCycle (cycle_error : bool)
| Break.

(** One turn of the main [while True:]: the inner [try] and its handlers,
    in the order of the source.  A [TimeoutError] is an [IOError], so the
    second handler is the one that takes it. *)
Definition cycle (loop_count : nat) : M cycle_end :=
  print (SayCycle "--- Starting Integration Cycle ---" loop_count) ;;
  k <- try_except
         (cycle_error <- cycle_body ;; ret (NextCycle cycle_error))
         (fun e =>
            if caught_by e SerialException then
              print (SayExn "Serial communication error during loop cycle" e) ;;
              print (Say "Attempting to continue to next cycle if possible, otherwise exiting.") ;;
              ret Break
            else if caught_by e IOError then
              print (SayExn "Error writing to CSV file during cycle" e) ;;
              print (Say "Exiting measurement loop due to file error.") ;;
              ret Break
            else if caught_by e TimeoutError then
              print (SayExn "Timeout Error during cycle" e) ;;
              print (Say "Exiting measurement loop.") ;;
              ret Break
            else if caught_by e Exception then
              print (SayExn "An unexpected error occurred in integration cycle" e) ;;
              print (Say "Attempting to proceed to next cycle.") ;;
              sleep 1000 ;;
              ret (NextCycle true)
            else reraise e) ;;
  match k with
  | NextCycle true =>
    print (SayCycle "--- Cycle completed with errors ---" loop_count) ;;
    ret k
  | NextCycle false =>
    print (SayCycle "--- Cycle completed successfully ---" loop_count) ;;
    ret k
  | Break => ret Break
  end.

(** The main [while True:].  The loop only ends through [break] or the
    operator's Ctrl+C; [cycles] is the number of turns the operator lets
    it take before the [KeyboardInterrupt]. *)
Fixpoint measurement_loop (cycles : nat) (loop_count : nat) : M unit :=
  match cycles with
  | O => raise KeyboardInterrupt "Ctrl+C"
  | S cycles' =>
    k <- cycle (S loop_count) ;;
    match k with
    | Break => ret tt
    | NextCycle _ => measurement_loop cycles' (S loop_count)
    end
  end.

(** [file_is_empty]: no file, or a file of size zero. *)
Definition file_is_empty : M bool :=
  fun w => (Ret (match csv w with [] => true | _ => false end), w).

(** The second [try] with its handlers (lines 150-357); the CSV file opens
    and takes every row. *)
Definition measurement (cycles : nat) : M unit :=
  try_except
    (empty <- file_is_empty ;;
     (if empty then
        print (Say "CSV file is new or empty. Writing header.") ;;
        writerow integration_header
      else ret tt) ;;
     measurement_loop cycles 0)
    (fun e =>
       if caught_by e KeyboardInterrupt then
         print (Say "Ctrl+C detected. Stopping measurement loop.")
       else if caught_by e Exception then
         print (SayExn "An unexpected error occurred outside the main loop" e)
       else reraise e).

(** [try: m finally: f] *)
Definition try_finally {A} (m : M A) (f : M unit) : M A :=
  fun w =>
    match m w with
    | (OutOfFuel, w') => (OutOfFuel, w')
    | (r, w') =>
      match f w' with
      | (Ret _, w'') => (r, w'')
      | (Raise e, w'') => (Raise e, w'')
      | (OutOfFuel, w'') => (OutOfFuel, w'')
      end
    end.

(** The [finally] of the script, up to its [sys.exit(0)]. *)
Definition cleanup : M unit :=
  print (Say "--- Script Finalizing ---") ;;
  print (Say "Closing CSV file") ;;
  open <- (fun w => (Ret (ser_open w), w)) ;;
  (if open : bool then
     try_finally
       (try_except
          (print (Say "Attempting to stop integrator (if running)...") ;;
           ok <- safe_serial_write (line ":INTegrate:STOP") ;;
           if ok then ret tt
           else print (Say "Warning: Could not send STOP command reliably."))
          (fun e =>
             if caught_by e Exception then
               print (SayExn "Could not send stop command during cleanup" e)
             else reraise e))
       (print (Say "Closing serial port.") ;;
        serial_close)
   else print (Say "Serial port was not open or already closed.")) ;;
  print (Say "Script finished.").

(** The whole script; the result is the exit status.  When configuration
    fails the script leaves with status 1 before anything else runs. *)
Definition main (cycles : nat) : M Z :=
  status <- configure ;;
  match status with
  | Some code => ret code
  | None =>
    print (Say "Starting Integration Loop.") ;;
    fun w =>
      match measurement cycles w with
      | (OutOfFuel, w') => (OutOfFuel, w')
      | (_, w') =>
        match cleanup w' with
        | (OutOfFuel, w'') => (OutOfFuel, w'')
        | (_, w'') => (Ret 0, w'')
        end
      end
  end.

End Integrator.

(* ================================================================== *)
(** * [t3pm1006_avgAC.py]: the measurement loop *)
(* ================================================================== *)

Section Averaging.

Variable dev : device.

Definition averaging_header : row :=
  [Text "Timestamp"; Text "Avg Peak Voltage (V+pk)"; Text "Avg Current (A)";
   Text "Avg Power (W)"].

(** The [try] of lines 138-160, entered with a non-empty [response]. *)
Definition avg_process_response (response : Py.str) : M unit :=
  try_except
    (let values := Py.split Py.comma response in
     if (3 <=? List.length values)%nat then
       v0 <- item values 0 ;;
       peak_voltage <- float_of v0 ;;
       v1 <- item values 1 ;;
       current <- float_of v1 ;;
       v2 <- item values 2 ;;
       power <- float_of v2 ;;
       timestamp <- time ;;
       print (SaySample timestamp [peak_voltage; current; power]) ;;
       writerow [Stamp timestamp; Number peak_voltage; Number current;
                 Number power]
     else
       print (SayCount "Warning: Received unexpected number of values"
                       (List.length values) response))
    (fun e =>
       if caught_by e ValueError || caught_by e IndexError then
         print (SayStr "Error parsing response" response)
       else if caught_by e Exception then
         print (SayExn "An unexpected error occurred during data processing/writing" e)
       else reraise e).

(** One turn of the [while True:] of line 131; [true]: the turn ended in
    [break]. *)
Definition avg_cycle : M bool :=
  try_except
    (ser_write dev (line ":NUMERIC:NORMAL:VALUE?") ;;
     response_bytes <- ser_readline dev ;;
     decoded <- bytes_decode response_bytes ;;
     match Py.strip decoded with
     | c :: r => avg_process_response (c :: r)
     | [] =>
       print (Say "Warning: No measurement response received from instrument in this cycle.")
     end ;;
     sleep 1000 ;;
     ret false)
    (fun e =>
       if caught_by e SerialException then
         print (SayExn "Serial communication error during loop" e) ;;
         print (Say "Exiting measurement loop due to serial error.") ;;
         ret true
       else if caught_by e IOError then
         print (SayExn "Error writing to CSV file" e) ;;
         print (Say "Exiting measurement loop due to file error.") ;;
         ret true
       else if caught_by e Exception then
         print (SayExn "An unexpected error occurred in the measurement loop" e) ;;
         ret true
       else reraise e).

(** The loop, for as many turns as the operator lets it take. *)
Fixpoint avg_loop (cycles : nat) : M unit :=
  match cycles with
  | O => raise KeyboardInterrupt "Ctrl+C"
  | S cycles' =>
    stop <- avg_cycle ;;
    if stop : bool then ret tt else avg_loop cycles'
  end.

(** Lines 119-188: the file, the header, the loop, and the clean-up. *)
Definition avg_measurement (cycles : nat) : M unit :=
  try_finally
    (try_except
       (empty <- file_is_empty ;;
        (if empty then
           print (Say "CSV file is new or empty. Writing header.") ;;
           writerow averaging_header
         else ret tt) ;;
        avg_loop cycles)
       (fun e =>
          if caught_by e KeyboardInterrupt then
            print (Say "Ctrl+C detected. Stopping data logging.")
          else if caught_by e IOError then
            print (SayExn "Fatal Error: Could not open or write to CSV file" e)
          else reraise e))
    (close_if_open ;;
     print (Say "Script finished.")).

End Averaging.

(* ================================================================== *)
(** * Notions the properties are stated with *)
(* ================================================================== *)

Definition cmd_reset : string := line ":INTegrate:RESet".
Definition cmd_start : string := line ":INTegrate:STARt".
Definition cmd_state : string := line ":INTEGRATE:STATE?".
Definition cmd_value : string := line ":NUMERIC:NORMAL:VALUE?".
Definition cmd_stop : string := line ":INTegrate:STOP".

(** The bytes of an ASCII text as the instrument sends it. *)
Definition wire (s : string) : Py.bytes :=
  map byte_of_ascii (list_ascii_of_string s).

(** What [safe_serial_read] hands back for a read that gave [r]. *)
Definition read_result (r : option Py.bytes) : option Py.str :=
  match r with
  | Some (b :: bs) => option_map Py.strip (Py.decode (b :: bs))
  | _ => None
  end.

(** The reported integrator states, as the polling loop tells them apart
    (on the upper-cased text, first match first). *)
Inductive integration_state :=
| Complete
| Running
| StoppedUnexpectedly
| Overflow
| Unrecognized.

Definition classify (state_response : Py.str) : integration_state :=
  let u := Py.upper state_response in
  if Py.contains (Py.lit "TIM") u || Py.contains (Py.lit "TIMEUP") u
  then Complete
  else if Py.contains (Py.lit "RUN") u || Py.contains (Py.lit "RUNNING") u
  then Running
  else if Py.contains (Py.lit "STOP") u || Py.contains (Py.lit "RESET") u
  then StoppedUnexpectedly
  else if Py.contains (Py.lit "OVERFLOW") u then Overflow
  else Unrecognized.

(** A state that ends the polling of a cycle. *)
Definition terminal (s : integration_state) : bool :=
  match s with
  | Complete | StoppedUnexpectedly | Overflow => true
  | Running | Unrecognized => false
  end.

(** A read that shows the integration over: a line that decodes to a
    terminal state. *)
Definition shows_end (r : option Py.bytes) : bool :=
  match read_result r with
  | Some s => terminal (classify s)
  | None => false
  end.

(** ** The one-integration-in-flight discipline, as a monitor of the
    serial traffic *)

(** [Idle]: no integration is running as far as the script has seen;
    [Armed]: the reset has just been sent; [InFlight]: a start has been
    sent and no read has shown the end of that integration yet. *)
Inductive phase :=
| Idle
| Armed
| InFlight.

(** One event of the traffic; [None]: the discipline is broken (a start
    that does not follow a reset, a reset or a start while in flight). *)
Definition monitor_step (p : phase) (e : io_event) : option phase :=
  match e with
  | Wrote cmd ok =>
    if (cmd =? cmd_reset)%string then
      match p with
      | InFlight => None
      | _ => Some (if ok then Armed else Idle)
      end
    else if (cmd =? cmd_start)%string then
      match p with
      | Armed => Some (if ok then InFlight else Idle)
      | _ => None
      end
    else if (cmd =? cmd_stop)%string then Some Idle
    else
      match p with
      | InFlight => Some InFlight
      | _ => Some Idle
      end
  | ReadBack r =>
    match p with
    | InFlight => Some (if shows_end r then Idle else InFlight)
    | _ => Some Idle
    end
  end.

Fixpoint monitor (p : phase) (t : list io_event) : option phase :=
  match t with
  | [] => Some p
  | e :: t' =>
    match monitor_step p e with
    | Some p' => monitor p' t'
    | None => None
    end
  end.

(** ** Rows *)

(** A data row of the integration file: the six columns, in order. *)
Definition integration_row (r : row) : Prop :=
  exists t p wh v i ip,
    r = [Stamp t; Fixed 4 p; Fixed 6 wh; Fixed 4 v; Fixed 4 i; Fixed 4 ip].

(** A data row of the averaging file: the four columns, in order. *)
Definition averaging_row (r : row) : Prop :=
  exists t v i p, r = [Stamp t; Number v; Number i; Number p].

(** The numeric fields a response must carry for a row: the first [n]
    comma-separated fields, each accepted by [ok]. *)
Definition fields_ok (ok : Py.str -> bool) (n : nat) (response : Py.str) : bool :=
  let values := Py.split Py.comma response in
  (n <=? List.length values)%nat && forallb ok (firstn n values).

(** A field the integration script converts: empty, or a float literal. *)
Definition empty_or_float (v : Py.str) : bool :=
  match v with
  | [] => true
  | _ => match PyFloat.parse v with Some _ => true | None => false end
  end.

(** A field the averaging script converts: a float literal. *)
Definition is_float (v : Py.str) : bool :=
  match PyFloat.parse v with Some _ => true | None => false end.

(** The value [float(v) if v else 0.0] gives, when it gives one. *)
Definition value_or_zero (v : Py.str) : option float :=
  match v with
  | [] => Some 0%float
  | _ => PyFloat.parse v
  end.

(** ** Runs *)

(** [wp m Q w]: running [m] from [w] ends in an outcome and a world that
    satisfy [Q]. *)
Definition wp {A} (m : M A) (Q : outcome A -> world -> Prop) (w : world) : Prop :=
  Q (fst (m w)) (snd (m w)).

(** What a read of the device amounts to for the script: the bytes, or
    nothing when the read raised. *)
Definition read_bytes (o : read_outcome) : option Py.bytes :=
  match o with
  | ReadLine b => Some b
  | ReadSerialError | ReadCrash => None
  end.

Definition write_ok (o : write_outcome) : bool :=
  match o with
  | WriteOk => true
  | WriteTimeout | WriteSerialError | WriteCrash => false
  end.

(** The monitor's verdict on all the traffic of a world. *)
Definition phase_of (w : world) : option phase := monitor Idle (traffic w).

(** No integration is in flight. *)
Definition calm (w : world) : Prop :=
  exists p, phase_of w = Some p /\ p <> InFlight.

(** What [safe_serial_write] leaves behind: one more write in the traffic,
    the time of the write and of the pause after a good one. *)
Definition write_effect (dev : device) (cmd : string) (ok : bool) (w w' : world)
  : Prop :=
  ok = write_ok (fst (dev_write dev (n_writes w))) /\
  traffic w' = traffic w ++ [Wrote cmd ok] /\
  csv w' = csv w /\
  n_writes w' = S (n_writes w) /\
  n_reads w' = n_reads w /\
  ser_open w' = ser_open w /\
  now w' = now w + Z.of_N (snd (dev_write dev (n_writes w)))
           + (if ok then 100 else 0).

(** What [safe_serial_read] leaves behind. *)
Definition read_effect (dev : device) (r : option Py.bytes) (w w' : world)
  : Prop :=
  r = read_bytes (fst (dev_read dev (n_reads w))) /\
  traffic w' = traffic w ++ [ReadBack r] /\
  csv w' = csv w /\
  n_writes w' = n_writes w /\
  n_reads w' = S (n_reads w) /\
  ser_open w' = ser_open w /\
  now w' = now w + Z.of_N (snd (dev_read dev (n_reads w))).

(** [w'] is [w] after the serial events [evs], [dt] milliseconds later,
    with [dw] more writes and [dr] more reads counted, the CSV file and the
    port as they were. *)
Definition advanced (w w' : world) (evs : list io_event) (dt : Z) (dw dr : nat)
  : Prop :=
  traffic w' = traffic w ++ evs /\
  csv w' = csv w /\
  n_writes w' = (n_writes w + dw)%nat /\
  n_reads w' = (n_reads w + dr)%nat /\
  ser_open w' = ser_open w /\
  now w' = now w + dt.

(** The exceptions the polling loop raises. *)
Definition polling_timeout (text : string) : exn :=
  {| exn_class_of := TimeoutError; exn_text := text; exn_object := [] |}.

Definition polling_abort (text : string) : exn :=
  {| exn_class_of := Exception; exn_text := text; exn_object := [] |}.

(** ** The polling loop as a transition system *)

(** A turn of the loop that goes round again: the state query could not be
    sent (and a second was slept), or it was sent and the read showed no end
    of the integration (nothing usable, a running state, or a state the
    script does not know).  Each such turn takes 100 ms or more. *)
Definition goes_around (dev : device) (w w1 : world) : Prop :=
  exists evs dt dr,
    advanced w w1 evs dt 1 dr /\ 100 <= dt /\
    ((write_ok (fst (dev_write dev (n_writes w))) = false /\
      evs = [Wrote cmd_state false] /\ dr = 0%nat) \/
     (write_ok (fst (dev_write dev (n_writes w))) = true /\
      dr = 1%nat /\
      let r := read_bytes (fst (dev_read dev (n_reads w))) in
      evs = [Wrote cmd_state true; ReadBack r] /\ shows_end r = false)).

(** How a polling phase that started at [start] runs from a world to its
    outcome: the watchdog expires at a check, a read shows completion, a
    read shows a stop or an overflow, or the turn goes round. *)
Inductive poll_run (dev : device) (interval start : Z)
  : world -> outcome unit -> world -> Prop :=
| PollExpired w e :
    timed_out interval start (now w) = true ->
    exn_class_of e = TimeoutError ->
    poll_run dev interval start w (Raise e) w
| PollComplete w w1 s dt :
    timed_out interval start (now w) = false ->
    write_ok (fst (dev_write dev (n_writes w))) = true ->
    read_result (read_bytes (fst (dev_read dev (n_reads w)))) = Some s ->
    classify s = Complete ->
    advanced w w1
      [Wrote cmd_state true;
       ReadBack (read_bytes (fst (dev_read dev (n_reads w))))] dt 1 1 ->
    poll_run dev interval start w (Ret tt) w1
| PollAbort w w1 s dt e :
    timed_out interval start (now w) = false ->
    write_ok (fst (dev_write dev (n_writes w))) = true ->
    read_result (read_bytes (fst (dev_read dev (n_reads w)))) = Some s ->
    classify s = StoppedUnexpectedly \/ classify s = Overflow ->
    exn_class_of e = Exception ->
    advanced w w1
      [Wrote cmd_state true;
       ReadBack (read_bytes (fst (dev_read dev (n_reads w))))] dt 1 1 ->
    poll_run dev interval start w (Raise e) w1
| PollAgain w w1 o w' :
    timed_out interval start (now w) = false ->
    goes_around dev w w1 ->
    poll_run dev interval start w1 o w' ->
    poll_run dev interval start w o w'.

(** ** What a computation does to the CSV file *)

(** It leaves the file as it is. *)
Definition keeps_csv {A} (m : M A) : Prop :=
  forall w, csv (snd (m w)) = csv w.

(** It appends nothing, or one row of the kind [R]. *)
Definition adds_at_most_one {A} (R : row -> Prop) (m : M A) : Prop :=
  forall w,
    csv (snd (m w)) = csv w \/
    exists r, R r /\ csv (snd (m w)) = csv w ++ [r].

(** It appends rows of the kind [R] only. *)
Definition adds_rows {A} (R : row -> Prop) (m : M A) : Prop :=
  forall w, exists rows, csv (snd (m w)) = csv w ++ rows /\ Forall R rows.

(** The numeric response the integration script turns into a row: the
    query went out, and the line that came back is not empty and has its
    four fields. *)
Definition yields_row (dev : device) (w : world) : bool :=
  write_ok (fst (dev_write dev (n_writes w))) &&
  match read_result (read_bytes (fst (dev_read dev (n_reads w)))) with
  | Some response =>
    Py.truthy response && fields_ok empty_or_float 4 response
  | None => false
  end.

(** The same for the averaging script: the query went out, the line
    decoded, and its text is not empty and has its three fields. *)
Definition avg_yields_row (dev : device) (w : world) : bool :=
  write_ok (fst (dev_write dev (n_writes w))) &&
  match fst (dev_read dev (n_reads w)) with
  | ReadLine b =>
    match Py.decode b with
    | Some s => Py.truthy (Py.strip s) && fields_ok is_float 3 (Py.strip s)
    | None => false
    end
  | ReadSerialError | ReadCrash => false
  end.


(** An event of the traffic that does not show the end of an integration:
    a write, or a read that shows none. *)
Definition quiet (e : io_event) : bool :=
  match e with
  | Wrote _ _ => true
  | ReadBack r => negb (shows_end r)
  end.


(** A stretch of polling traffic: state queries only, each with its read
    when it went out, and nothing after a read that shows the end of the
    integration. *)
Fixpoint polling_stretch (evs : list io_event) : bool :=
  match evs with
  | [] => true
  | Wrote cmd false :: t => (cmd =? cmd_state)%string && polling_stretch t
  | Wrote cmd true :: ReadBack r :: t =>
    (cmd =? cmd_state)%string &&
    (if shows_end r then match t with [] => true | _ :: _ => false end
     else polling_stretch t)
  | _ => false
  end.

(** The traffic of the fetch: the numeric query, and its read when the
    query went out. *)
Definition fetch_traffic (evs : list io_event) : Prop :=
  evs = [Wrote cmd_value false] \/
  exists r, evs = [Wrote cmd_value true; ReadBack r].

(** The serial traffic of one turn of the main loop, in the order of the
    cycle: the reset; when it went out, the start; when that went out, the
    polling; and, when a read of the polling showed completion, the
    fetch. *)
Inductive turn_traffic : list io_event -> Prop :=
| TurnNoReset :
    turn_traffic [Wrote cmd_reset false]
| TurnNoStart :
    turn_traffic [Wrote cmd_reset true; Wrote cmd_start false]
| TurnPolled polls :
    polling_stretch polls = true ->
    turn_traffic (Wrote cmd_reset true :: Wrote cmd_start true :: polls)
| TurnFetched polls r s tail :
    polling_stretch polls = true ->
    forallb quiet polls = true ->
    read_result r = Some s ->
    classify s = Complete ->
    fetch_traffic tail ->
    turn_traffic
      (Wrote cmd_reset true :: Wrote cmd_start true
       :: polls ++ Wrote cmd_state true :: ReadBack r :: tail).

(** An event that belongs to no cycle: a read, or a write of something
    else than the reset and the start. *)
Definition outside_cycle (e : io_event) : bool :=
  match e with
  | Wrote cmd _ =>
    negb (cmd =? cmd_reset)%string && negb (cmd =? cmd_start)%string
  | ReadBack _ => true
  end.

(** What a computation sends and reads: events of the kind [P] only. *)
Definition emits {A} (P : io_event -> bool) (m : M A) : Prop :=
  forall w, exists evs,
    traffic (snd (m w)) = traffic w ++ evs /\ forallb P evs = true.

(** A command that is neither the reset nor the start. *)
Definition plain (cmd : string) : Prop :=
  (cmd =? cmd_reset)%string = false /\ (cmd =? cmd_start)%string = false.

(** ** The configuration sequence *)

(** The set commands of the configuration, each with the position of its
    write among the writes of the script: write 0 is the identification
    query, writes 4, 5, 6 and 12 are the read-back queries. *)
Definition set_commands (interval : Z) : list (nat * string) :=
  [(1%nat, line ":INTegrate:MODE STANdard");
   (2%nat, line ":INTegrate:FUNCtion WATT");
   (3%nat, timer_cmd interval);
   (7%nat, line ":NUMeric:NORMal:ITEM1 UPPeak");
   (8%nat, line ":NUMeric:NORMal:ITEM2 I");
   (9%nat, line ":NUMeric:NORMal:ITEM3 P");
   (10%nat, line ":NUMeric:NORMal:ITEM4 WH");
   (11%nat, line ":NUMeric:NORMal:NUMBer 4")].

(** The port opens and the instrument answers the identification query
    with some text. *)
Definition identifies (dev : device) : Prop :=
  dev_opens dev = true /\
  write_ok (fst (dev_write dev 0)) = true /\
  exists c r, read_result (read_bytes (fst (dev_read dev 0))) = Some (c :: r).

(** Where the configuration stands: the port is open and [k] writes have
    been made. *)
Definition at_config (k : nat) (w : world) : Prop :=
  n_writes w = k /\ ser_open w = true.

(** How the body of the configuration can end: with every set command
    sent; or with the [Exception] of an identification that failed or of
    the first set command that could not be sent, this command being the
    last thing written. *)
Definition config_post (dev : device) (interval : Z)
  (o : outcome unit) (w' : world) : Prop :=
  match o with
  | Ret _ =>
    forall j c, In (j, c) (set_commands interval) ->
                write_ok (fst (dev_write dev j)) = true
  | Raise e =>
    exn_class_of e = Exception /\ ser_open w' = true /\
    ((write_ok (fst (dev_write dev 0)) = false \/
      forall c r,
        read_result (read_bytes (fst (dev_read dev 0))) <> Some (c :: r)) \/
     exists i cmd pre,
       In (i, cmd) (set_commands interval) /\
       n_writes w' = S i /\
       traffic w' = pre ++ [Wrote cmd false] /\
       write_ok (fst (dev_write dev i)) = false /\
       forall j c, In (j, c) (set_commands interval) -> (j < i)%nat ->
                   write_ok (fst (dev_write dev j)) = true)
  | OutOfFuel => False
  end.

(** ** Bench devices *)

Module Bench.

(** A device that follows a script of writes and reads; past the script,
    writes go through at once and reads time out empty after the two
    seconds of the port's read timeout. *)
Definition scripted (ws : list (write_outcome * N)) (rs : list (read_outcome * N))
  : device :=
  {| dev_opens := true;
     dev_write := fun n => nth n ws (WriteOk, 0%N);
     dev_read := fun n => nth n rs (ReadLine [], 2000%N) |}.

(** The instrument answers [s] and a newline, 10 ms after the read starts. *)
Definition answers (s : string) : read_outcome * N :=
  (ReadLine (wire (line s)), 10%N).

(** The answers to the identification and to the four read-backs of the
    configuration. *)
Definition config_answers : list (read_outcome * N) :=
  [answers "TELEDYNE,T3PM1006"; answers "STAN"; answers "WATT";
   answers "0,0,10"; answers "4"].

(** An instrument that keeps reporting a running integration. *)
Definition always_running : device :=
  {| dev_opens := true;
     dev_write := fun _ => (WriteOk, 0%N);
     dev_read := fun n => nth n config_answers (answers "RUNNING") |}.

(** An idle instrument that answers the state query with RUNNING twice
    and then TIMEUP, and the numeric query with four values; and one that
    answers the state query with STOP. *)
Definition completes : device :=
  scripted [] [answers "RUNNING"; answers "RUNNING"; answers "TIMEUP";
               answers "12.5,0.8,9.2,0.002778"].

Definition stops : device := scripted [] [answers "STOP"].

(** An instrument on which the write of the first item command (write 7)
    times out; and one whose read-back queries get nowhere: the first
    cannot be sent, the others get no answer. *)
Definition item1_fails : device :=
  scripted (repeat (WriteOk, 0%N) 7 ++ [(WriteTimeout, 0%N)]) config_answers.

Definition no_readback : device :=
  scripted (repeat (WriteOk, 0%N) 4 ++ [(WriteSerialError, 0%N)])
           [answers "TELEDYNE,T3PM1006"].

Definition t0 : Z := 1700000000000.

(** A fresh start: that clock reading and no CSV file yet. *)
Definition w0 : world := initial_world t0 [].

(** A port on which nothing arrives, and one that delivers two bytes that
    are not UTF-8. *)
Definition silent : device := scripted [] [].
Definition garbled : device :=
  scripted [] [(ReadLine [Byte.xff; Byte.xfe], 10%N)].

End Bench.

(* ================================================================== *)
(** * [t3pm1006_avgAC.py]: connect and configure *)
(* ================================================================== *)

Module PyInt.
Import Py.

(** [s.split()]: the maximal runs of characters that are not white space,
    in order.  [tok] is the run being read, its last character first. *)
Fixpoint split_from (tok : str) (s : str) : list str :=
  match s with
  | [] => match tok with [] => [] | _ :: _ => [rev tok] end
  | c :: r =>
    if isspace c then
      match tok with
      | [] => split_from [] r
      | _ :: _ => rev tok :: split_from [] r
      end
    else split_from (c :: tok) r
  end.

Definition split_ws (s : str) : list str := split_from [] s.

(** The most digits [int] takes from a text (the default of Python 3.11
    and later). *)
Definition max_str_digits : nat := 4300.

(** [int(s)] in base ten: white space around, an optional sign, digits
    with single underscores between them, read after [to_ascii] as for
    [float].  [None] stands for [ValueError]. *)
Definition parse (s : str) : option Z :=
  let body :=
    rev (PyFloat.skip_space (rev (PyFloat.skip_space (PyFloat.to_ascii s)))) in
  match PyFloat.drop_underscores 0%N body with
  | None => None
  | Some t =>
    let '(neg, u) := PyFloat.take_sign t in
    match PyFloat.span_digits u with
    | (d :: ds, []) =>
      if (List.length (d :: ds) <=? max_str_digits)%nat then
        let n := Z.of_N (PyFloat.digits_value (d :: ds)) in
        Some (if neg then - n else n)
      else None
    | _ => None
    end
  end.

End PyInt.

Section AveragingConfig.

Variable dev : device.

(** [averaging_count] *)
Variable averaging_count : Z.

(** [ser.readline().decode().strip()] *)
Definition read_text : M Py.str :=
  response_bytes <- ser_readline dev ;;
  decoded <- bytes_decode response_bytes ;;
  ret (Py.strip decoded).

(** Lines 63-73: [number_response_val], [-1] unless the last word of the
    answer reads as an integer. *)
Definition number_response_val_of (number_response_raw : Py.str) : M Z :=
  if Py.truthy number_response_raw then
    try_except
      (match rev (PyInt.split_ws number_response_raw) with
       | last :: _ =>
         match PyInt.parse last with
         | Some n =>
           print (SayStr "Current number of items reported"
                         (Py.lit (Py.str_of_int n))) ;;
           ret n
         | None => raise ValueError "invalid literal for int() with base 10"
         end
       | [] => raise IndexError "list index out of range"
       end)
      (fun e =>
         if caught_by e IndexError || caught_by e ValueError then
           print (SayStr "Could not parse number of items from response"
                         number_response_raw) ;;
           ret (-1)
         else reraise e)
  else
    print (Say "Warning: No response received for :NUMERIC:NORMAL:NUMBER? query.") ;;
    ret (-1).

(** Lines 75-86: [if number_response_val != 3: ...] *)
Definition set_number_of_items (number_response_val : Z) : M unit :=
  if negb (number_response_val =? 3) then
    print (Say "Setting number of items to 3...") ;;
    ser_write dev (line ":NUMeric:NORMal:NUMBer 3") ;;
    sleep 200 ;;
    ser_write dev (line ":NUMERIC:NORMAL:NUMBER?") ;;
    sleep 100 ;;
    confirm_response <- read_text ;;
    print (SayStr "Confirmation response after setting NUMBER" confirm_response)
  else print (Say "Number of items is already 3.").

Definition averaging_cmd : string :=
  line (":MEASure:AVERaging:COUNt " ++ Py.str_of_int averaging_count).

(** The body of the first [try] (lines 16-101). *)
Definition avg_configure_body : M unit :=
  print (Say "Attempting to connect...") ;;
  serial_open dev ;;
  print (Say "Connected successfully.") ;;
  ser_write dev (line "*IDN?") ;;
  sleep 200 ;;
  idn_response <- read_text ;;
  (if Py.truthy idn_response then print (SayStr "Instrument ID" idn_response)
   else print (Say "Warning: No response to *IDN?. Check connection/instrument state.")) ;;
  print (Say "Setting measurement items: 1=UPPeak, 2=I, 3=P...") ;;
  ser_write dev (line ":NUMeric:NORMal:ITEM1 UPPeak") ;;
  sleep 200 ;;
  ser_write dev (line ":NUMeric:NORMal:ITEM2 I") ;;
  sleep 200 ;;
  ser_write dev (line ":NUMeric:NORMal:ITEM3 P") ;;
  sleep 200 ;;
  print (Say "Querying item settings for confirmation...") ;;
  ser_write dev (line ":NUMERIC:NORMAL:ITEM1?") ;;
  sleep 100 ;;
  item1_resp <- read_text ;;
  print (SayStr "Confirmation item 1" item1_resp) ;;
  ser_write dev (line ":NUMERIC:NORMAL:ITEM2?") ;;
  sleep 100 ;;
  item2_resp <- read_text ;;
  print (SayStr "Confirmation item 2" item2_resp) ;;
  ser_write dev (line ":NUMERIC:NORMAL:ITEM3?") ;;
  sleep 100 ;;
  item3_resp <- read_text ;;
  print (SayStr "Confirmation item 3" item3_resp) ;;
  print (Say "Checking/Setting number of items to return to 3...") ;;
  ser_write dev (line ":NUMERIC:NORMAL:NUMBER?") ;;
  sleep 100 ;;
  number_response_raw <- read_text ;;
  print (SayStr "Response for NUMBER query" number_response_raw) ;;
  number_response_val <- number_response_val_of number_response_raw ;;
  set_number_of_items number_response_val ;;
  print (SayStr "Setting averaging count to"
                (Py.lit (Py.str_of_int averaging_count))) ;;
  ser_write dev averaging_cmd ;;
  sleep 200 ;;
  ser_write dev (line ":MEASURE:AVERAGING:COUNT?") ;;
  sleep 100 ;;
  avg_response <- read_text ;;
  (if Py.truthy avg_response then
     print (SayStr "Averaging count confirmation response" avg_response)
   else
     print (Say "Warning: No response received for :MEASURE:AVERAGING:COUNT? query.")).

(** The first [try] with its handlers (lines 103-113).  [Some code]: the
    script left through [exit()], whose status is 0; [None]: configuration
    is done. *)
Definition avg_configure : M (option Z) :=
  try_except
    (avg_configure_body ;; ret None)
    (fun e =>
       if caught_by e SerialException then
         print (SayExn "Fatal Error: Serial communication error during configuration" e) ;;
         close_if_open ;;
         ret (Some 0)
       else if caught_by e Exception then
         print (SayExn "Fatal Error: An unexpected error occurred during configuration" e) ;;
         close_if_open ;;
         ret (Some 0)
       else reraise e).

(** The whole script; the result is the exit status: 0 at the end of the
    file and after [exit()], 1 when an exception gets out of the script. *)
Definition avg_main (cycles : nat) : M Z :=
  status <- avg_configure ;;
  match status with
  | Some code => ret code
  | None =>
    print (Say "Starting measurement loop.") ;;
    fun w =>
      match avg_measurement dev cycles w with
      | (Ret _, w') => (Ret 0, w')
      | (Raise _, w') => (Ret 1, w')
      | (OutOfFuel, w') => (OutOfFuel, w')
      end
  end.

End AveragingConfig.

(* ================================================================== *)
(** * Further notions *)
(* ================================================================== *)

(** The state queries in a stretch of traffic. *)
Fixpoint queries (evs : list io_event) : nat :=
  match evs with
  | [] => 0
  | Wrote _ _ :: t => S (queries t)
  | ReadBack _ :: t => queries t
  end.

(** A stretch of traffic made of polling turns only: a state query that
    did not go out, or one that did and the read that follows it. *)
Fixpoint polls_only (evs : list io_event) : bool :=
  match evs with
  | [] => true
  | Wrote cmd false :: t => (cmd =? cmd_state)%string && polls_only t
  | Wrote cmd true :: ReadBack _ :: t => (cmd =? cmd_state)%string && polls_only t
  | _ => false
  end.

(** A text without white space at either end. *)
Definition stripped (s : Py.str) : Prop :=
  match s with
  | [] => True
  | c :: _ => Py.isspace c = false /\ Py.isspace (last s c) = false
  end.

(** It leaves the port as it is. *)
Definition keeps_port {A} (m : M A) : Prop :=
  forall w, ser_open (snd (m w)) = ser_open w.

(** It returns, or raises something an [except Exception] catches. *)
Definition raises_exceptions_only {A} (m : M A) : Prop :=
  forall w,
    match fst (m w) with
    | Ret _ => True
    | Raise e => caught_by e Exception = true
    | OutOfFuel => False
    end.

(** The number of items the instrument reports, as the averaging script
    reads it from the answer to the number query. *)
Definition reported_items (number_response_raw : Py.str) : option Z :=
  match rev (PyInt.split_ws number_response_raw) with
  | last :: _ => PyInt.parse last
  | [] => None
  end.

(** What ends the loop of the averaging script in a turn: the query or the
    read raised, or the line is not UTF-8. *)
Definition avg_breaks (dev : device) (w : world) : bool :=
  negb (write_ok (fst (dev_write dev (n_writes w)))) ||
  match fst (dev_read dev (n_reads w)) with
  | ReadLine b => match Py.decode b with Some _ => false | None => true end
  | ReadSerialError | ReadCrash => true
  end.

(** The commas of a text. *)
Definition commas (s : Py.str) : nat :=
  List.length (filter (fun c => (c =? Py.comma)%N) s).

(** [",".join(fields)] *)
Fixpoint join (fields : list Py.str) : Py.str :=
  match fields with
  | [] => []
  | [f] => f
  | f :: fs => f ++ Py.comma :: join fs
  end.

(** How the outcome of a computation tells whether it appended a row: a
    result that [good] accepts comes with exactly one new row of the
    integration file, every other outcome with the file as it was. *)
Definition row_iff {A} (good : A -> bool) (m : M A) : Prop :=
  forall w,
    match fst (m w) with
    | Ret a =>
      if good a
      then exists r, integration_row r /\ csv (snd (m w)) = csv w ++ [r]
      else csv (snd (m w)) = csv w
    | Raise _ | OutOfFuel => csv (snd (m w)) = csv w
    end.

(** A turn of the main loop that ended without error. *)
Definition succeeded (k : cycle_end) : bool :=
  match k with
  | NextCycle false => true
  | NextCycle true | Break => false
  end.

(** A port that does not open. *)
Definition unplugged : device :=
  {| dev_opens := false;
     dev_write := fun _ => (WriteOk, 0%N);
     dev_read := fun _ => (ReadLine [], 2000%N) |}.

(** The answer to the number query as the averaging script reads it from
    the instrument: the stripped text of read 4 (after the identification
    and the three item read-backs). *)
Definition number_answer (dev : device) : option Z :=
  match fst (dev_read dev 4) with
  | ReadLine b =>
    match Py.decode b with
    | Some s => reported_items (Py.strip s)
    | None => None
    end
  | ReadSerialError | ReadCrash => None
  end.

Definition cmd_number_3 : string := line ":NUMeric:NORMal:NUMBer 3".

(** An instrument that answers every read of the averaging script with
    [s]. *)
Definition answering (s : string) : device :=
  {| dev_opens := true;
     dev_write := fun _ => (WriteOk, 0%N);
     dev_read := fun _ => Bench.answers s |}.

(** Where the configuration of the averaging script stands: the writes
    and the reads made, the traffic so far, the port open and the CSV file
    as it was. *)
Definition config_state (file : list row) (nw nr : nat) (tr : list io_event)
  (w : world) : Prop :=
  n_writes w = nw /\ n_reads w = nr /\ traffic w = tr /\
  ser_open w = true /\ csv w = file.

(** The instrument reports three items already. *)
Definition reports_three (dev : device) : bool :=
  match number_answer dev with
  | Some n => n =? 3
  | None => false
  end.

(* ================================================================== *)
(** * Properties *)
(* ================================================================== *)

(** ** [seconds_to_hms] *)

Lemma seconds_to_hms_eq (s : Z) :
  seconds_to_hms s = (Z.min (s / 3600) 9999, (s mod 3600) / 60, s mod 60).
Proof. reflexivity. Qed.

(** C2: for every number of seconds from 0 up to the largest the timer
    command can carry, [seconds_to_hms] gives the hours (clamped to 9999),
    minutes and seconds of the floor divisions, they add up to the input
    again, and minutes and seconds are below 60. *)
Theorem seconds_to_hms_exact (s : Z) :
  0 <= s <= max_encodable_seconds ->
  exists h m s',
    seconds_to_hms s = (h, m, s') /\
    h = Z.min (s / 3600) 9999 /\ m = (s mod 3600) / 60 /\ s' = s mod 60 /\
    h * 3600 + m * 60 + s' = s /\
    0 <= h <= 9999 /\ 0 <= m < 60 /\ 0 <= s' < 60.
Proof.
  unfold max_encodable_seconds. intros Hs.
  exists (Z.min (s / 3600) 9999), ((s mod 3600) / 60), (s mod 60).
  rewrite seconds_to_hms_eq.
  assert (Hq : 0 <= s / 3600 <= 9999).
  { split; [apply Z.div_pos; lia|].
    apply Z.lt_succ_r. apply Z.div_lt_upper_bound; lia. }
  assert (Hr : 0 <= s mod 3600 < 3600) by (apply Z.mod_pos_bound; lia).
  assert (Hm : 0 <= (s mod 3600) / 60 < 60).
  { split; [apply Z.div_pos; lia|]. apply Z.div_lt_upper_bound; lia. }
  assert (Hs' : 0 <= s mod 60 < 60) by (apply Z.mod_pos_bound; lia).
  assert (E1 : s = 3600 * (s / 3600) + s mod 3600) by (apply Z.div_mod; lia).
  assert (E2 : s mod 3600 = 60 * ((s mod 3600) / 60) + (s mod 3600) mod 60)
    by (apply Z.div_mod; lia).
  assert (E3 : (s mod 3600) mod 60 = s mod 60).
  { symmetry. rewrite E1 at 1.
    replace (3600 * (s / 3600) + s mod 3600)
      with (s mod 3600 + (60 * (s / 3600)) * 60) by lia.
    apply Z.mod_add. lia. }
  rewrite Z.min_l by lia.
  repeat split; try lia.
Qed.

Lemma seconds_to_hms_exact_witness :
  exists h m s',
    seconds_to_hms 3725 = (h, m, s') /\
    h = Z.min (3725 / 3600) 9999 /\ m = (3725 mod 3600) / 60 /\
    s' = 3725 mod 60 /\
    h * 3600 + m * 60 + s' = 3725 /\
    0 <= h <= 9999 /\ 0 <= m < 60 /\ 0 <= s' < 60.
Proof. apply (seconds_to_hms_exact 3725). unfold max_encodable_seconds. lia. Defined.

(** ** Rules for [wp] *)

Lemma wp_ret {A} (a : A) Q w : Q (Ret a) w -> wp (ret a) Q w.
Proof. exact (fun H => H). Qed.

Lemma wp_bind {A B} (m : M A) (k : A -> M B) Q w :
  wp m (fun o w' =>
          match o with
          | Ret a => wp (k a) Q w'
          | Raise e => Q (Raise e) w'
          | OutOfFuel => Q OutOfFuel w'
          end) w ->
  wp (bind m k) Q w.
Proof.
  unfold wp, bind. destruct (m w) as [[a|e|] w']; cbn; auto.
Qed.

Lemma wp_try {A} (m : M A) (h : exn -> M A) Q w :
  wp m (fun o w' =>
          match o with
          | Raise e => wp (h e) Q w'
          | r => Q r w'
          end) w ->
  wp (try_except m h) Q w.
Proof.
  unfold wp, try_except. destruct (m w) as [[a|e|] w']; cbn; auto.
Qed.

Lemma wp_raise {A} c text (Q : outcome A -> world -> Prop) w :
  Q (Raise {| exn_class_of := c; exn_text := text; exn_object := [] |}) w ->
  wp (raise c text) Q w.
Proof. exact (fun H => H). Qed.

Lemma wp_reraise {A} e (Q : outcome A -> world -> Prop) w :
  Q (Raise e) w -> wp (reraise e) Q w.
Proof. exact (fun H => H). Qed.

Lemma wp_print m Q w : Q (Ret tt) (add_console m w) -> wp (print m) Q w.
Proof. exact (fun H => H). Qed.

Lemma wp_sleep ms Q w : Q (Ret tt) (set_now (now w + ms) w) -> wp (sleep ms) Q w.
Proof. exact (fun H => H). Qed.

Lemma wp_time Q w : Q (Ret (now w)) w -> wp time Q w.
Proof. exact (fun H => H). Qed.

Lemma wp_writerow r Q w : Q (Ret tt) (add_row r w) -> wp (writerow r) Q w.
Proof. exact (fun H => H). Qed.

Lemma wp_run {A} (m : M A) Q w o w' : m w = (o, w') -> Q o w' -> wp m Q w.
Proof. unfold wp. intros ->. auto. Qed.

(** One step of symbolic execution on a [wp] goal. *)
Ltac wp_step :=
  first
    [ apply wp_bind
    | apply wp_ret
    | apply wp_print
    | apply wp_sleep
    | apply wp_time
    | apply wp_writerow
    | apply wp_raise
    | apply wp_reraise ].

Ltac wp_steps := repeat wp_step.

(** ** The safe read and write *)

Section SerialFacts.

Variable dev : device.

Lemma safe_serial_write_ok cmd w ms :
  dev_write dev (n_writes w) = (WriteOk, ms) ->
  safe_serial_write dev cmd w =
  (Ret true,
   set_now (now w + Z.of_N ms + 100) (did_write cmd true ms w)).
Proof.
  intros E. unfold safe_serial_write, try_except, bind, ser_write.
  rewrite E. reflexivity.
Qed.

Lemma safe_serial_write_failed cmd w o ms :
  dev_write dev (n_writes w) = (o, ms) -> write_ok o = false ->
  exists m, safe_serial_write dev cmd w =
            (Ret false, add_console m (did_write cmd false ms w)).
Proof.
  intros E H. unfold safe_serial_write, try_except, bind, ser_write.
  rewrite E. destruct o; try discriminate; cbn; eexists; reflexivity.
Qed.

Lemma safe_serial_write_run cmd w :
  exists ok w',
    safe_serial_write dev cmd w = (Ret ok, w') /\ write_effect dev cmd ok w w'.
Proof.
  destruct (dev_write dev (n_writes w)) as [o ms] eqn:E.
  destruct (write_ok o) eqn:Ho.
  - destruct o; try discriminate.
    exists true. eexists. split; [apply safe_serial_write_ok; eassumption|].
    unfold write_effect. rewrite E. cbn. repeat split; lia.
  - destruct (safe_serial_write_failed cmd w o ms E Ho) as [m Hm].
    exists false. eexists. split; [exact Hm|].
    unfold write_effect. rewrite E. cbn. rewrite Ho. repeat split; lia.
Qed.

Lemma wp_safe_serial_write cmd Q w :
  (forall ok w', write_effect dev cmd ok w w' -> Q (Ret ok) w') ->
  wp (safe_serial_write dev cmd) Q w.
Proof.
  intros H. destruct (safe_serial_write_run cmd w) as (ok & w' & E & F).
  eapply wp_run; eauto.
Qed.

(** What the console gets from a read: nothing, unless the read raised or
    the bytes did not decode. *)
Lemma safe_serial_read_line b w ms :
  dev_read dev (n_reads w) = (ReadLine b, ms) ->
  safe_serial_read dev w =
  match b with
  | [] => (Ret None, did_read (Some b) ms w)
  | _ :: _ =>
    match Py.decode b with
    | Some s => (Ret (Some (Py.strip s)), did_read (Some b) ms w)
    | None =>
      (Ret None,
       add_console
         (SayExn "Error: Could not decode received bytes"
                 {| exn_class_of := UnicodeDecodeError;
                    exn_text := "invalid utf-8";
                    exn_object := b |})
         (did_read (Some b) ms w))
    end
  end.
Proof.
  intros E. unfold safe_serial_read, try_except, bind, ser_readline.
  rewrite E. destruct b as [|b0 bs]; [reflexivity|].
  unfold bytes_decode. destruct (Py.decode (b0 :: bs)); reflexivity.
Qed.

Lemma safe_serial_read_raised o w ms :
  dev_read dev (n_reads w) = (o, ms) -> read_bytes o = None ->
  exists m, safe_serial_read dev w =
            (Ret None, add_console m (did_read None ms w)).
Proof.
  intros E H. unfold safe_serial_read, try_except, bind, ser_readline.
  rewrite E. destruct o; try discriminate; cbn; eexists; reflexivity.
Qed.

Lemma safe_serial_read_run w :
  exists r w',
    safe_serial_read dev w = (Ret (read_result r), w') /\
    read_effect dev r w w'.
Proof.
  destruct (dev_read dev (n_reads w)) as [o ms] eqn:E.
  destruct o as [b| |].
  - exists (Some b). rewrite (safe_serial_read_line b w ms E).
    unfold read_effect. rewrite E.
    destruct b as [|b0 bs].
    + eexists. split; [reflexivity|]. cbn. repeat split; lia.
    + cbn [read_result]. destruct (Py.decode (b0 :: bs)); cbn [option_map];
        eexists; (split; [reflexivity|]); cbn; repeat split; lia.
  - destruct (safe_serial_read_raised ReadSerialError w ms E eq_refl) as [m Hm].
    exists None. eexists. split; [exact Hm|].
    unfold read_effect. rewrite E. cbn. repeat split; lia.
  - destruct (safe_serial_read_raised ReadCrash w ms E eq_refl) as [m Hm].
    exists None. eexists. split; [exact Hm|].
    unfold read_effect. rewrite E. cbn. repeat split; lia.
Qed.

Lemma wp_safe_serial_read Q w :
  (forall r w', read_effect dev r w w' -> Q (Ret (read_result r)) w') ->
  wp (safe_serial_read dev) Q w.
Proof.
  intros H. destruct (safe_serial_read_run w) as (r & w' & E & F).
  eapply wp_run; eauto.
Qed.

Lemma wp_must_write cmd text Q w :
  (forall w', write_effect dev cmd true w w' -> Q (Ret tt) w') ->
  (forall w', write_effect dev cmd false w w' ->
              Q (Raise {| exn_class_of := Exception; exn_text := text;
                          exn_object := [] |}) w') ->
  wp (must_write dev cmd text) Q w.
Proof.
  intros Hok Hfail. unfold must_write. apply wp_bind.
  apply wp_safe_serial_write. intros [|] w' F.
  - apply wp_ret. auto.
  - apply wp_raise. auto.
Qed.

End SerialFacts.

(** ** Decoding the numeric response *)

Lemma float_or_zero_run v w :
  float_or_zero v w =
  match value_or_zero v with
  | Some x => (Ret x, w)
  | None =>
    (Raise {| exn_class_of := ValueError;
              exn_text := "could not convert string to float";
              exn_object := [] |}, w)
  end.
Proof.
  unfold float_or_zero, float_of, value_or_zero.
  destruct v as [|c r]; [reflexivity|]. cbn [Py.truthy].
  destruct (PyFloat.parse (c :: r)); reflexivity.
Qed.

Lemma float_of_run v w :
  float_of v w =
  match PyFloat.parse v with
  | Some x => (Ret x, w)
  | None =>
    (Raise {| exn_class_of := ValueError;
              exn_text := "could not convert string to float";
              exn_object := [] |}, w)
  end.
Proof. unfold float_of. destruct (PyFloat.parse v); reflexivity. Qed.

(** The row of a decoded integration sample, written at time [t]. *)
Lemma process_response_run interval response w :
  process_response interval response w =
  match Py.split Py.comma response with
  | v0 :: v1 :: v2 :: v3 :: _ =>
    match value_or_zero v0, value_or_zero v1, value_or_zero v2,
          value_or_zero v3 with
    | Some peak_voltage, Some current, Some instant_power, Some watt_hours =>
      let average_power := average_power_of interval watt_hours in
      (Ret false,
       add_row [Stamp (now w); Fixed 4 average_power; Fixed 6 watt_hours;
                Fixed 4 peak_voltage; Fixed 4 current; Fixed 4 instant_power]
         (add_console
            (SaySample (now w)
               [average_power; watt_hours; peak_voltage; current;
                instant_power]) w))
    | _, _, _, _ =>
      (Ret true,
       add_console (SayStr "Error parsing measurement response" response) w)
    end
  | values =>
    (Ret true,
     add_console
       (SayCount "Warning: Received unexpected number of values"
                 (List.length values) response) w)
  end.
Proof.
  unfold process_response, try_except.
  destruct (Py.split Py.comma response) as [|v0 [|v1 [|v2 [|v3 rest]]]];
    try reflexivity.
  cbn [List.length Nat.leb]. unfold bind, item. cbn [nth_error]. unfold ret.
  rewrite (float_or_zero_run v0).
  destruct (value_or_zero v0); [|reflexivity].
  rewrite (float_or_zero_run v1).
  destruct (value_or_zero v1); [|reflexivity].
  rewrite (float_or_zero_run v2).
  destruct (value_or_zero v2); [|reflexivity].
  rewrite (float_or_zero_run v3).
  destruct (value_or_zero v3); reflexivity.
Qed.

Lemma avg_process_response_run response w :
  avg_process_response response w =
  match Py.split Py.comma response with
  | v0 :: v1 :: v2 :: _ =>
    match PyFloat.parse v0, PyFloat.parse v1, PyFloat.parse v2 with
    | Some peak_voltage, Some current, Some power =>
      (Ret tt,
       add_row [Stamp (now w); Number peak_voltage; Number current;
                Number power]
         (add_console (SaySample (now w) [peak_voltage; current; power]) w))
    | _, _, _ =>
      (Ret tt, add_console (SayStr "Error parsing response" response) w)
    end
  | values =>
    (Ret tt,
     add_console
       (SayCount "Warning: Received unexpected number of values"
                 (List.length values) response) w)
  end.
Proof.
  unfold avg_process_response, try_except.
  destruct (Py.split Py.comma response) as [|v0 [|v1 [|v2 rest]]];
    try reflexivity.
  cbn [List.length Nat.leb]. unfold bind, item. cbn [nth_error]. unfold ret.
  rewrite (float_of_run v0). destruct (PyFloat.parse v0); [|reflexivity].
  rewrite (float_of_run v1). destruct (PyFloat.parse v1); [|reflexivity].
  rewrite (float_of_run v2). destruct (PyFloat.parse v2); reflexivity.
Qed.

Lemma empty_or_float_value v :
  empty_or_float v = true -> exists x, value_or_zero v = Some x.
Proof.
  unfold empty_or_float, value_or_zero. destruct v as [|c r].
  - intros _. eexists. reflexivity.
  - destruct (PyFloat.parse (c :: r)); [eexists; reflexivity | discriminate].
Qed.

Lemma is_float_value v :
  is_float v = true -> exists x, PyFloat.parse v = Some x.
Proof.
  unfold is_float. destruct (PyFloat.parse v); [eexists; reflexivity | discriminate].
Qed.

Lemma parse_empty : PyFloat.parse [] = None.
Proof. reflexivity. Qed.

(** With the four fields in order, the integration script writes one row
    and leaves [cycle_error] unset. *)
Lemma process_response_row interval response w :
  fields_ok empty_or_float 4 response = true ->
  exists v0 v1 v2 v3 rest pv c ip wh,
    Py.split Py.comma response = v0 :: v1 :: v2 :: v3 :: rest /\
    value_or_zero v0 = Some pv /\ value_or_zero v1 = Some c /\
    value_or_zero v2 = Some ip /\ value_or_zero v3 = Some wh /\
    process_response interval response w =
    (Ret false,
     add_row [Stamp (now w); Fixed 4 (average_power_of interval wh);
              Fixed 6 wh; Fixed 4 pv; Fixed 4 c; Fixed 4 ip]
       (add_console
          (SaySample (now w)
             [average_power_of interval wh; wh; pv; c; ip]) w)).
Proof.
  unfold fields_ok. intros H. rewrite process_response_run.
  destruct (Py.split Py.comma response) as [|v0 [|v1 [|v2 [|v3 rest]]]];
    try discriminate.
  cbn in H. rewrite !andb_true_iff in H.
  destruct H as (H0 & H1 & H2 & H3 & _).
  destruct (empty_or_float_value _ H0) as [pv E0].
  destruct (empty_or_float_value _ H1) as [c E1].
  destruct (empty_or_float_value _ H2) as [ip E2].
  destruct (empty_or_float_value _ H3) as [wh E3].
  exists v0, v1, v2, v3, rest, pv, c, ip, wh.
  rewrite E0, E1, E2, E3. repeat split; reflexivity.
Qed.

Lemma avg_process_response_row response w :
  fields_ok is_float 3 response = true ->
  exists v0 v1 v2 rest pv c p,
    Py.split Py.comma response = v0 :: v1 :: v2 :: rest /\
    PyFloat.parse v0 = Some pv /\ PyFloat.parse v1 = Some c /\
    PyFloat.parse v2 = Some p /\
    avg_process_response response w =
    (Ret tt,
     add_row [Stamp (now w); Number pv; Number c; Number p]
       (add_console (SaySample (now w) [pv; c; p]) w)).
Proof.
  unfold fields_ok. intros H. rewrite avg_process_response_run.
  destruct (Py.split Py.comma response) as [|v0 [|v1 [|v2 rest]]];
    try discriminate.
  cbn in H. rewrite !andb_true_iff in H.
  destruct H as (H0 & H1 & H2 & _).
  destruct (is_float_value _ H0) as [pv E0].
  destruct (is_float_value _ H1) as [c E1].
  destruct (is_float_value _ H2) as [p E2].
  exists v0, v1, v2, rest, pv, c, p.
  rewrite E0, E1, E2. repeat split; reflexivity.
Qed.

(** Without the fields, or with one that does not convert, no row. *)
Lemma process_response_no_row interval response w :
  fields_ok empty_or_float 4 response = false ->
  fst (process_response interval response w) = Ret true /\
  csv (snd (process_response interval response w)) = csv w.
Proof.
  unfold fields_ok. intros H. rewrite process_response_run.
  destruct (Py.split Py.comma response) as [|v0 [|v1 [|v2 [|v3 rest]]]];
    try (split; reflexivity).
  cbn in H. unfold empty_or_float, value_or_zero in *.
  destruct v0 as [|a0 r0]; [|destruct (PyFloat.parse (a0 :: r0))];
    try (split; reflexivity);
    (destruct v1 as [|a1 r1]; [|destruct (PyFloat.parse (a1 :: r1))];
     try (split; reflexivity);
     (destruct v2 as [|a2 r2]; [|destruct (PyFloat.parse (a2 :: r2))];
      try (split; reflexivity);
      (destruct v3 as [|a3 r3]; [|destruct (PyFloat.parse (a3 :: r3))];
       try (split; reflexivity); discriminate))).
Qed.

Lemma avg_process_response_no_row response w :
  fields_ok is_float 3 response = false ->
  fst (avg_process_response response w) = Ret tt /\
  csv (snd (avg_process_response response w)) = csv w.
Proof.
  unfold fields_ok. intros H. rewrite avg_process_response_run.
  destruct (Py.split Py.comma response) as [|v0 [|v1 [|v2 rest]]];
    try (split; reflexivity).
  cbn in H. unfold is_float in H.
  destruct (PyFloat.parse v0); try (split; reflexivity).
  destruct (PyFloat.parse v1); try (split; reflexivity).
  destruct (PyFloat.parse v2); try (split; reflexivity).
  discriminate.
Qed.

(** With the fields there but one that does not convert, the response is
    reported as it came. *)
Lemma process_response_parse_error interval response w :
  (4 <= List.length (Py.split Py.comma response))%nat ->
  fields_ok empty_or_float 4 response = false ->
  process_response interval response w =
  (Ret true,
   add_console (SayStr "Error parsing measurement response" response) w).
Proof.
  unfold fields_ok. intros Hlen H. rewrite process_response_run.
  destruct (Py.split Py.comma response) as [|v0 [|v1 [|v2 [|v3 rest]]]];
    try (cbn in Hlen; lia).
  cbn in H. unfold empty_or_float, value_or_zero in *.
  destruct v0 as [|a0 r0]; [|destruct (PyFloat.parse (a0 :: r0))];
    try reflexivity;
    (destruct v1 as [|a1 r1]; [|destruct (PyFloat.parse (a1 :: r1))];
     try reflexivity;
     (destruct v2 as [|a2 r2]; [|destruct (PyFloat.parse (a2 :: r2))];
      try reflexivity;
      (destruct v3 as [|a3 r3]; [|destruct (PyFloat.parse (a3 :: r3))];
       try reflexivity; discriminate))).
Qed.

Lemma avg_process_response_parse_error response w :
  (3 <= List.length (Py.split Py.comma response))%nat ->
  fields_ok is_float 3 response = false ->
  avg_process_response response w =
  (Ret tt, add_console (SayStr "Error parsing response" response) w).
Proof.
  unfold fields_ok. intros Hlen H. rewrite avg_process_response_run.
  destruct (Py.split Py.comma response) as [|v0 [|v1 [|v2 rest]]];
    try (cbn in Hlen; lia).
  cbn in H. unfold is_float in H.
  destruct (PyFloat.parse v0); try reflexivity.
  destruct (PyFloat.parse v1); try reflexivity.
  destruct (PyFloat.parse v2); try reflexivity.
  discriminate.
Qed.

(** C4: a response with four or more fields decodes
    when each of the first four is empty or a float literal, and then the
    run is the same for every response with these first four fields (what
    follows them is ignored); with four or more fields of which one of the
    first four does not convert, and with fewer than four fields, the
    decoding leaves [cycle_error] set, writes no row, and reports the
    response with its raw text.  The averaging script does the same with
    three fields, each a float literal. *)
Theorem decode_by_field_count interval response w :
  let values := Py.split Py.comma response in
  (fields_ok empty_or_float 4 response = true ->
   (exists r, integration_row r /\
      fst (process_response interval response w) = Ret false /\
      csv (snd (process_response interval response w)) = csv w ++ [r]) /\
   (forall response',
      firstn 4 (Py.split Py.comma response') = firstn 4 values ->
      process_response interval response' w =
      process_response interval response w)) /\
  ((List.length values < 4)%nat ->
   process_response interval response w =
   (Ret true,
    add_console
      (SayCount "Warning: Received unexpected number of values"
                (List.length values) response) w)) /\
  (fields_ok is_float 3 response = true ->
   (exists r, averaging_row r /\
      csv (snd (avg_process_response response w)) = csv w ++ [r]) /\
   (forall response',
      firstn 3 (Py.split Py.comma response') = firstn 3 values ->
      avg_process_response response' w = avg_process_response response w)) /\
  ((List.length values < 3)%nat ->
   avg_process_response response w =
   (Ret tt,
    add_console
      (SayCount "Warning: Received unexpected number of values"
                (List.length values) response) w)) /\
  ((4 <= List.length values)%nat ->
   fields_ok empty_or_float 4 response = false ->
   process_response interval response w =
   (Ret true,
    add_console (SayStr "Error parsing measurement response" response) w)) /\
  ((3 <= List.length values)%nat ->
   fields_ok is_float 3 response = false ->
   avg_process_response response w =
   (Ret tt, add_console (SayStr "Error parsing response" response) w)).
Proof.
  cbv zeta.
  split; [intros H; split
         | split; [|split; [intros H; split | split; [|split]]]].
  - destruct (process_response_row interval response w H)
      as (v0 & v1 & v2 & v3 & rest & pv & c & ip & wh & _ & _ & _ & _ & _ & E).
    rewrite E. eexists. split; [|split; reflexivity].
    unfold integration_row. repeat eexists.
  - intros response' Hf.
    destruct (process_response_row interval response w H)
      as (v0 & v1 & v2 & v3 & rest & pv & c & ip & wh & S0 & E0 & E1 & E2 & E3 & E).
    rewrite E. rewrite S0 in Hf. cbn in Hf.
    rewrite process_response_run.
    destruct (Py.split Py.comma response') as [|u0 [|u1 [|u2 [|u3 rest']]]];
      try discriminate.
    cbn in Hf. injection Hf as -> -> -> ->.
    rewrite E0, E1, E2, E3. reflexivity.
  - intros H. rewrite process_response_run.
    destruct (Py.split Py.comma response) as [|v0 [|v1 [|v2 [|v3 rest]]]];
      try reflexivity.
    cbn in H. lia.
  - destruct (avg_process_response_row response w H)
      as (v0 & v1 & v2 & rest & pv & c & p & _ & _ & _ & _ & E).
    rewrite E. eexists. split; [|reflexivity].
    unfold averaging_row. repeat eexists.
  - intros response' Hf.
    destruct (avg_process_response_row response w H)
      as (v0 & v1 & v2 & rest & pv & c & p & S0 & E0 & E1 & E2 & E).
    rewrite E. rewrite S0 in Hf. cbn in Hf.
    rewrite avg_process_response_run.
    destruct (Py.split Py.comma response') as [|u0 [|u1 [|u2 rest']]];
      try discriminate.
    cbn in Hf. injection Hf as -> -> ->.
    rewrite E0, E1, E2. reflexivity.
  - intros H. rewrite avg_process_response_run.
    destruct (Py.split Py.comma response) as [|v0 [|v1 [|v2 rest]]];
      try reflexivity.
    cbn in H. lia.
  - apply process_response_parse_error.
  - apply avg_process_response_parse_error.
Qed.

Lemma decode_by_field_count_witness :
  (exists r, integration_row r /\
     fst (process_response 10 (Py.lit "12.5,0.8,9.2,0.002778,50.0,x") Bench.w0)
     = Ret false /\
     csv (snd (process_response 10 (Py.lit "12.5,0.8,9.2,0.002778,50.0,x")
                 Bench.w0)) = csv Bench.w0 ++ [r]) /\
  process_response 10 (Py.lit "12.5,0.8,9.2") Bench.w0 =
  (Ret true,
   add_console
     (SayCount "Warning: Received unexpected number of values" 3
               (Py.lit "12.5,0.8,9.2")) Bench.w0) /\
  (exists r, averaging_row r /\
     csv (snd (avg_process_response (Py.lit "12.5,0.8,9.2,7") Bench.w0))
     = csv Bench.w0 ++ [r]) /\
  avg_process_response (Py.lit "12.5,0.8") Bench.w0 =
  (Ret tt,
   add_console
     (SayCount "Warning: Received unexpected number of values" 2
               (Py.lit "12.5,0.8")) Bench.w0) /\
  process_response 10 (Py.lit "12.5,0.8,n/a,0.002778") Bench.w0 =
  (Ret true,
   add_console
     (SayStr "Error parsing measurement response"
             (Py.lit "12.5,0.8,n/a,0.002778")) Bench.w0) /\
  avg_process_response (Py.lit "12.5,0.8,n/a") Bench.w0 =
  (Ret tt,
   add_console (SayStr "Error parsing response" (Py.lit "12.5,0.8,n/a"))
     Bench.w0).
Proof.
  split; [|split; [|split; [|split; [|split]]]].
  - apply (proj1 (decode_by_field_count 10
                    (Py.lit "12.5,0.8,9.2,0.002778,50.0,x") Bench.w0)).
    vm_compute. reflexivity.
  - apply (proj1 (proj2 (decode_by_field_count 10 (Py.lit "12.5,0.8,9.2")
                           Bench.w0))).
    vm_compute. lia.
  - apply (proj1 (proj2 (proj2 (decode_by_field_count 10
                                  (Py.lit "12.5,0.8,9.2,7") Bench.w0)))).
    vm_compute. reflexivity.
  - apply (proj1 (proj2 (proj2 (proj2 (decode_by_field_count 10
                                         (Py.lit "12.5,0.8") Bench.w0))))).
    vm_compute. lia.
  - apply (proj1 (proj2 (proj2 (proj2 (proj2
             (decode_by_field_count 10 (Py.lit "12.5,0.8,n/a,0.002778")
                Bench.w0)))))).
    + vm_compute. lia.
    + vm_compute. reflexivity.
  - apply (proj2 (proj2 (proj2 (proj2 (proj2
             (decode_by_field_count 10 (Py.lit "12.5,0.8,n/a") Bench.w0)))))).
    + vm_compute. lia.
    + vm_compute. reflexivity.
Defined.

(** Four comma-separated fields do not make a sample when one of them is
    not a number: the cycle is flagged and no row is written. *)
Lemma four_fields_not_decoded :
  List.length (Py.split Py.comma (Py.lit "x,0.8,9.2,0.002778")) = 4%nat /\
  process_response 10 (Py.lit "x,0.8,9.2,0.002778") Bench.w0 =
  (Ret true,
   add_console
     (SayStr "Error parsing measurement response"
             (Py.lit "x,0.8,9.2,0.002778")) Bench.w0).
Proof. split; vm_compute; reflexivity. Qed.

(** ** Empty fields *)

(** C5, as the code has it: the integration script reads an empty field as
    0.0, in each of its four positions; the averaging script has no such
    guard, and an empty field among its three makes the conversion fail:
    the response is reported and no row is written. *)
Theorem empty_field_value interval response w :
  (forall w', float_or_zero [] w' = (Ret 0%float, w')) /\
  (forall v0 v1 v2 v3 rest pv c ip wh,
     Py.split Py.comma response = v0 :: v1 :: v2 :: v3 :: rest ->
     value_or_zero v0 = Some pv -> value_or_zero v1 = Some c ->
     value_or_zero v2 = Some ip -> value_or_zero v3 = Some wh ->
     (v0 = [] -> pv = 0%float) /\ (v1 = [] -> c = 0%float) /\
     (v2 = [] -> ip = 0%float) /\ (v3 = [] -> wh = 0%float) /\
     process_response interval response w =
     (Ret false,
      add_row [Stamp (now w); Fixed 4 (average_power_of interval wh);
               Fixed 6 wh; Fixed 4 pv; Fixed 4 c; Fixed 4 ip]
        (add_console
           (SaySample (now w)
              [average_power_of interval wh; wh; pv; c; ip]) w))) /\
  (forall v0 v1 v2 rest,
     Py.split Py.comma response = v0 :: v1 :: v2 :: rest ->
     v0 = [] \/ v1 = [] \/ v2 = [] ->
     avg_process_response response w =
     (Ret tt, add_console (SayStr "Error parsing response" response) w)).
Proof.
  split; [reflexivity|]. split.
  - intros v0 v1 v2 v3 rest pv c ip wh S0 E0 E1 E2 E3.
    repeat split.
    + intros ->. cbn in E0. congruence.
    + intros ->. cbn in E1. congruence.
    + intros ->. cbn in E2. congruence.
    + intros ->. cbn in E3. congruence.
    + rewrite process_response_run, S0, E0, E1, E2, E3. reflexivity.
  - intros v0 v1 v2 rest S0 H.
    rewrite avg_process_response_run, S0.
    destruct H as [-> | [-> | ->]]; rewrite parse_empty.
    + reflexivity.
    + destruct (PyFloat.parse v0); reflexivity.
    + destruct (PyFloat.parse v0); [destruct (PyFloat.parse v1)|]; reflexivity.
Qed.

Lemma empty_field_value_witness :
  process_response 10 (Py.lit "12.5,,9.2,") Bench.w0 =
  (Ret false,
   add_row [Stamp (now Bench.w0); Fixed 4 (average_power_of 10 0%float);
            Fixed 6 0%float; Fixed 4 12.5%float; Fixed 4 0%float;
            Fixed 4 (9.2%float)]
     (add_console
        (SaySample (now Bench.w0)
           [average_power_of 10 0%float; 0%float; 12.5%float; 0%float;
            9.2%float]) Bench.w0)) /\
  avg_process_response (Py.lit "12.5,,9.2") Bench.w0 =
  (Ret tt,
   add_console (SayStr "Error parsing response" (Py.lit "12.5,,9.2"))
     Bench.w0).
Proof.
  split.
  - apply (proj1 (proj2 (empty_field_value 10 (Py.lit "12.5,,9.2,") Bench.w0))
             (Py.lit "12.5") [] (Py.lit "9.2") [] []);
      vm_compute; reflexivity.
  - apply (proj2 (proj2 (empty_field_value 10 (Py.lit "12.5,,9.2") Bench.w0))
             (Py.lit "12.5") [] (Py.lit "9.2") []).
    + vm_compute. reflexivity.
    + right. left. reflexivity.
Defined.

(** In the averaging script an empty field is a decode error: nothing is
    added to the file. *)
Lemma averaging_empty_field_fails :
  avg_process_response (Py.lit ",0.8,9.2") Bench.w0 =
  (Ret tt,
   add_console (SayStr "Error parsing response" (Py.lit ",0.8,9.2"))
     Bench.w0) /\
  csv (snd (avg_process_response (Py.lit ",0.8,9.2") Bench.w0)) = csv Bench.w0.
Proof. split; vm_compute; reflexivity. Qed.

(** ** What [safe_serial_read] returns *)

(** C6, as the code has it: [safe_serial_read] returns the stripped text of
    a non-empty line that decodes, and [None] in every other case; an empty
    read prints nothing, and bytes that do not decode are kept in the
    console message only, not in the result. *)
Theorem safe_serial_read_outcomes dev w :
  let res := fst (safe_serial_read dev w) in
  let said := console (snd (safe_serial_read dev w)) in
  match fst (dev_read dev (n_reads w)) with
  | ReadLine [] => res = Ret None /\ said = console w
  | ReadLine b =>
    match Py.decode b with
    | Some s => res = Ret (Some (Py.strip s)) /\ said = console w
    | None =>
      res = Ret None /\
      said = console w ++
             [SayExn "Error: Could not decode received bytes"
                     {| exn_class_of := UnicodeDecodeError;
                        exn_text := "invalid utf-8";
                        exn_object := b |}]
    end
  | ReadSerialError | ReadCrash =>
    res = Ret None /\ exists m, said = console w ++ [m]
  end.
Proof.
  cbv zeta. destruct (dev_read dev (n_reads w)) as [o ms] eqn:E.
  cbn [fst]. destruct o as [b| |].
  - rewrite (safe_serial_read_line dev b w ms E).
    destruct b as [|b0 bs]; [split; reflexivity|].
    destruct (Py.decode (b0 :: bs)); split; reflexivity.
  - destruct (safe_serial_read_raised dev _ w ms E eq_refl) as [m ->].
    split; [reflexivity|]. exists m. reflexivity.
  - destruct (safe_serial_read_raised dev _ w ms E eq_refl) as [m ->].
    split; [reflexivity|]. exists m. reflexivity.
Qed.

(** A read that times out and a read of bytes that do not decode give the
    caller the same result. *)
Lemma timeout_and_garbage_read_alike :
  fst (safe_serial_read Bench.silent Bench.w0) = Ret None /\
  fst (safe_serial_read Bench.garbled Bench.w0) = Ret None /\
  Py.decode [Byte.xff; Byte.xfe] = None.
Proof. repeat split; vm_compute; reflexivity. Qed.

(** ** The average power *)

Lemma SFcompare_flip x y :
  SFcompare y x = option_map CompOpp (SFcompare x y).
Proof.
  destruct x as [sx|sx| |sx mx ex], y as [sy|sy| |sy my ey]; cbn;
    try reflexivity;
    try (destruct sx; reflexivity);
    try (destruct sy; reflexivity);
    try (destruct sx, sy; reflexivity).
  pose proof (Pos.compare_cont_antisym mx my Eq) as A.
  change (CompOpp Eq) with Eq in A.
  destruct sx, sy; cbn; try reflexivity;
    rewrite (Z.compare_antisym ex ey); destruct (ex ?= ey); cbn;
      try reflexivity; rewrite <- A;
        destruct (Pos.compare_cont Eq mx my); reflexivity.
Qed.

Lemma leb_true_ltb_false (x y : float) :
  (x <=? y)%float = true -> (y <? x)%float = false.
Proof.
  rewrite leb_spec, ltb_spec. unfold SFleb, SFltb.
  rewrite (SFcompare_flip (Prim2SF x) (Prim2SF y)).
  destruct (SFcompare (Prim2SF x) (Prim2SF y)) as [[| |]|]; cbn; congruence.
Qed.

(** C7: the average power is the energy divided by the interval in hours,
    [integration_interval_seconds / 3600.0]; an interval at or below the
    guard of 1e-9 hours gives 0.0; and 10 s with 0.002778 Wh give a power
    within 0.0001 W of 1 W. *)
Theorem average_power_derivation interval watt_hours :
  ((1e-9 <? interval_hours interval)%float = true ->
   average_power_of interval watt_hours
   = (watt_hours / (PyFloat.of_int interval / 3600))%float) /\
  ((interval_hours interval <=? 1e-9)%float = true ->
   average_power_of interval watt_hours = 0%float) /\
  (exists e,
     PyFloat.parse (Py.lit "0.002778") = Some e /\
     (abs (average_power_of 10 e - 1) <? 0.0001)%float = true).
Proof.
  unfold average_power_of. repeat split.
  - intros ->. reflexivity.
  - intros H. rewrite (leb_true_ltb_false _ _ H). reflexivity.
  - eexists. split; vm_compute; reflexivity.
Qed.

Lemma average_power_derivation_witness :
  average_power_of 10 0.002778%float
  = (0.002778 / (PyFloat.of_int 10 / 3600))%float /\
  average_power_of 0 0.002778%float = 0%float.
Proof.
  split.
  - apply (proj1 (average_power_derivation 10 0.002778%float)).
    vm_compute. reflexivity.
  - apply (proj1 (proj2 (average_power_derivation 0 0.002778%float))).
    vm_compute. reflexivity.
Defined.

(** ** One turn of the polling loop *)

(** Closes a case of a turn: the run is unfolded to its end or to the next
    turn, and the world reached is the one the case announces. *)
Ltac poll_finish H :=
  unfold bind, print, sleep, ret, raise, time in H; cbv beta iota in H;
  lazymatch type of H with
  | _ = (if _ then _ else _) ?W =>
    exists W; split;
    [| rewrite H; destruct (timed_out _ _ (now W)); reflexivity]
  | _ =>
    lazymatch goal with
    | |- exists _ _, _ => do 2 eexists; split; [|exact H]
    | |- exists _, _ => eexists; split; [|exact H]
    end
  end;
  repeat match goal with x := _ : world |- _ => subst x end;
  unfold advanced; cbn; repeat split;
  first [lia | rewrite <- ?app_assoc; reflexivity].

Section PollFacts.

Variable dev : device.
Variable interval : Z.

Lemma timed_out_false start t :
  t - start <= software_timeout_ms interval -> timed_out interval start t = false.
Proof. unfold timed_out. intros H. apply Z.ltb_ge. exact H. Qed.

Lemma poll_turn_expired fuel start last w :
  timed_out interval start (now w) = true ->
  poll_loop dev interval (S fuel) start last w =
  (Raise (polling_timeout
            "Integration polling software timeout waiting for TIMEUP/TIM state."),
   w).
Proof.
  intros H. cbn [poll_loop]. unfold bind at 1. unfold time at 1. rewrite H.
  reflexivity.
Qed.

Lemma poll_turn fuel start last w :
  timed_out interval start (now w) = false ->
  let wo := dev_write dev (n_writes w) in
  let ro := dev_read dev (n_reads w) in
  let r := read_bytes (fst ro) in
  let tw := Z.of_N (snd wo) in
  let tr := Z.of_N (snd ro) in
  if write_ok (fst wo) then
    match read_result r with
    | None =>
      exists w1,
        advanced w w1 [Wrote cmd_state true; ReadBack r] (tw + 100 + tr) 1 1 /\
        poll_loop dev interval (S fuel) start last w =
        if timed_out interval start (now w1)
        then (Raise (polling_timeout
                       "Integration polling software timeout after failing to read STATE response."),
              w1)
        else poll_loop dev interval fuel start last w1
    | Some s =>
      match classify s with
      | Complete =>
        exists w1,
          advanced w w1 [Wrote cmd_state true; ReadBack r] (tw + 100 + tr) 1 1 /\
          poll_loop dev interval (S fuel) start last w = (Ret tt, w1)
      | Running =>
        exists last' w1,
          advanced w w1 [Wrote cmd_state true; ReadBack r]
                   (tw + 100 + tr + 400) 1 1 /\
          poll_loop dev interval (S fuel) start last w =
          poll_loop dev interval fuel start last' w1
      | StoppedUnexpectedly =>
        exists w1,
          advanced w w1 [Wrote cmd_state true; ReadBack r] (tw + 100 + tr) 1 1 /\
          poll_loop dev interval (S fuel) start last w =
          (Raise (polling_abort "Integration stopped unexpectedly"), w1)
      | Overflow =>
        exists w1,
          advanced w w1 [Wrote cmd_state true; ReadBack r] (tw + 100 + tr) 1 1 /\
          poll_loop dev interval (S fuel) start last w =
          (Raise (polling_abort "Integration overflow"), w1)
      | Unrecognized =>
        exists last' w1,
          advanced w w1 [Wrote cmd_state true; ReadBack r]
                   (tw + 100 + tr + 500) 1 1 /\
          poll_loop dev interval (S fuel) start last w =
          poll_loop dev interval fuel start last' w1
      end
    end
  else
    exists w1,
      advanced w w1 [Wrote cmd_state false] (tw + 1000) 1 0 /\
      poll_loop dev interval (S fuel) start last w =
      if timed_out interval start (now w1)
      then (Raise (polling_timeout
                     "Integration polling software timeout after failing to send STATE query."),
            w1)
      else poll_loop dev interval fuel start last w1.
Proof.
  intros Ht. cbv zeta.
  remember (poll_loop dev interval (S fuel) start last w) as run eqn:Hrun.
  cbn [poll_loop] in Hrun. unfold bind at 1 in Hrun. unfold time at 1 in Hrun.
  rewrite Ht in Hrun. unfold bind at 1 in Hrun.
  destruct (dev_write dev (n_writes w)) as [o ms] eqn:Ew. cbn [fst snd].
  destruct (write_ok o) eqn:Ho.
  - destruct o; try discriminate.
    rewrite (safe_serial_write_ok dev _ w ms Ew) in Hrun.
    cbn [negb] in Hrun. unfold bind at 1 in Hrun.
    set (w1 := set_now (now w + Z.of_N ms + 100)
                 (did_write (line ":INTEGRATE:STATE?") true ms w)) in *.
    destruct (dev_read dev (n_reads w)) as [ro mr] eqn:Er. cbn [fst snd].
    assert (Er1 : dev_read dev (n_reads w1) = (ro, mr)) by exact Er.
    destruct ro as [b| |].
    + rewrite (safe_serial_read_line dev b w1 mr Er1) in Hrun.
      cbn [read_bytes read_result].
      destruct b as [|b0 bs].
      * poll_finish Hrun.
      * destruct (Py.decode (b0 :: bs)) as [s|]; cbn [option_map].
        -- unfold classify. cbv zeta.
           destruct (2000 <? now w - last);
             (destruct (Py.contains (Py.lit "TIM") (Py.upper (Py.strip s))
                        || Py.contains (Py.lit "TIMEUP") (Py.upper (Py.strip s)));
              [poll_finish Hrun|];
              destruct (Py.contains (Py.lit "RUN") (Py.upper (Py.strip s))
                        || Py.contains (Py.lit "RUNNING") (Py.upper (Py.strip s)));
              [poll_finish Hrun|];
              destruct (Py.contains (Py.lit "STOP") (Py.upper (Py.strip s))
                        || Py.contains (Py.lit "RESET") (Py.upper (Py.strip s)));
              [poll_finish Hrun|];
              destruct (Py.contains (Py.lit "OVERFLOW") (Py.upper (Py.strip s)));
              poll_finish Hrun).
        -- poll_finish Hrun.
    + destruct (safe_serial_read_raised dev _ w1 mr Er1 eq_refl) as [m Hm].
      rewrite Hm in Hrun. cbn [read_bytes read_result]. poll_finish Hrun.
    + destruct (safe_serial_read_raised dev _ w1 mr Er1 eq_refl) as [m Hm].
      rewrite Hm in Hrun. cbn [read_bytes read_result]. poll_finish Hrun.
  - destruct (safe_serial_write_failed dev (line ":INTEGRATE:STATE?") w o ms Ew Ho)
      as [m Hm].
    rewrite Hm in Hrun. cbn [negb] in Hrun. poll_finish Hrun.
Qed.

End PollFacts.

(** ** The polling loop follows the transition system and ends *)

Section PollRuns.

Variable dev : device.
Variable interval : Z.

Lemma shows_end_classify r s :
  read_result r = Some s -> shows_end r = terminal (classify s).
Proof. unfold shows_end. intros ->. reflexivity. Qed.

Lemma shows_end_none r : read_result r = None -> shows_end r = false.
Proof. unfold shows_end. intros ->. reflexivity. Qed.

(** Whatever the loop returns or raises, it got there by the transitions
    of [poll_run]. *)
Lemma poll_loop_run fuel : forall start last w o w',
  poll_loop dev interval fuel start last w = (o, w') ->
  o <> OutOfFuel ->
  poll_run dev interval start w o w'.
Proof.
  induction fuel as [|fuel IH]; intros start last w o w' E Ho.
  - cbn in E. injection E as <- <-. congruence.
  - destruct (timed_out interval start (now w)) eqn:Ht.
    + rewrite (poll_turn_expired dev interval fuel start last w Ht) in E.
      injection E as <- <-. apply PollExpired; [exact Ht | reflexivity].
    + pose proof (poll_turn dev interval fuel start last w Ht) as T.
      cbv zeta in T.
      destruct (write_ok (fst (dev_write dev (n_writes w)))) eqn:Hw.
      * destruct (read_result (read_bytes (fst (dev_read dev (n_reads w)))))
          as [s|] eqn:Hr.
        -- destruct (classify s) eqn:Hc.
           ++ destruct T as (w1 & A & T). rewrite T in E. injection E as <- <-.
              eapply PollComplete; eauto.
           ++ destruct T as (last' & w1 & A & T). rewrite T in E.
              eapply PollAgain; [exact Ht| |eapply IH; eauto].
              do 3 eexists. split; [exact A|]. split; [lia|]. right.
              repeat split; auto.
              rewrite (shows_end_classify _ _ Hr), Hc. reflexivity.
           ++ destruct T as (w1 & A & T). rewrite T in E. injection E as <- <-.
              eapply PollAbort; eauto.
           ++ destruct T as (w1 & A & T). rewrite T in E. injection E as <- <-.
              eapply PollAbort; eauto.
           ++ destruct T as (last' & w1 & A & T). rewrite T in E.
              eapply PollAgain; [exact Ht| |eapply IH; eauto].
              do 3 eexists. split; [exact A|]. split; [lia|]. right.
              repeat split; auto.
              rewrite (shows_end_classify _ _ Hr), Hc. reflexivity.
        -- destruct T as (w1 & A & T). rewrite T in E.
           eapply PollAgain; [exact Ht| |].
           ++ do 3 eexists. split; [exact A|]. split; [lia|]. right.
              repeat split; auto. apply shows_end_none. exact Hr.
           ++ destruct (timed_out interval start (now w1)) eqn:Ht1.
              ** injection E as <- <-. apply PollExpired; [exact Ht1|reflexivity].
              ** eapply IH; eauto.
      * destruct T as (w1 & A & T). rewrite T in E.
        eapply PollAgain; [exact Ht| |].
        -- do 3 eexists. split; [exact A|]. split; [lia|]. left.
           repeat split; auto.
        -- destruct (timed_out interval start (now w1)) eqn:Ht1.
           ++ injection E as <- <-. apply PollExpired; [exact Ht1|reflexivity].
           ++ eapply IH; eauto.
Qed.

(** Fuel that outlasts the watchdog is never used up. *)
Lemma poll_loop_terminates fuel : forall start last w,
  Z.max 0 ((software_timeout_ms interval - (now w - start)) / 100 + 1)
  < Z.of_nat fuel ->
  fst (poll_loop dev interval fuel start last w) <> OutOfFuel.
Proof.
  induction fuel as [|fuel IH]; intros start last w Hf; [lia|].
  destruct (timed_out interval start (now w)) eqn:Ht.
  - rewrite (poll_turn_expired dev interval fuel start last w Ht). discriminate.
  - assert (Hrem : 0 <= software_timeout_ms interval - (now w - start)).
    { unfold timed_out in Ht. apply Z.ltb_ge in Ht. lia. }
    assert (Hq : 0 <= (software_timeout_ms interval - (now w - start)) / 100)
      by (apply Z.div_pos; lia).
    assert (Hnext : forall w1 dt,
               now w1 = now w + dt -> 100 <= dt ->
               Z.max 0 ((software_timeout_ms interval - (now w1 - start)) / 100 + 1)
               < Z.of_nat fuel).
    { intros w1 dt E Hdt.
      assert ((software_timeout_ms interval - (now w1 - start)) / 100
              <= (software_timeout_ms interval - (now w - start)) / 100 - 1).
      { replace ((software_timeout_ms interval - (now w - start)) / 100 - 1)
          with ((software_timeout_ms interval - (now w - start) - 1 * 100) / 100).
        - apply Z.div_le_mono; lia.
        - rewrite <- Z.add_opp_r, <- Z.mul_opp_l, Z.div_add by lia. lia. }
      lia. }
    pose proof (poll_turn dev interval fuel start last w Ht) as T.
    cbv zeta in T.
    destruct (write_ok (fst (dev_write dev (n_writes w)))).
    + destruct (read_result (read_bytes (fst (dev_read dev (n_reads w)))))
        as [s|].
      * destruct (classify s).
        -- destruct T as (w1 & A & ->). discriminate.
        -- destruct T as (last' & w1 & A & ->). apply IH.
           eapply Hnext; [apply A|lia].
        -- destruct T as (w1 & A & ->). discriminate.
        -- destruct T as (w1 & A & ->). discriminate.
        -- destruct T as (last' & w1 & A & ->). apply IH.
           eapply Hnext; [apply A|lia].
      * destruct T as (w1 & A & ->).
        destruct (timed_out interval start (now w1)); [discriminate|].
        apply IH. eapply Hnext; [apply A|lia].
    + destruct T as (w1 & A & ->).
      destruct (timed_out interval start (now w1)); [discriminate|].
      apply IH. eapply Hnext; [apply A|lia].
Qed.

Lemma poll_fuel_enough w :
  Z.max 0 ((software_timeout_ms interval - (now w - now w)) / 100 + 1)
  < Z.of_nat (poll_fuel interval).
Proof.
  unfold poll_fuel. rewrite Z.sub_diag, Z.sub_0_r.
  generalize (software_timeout_ms interval / 100). intros q. lia.
Qed.

End PollRuns.

(** ** The CSV file *)

Lemma keeps_csv_ret {A} (a : A) : keeps_csv (ret a).
Proof. intros w. reflexivity. Qed.

Lemma keeps_csv_raise {A} c text : keeps_csv (@raise A c text).
Proof. intros w. reflexivity. Qed.

Lemma keeps_csv_reraise {A} e : keeps_csv (@reraise A e).
Proof. intros w. reflexivity. Qed.

Lemma keeps_csv_print m : keeps_csv (print m).
Proof. intros w. reflexivity. Qed.

Lemma keeps_csv_sleep ms : keeps_csv (sleep ms).
Proof. intros w. reflexivity. Qed.

Lemma keeps_csv_time : keeps_csv time.
Proof. intros w. reflexivity. Qed.

Lemma keeps_csv_bind {A B} (m : M A) (k : A -> M B) :
  keeps_csv m -> (forall a, keeps_csv (k a)) -> keeps_csv (bind m k).
Proof.
  intros Hm Hk w. unfold bind. specialize (Hm w).
  destruct (m w) as [[a|e|] w1]; cbn in *; [|assumption|assumption].
  rewrite (Hk a w1). assumption.
Qed.

Lemma keeps_csv_try {A} (m : M A) (h : exn -> M A) :
  keeps_csv m -> (forall e, keeps_csv (h e)) -> keeps_csv (try_except m h).
Proof.
  intros Hm Hh w. unfold try_except. specialize (Hm w).
  destruct (m w) as [[a|e|] w1]; cbn in *; [assumption| |assumption].
  rewrite (Hh e w1). assumption.
Qed.

Lemma keeps_csv_finally {A} (m : M A) (f : M unit) :
  keeps_csv m -> keeps_csv f -> keeps_csv (try_finally m f).
Proof.
  intros Hm Hf w. unfold try_finally. specialize (Hm w).
  destruct (m w) as [[a|e|] w1]; cbn in *; [| |assumption];
    specialize (Hf w1); destruct (f w1) as [[[]|e'|] w2]; cbn in *; congruence.
Qed.

Create HintDb keeps.

#[global] Hint Resolve keeps_csv_ret keeps_csv_raise keeps_csv_reraise
  keeps_csv_print keeps_csv_sleep keeps_csv_time : keeps.

(** Breaks a [keeps_csv] goal down along the structure of the program;
    the leaves are the lemmas of the [keeps] database. *)
Ltac keeps :=
  repeat first
    [ solve [auto 1 with keeps nocore]
    | apply keeps_csv_bind; [|intros ?]
    | apply keeps_csv_try; [|intros ?]
    | apply keeps_csv_finally
    | match goal with
      | |- keeps_csv (if ?c then _ else _) => destruct c
      | |- keeps_csv (match ?x with _ => _ end) => destruct x
      end ].

Lemma keeps_csv_ser_write dev cmd : keeps_csv (ser_write dev cmd).
Proof.
  intros w. unfold ser_write.
  destruct (dev_write dev (n_writes w)) as [[| | |] ms]; reflexivity.
Qed.

Lemma keeps_csv_ser_readline dev : keeps_csv (ser_readline dev).
Proof.
  intros w. unfold ser_readline.
  destruct (dev_read dev (n_reads w)) as [[b| |] ms]; reflexivity.
Qed.

Lemma keeps_csv_bytes_decode b : keeps_csv (bytes_decode b).
Proof. intros w. unfold bytes_decode. destruct (Py.decode b); reflexivity. Qed.

Lemma keeps_csv_serial_open dev : keeps_csv (serial_open dev).
Proof. intros w. unfold serial_open. destruct (dev_opens dev); reflexivity. Qed.

Lemma keeps_csv_close_if_open : keeps_csv close_if_open.
Proof. intros w. unfold close_if_open. destruct (ser_open w); reflexivity. Qed.

Lemma keeps_csv_serial_close : keeps_csv serial_close.
Proof. intros w. reflexivity. Qed.

#[global] Hint Resolve keeps_csv_ser_write keeps_csv_ser_readline
  keeps_csv_bytes_decode keeps_csv_serial_open keeps_csv_close_if_open
  keeps_csv_serial_close : keeps.

Lemma keeps_csv_safe_serial_write dev cmd : keeps_csv (safe_serial_write dev cmd).
Proof. unfold safe_serial_write. keeps. Qed.

Lemma keeps_csv_safe_serial_read dev : keeps_csv (safe_serial_read dev).
Proof. unfold safe_serial_read. keeps. Qed.

#[global] Hint Resolve keeps_csv_safe_serial_write keeps_csv_safe_serial_read
  : keeps.

Lemma keeps_csv_must_write dev cmd text : keeps_csv (must_write dev cmd text).
Proof. unfold must_write. keeps. Qed.

Lemma keeps_csv_confirm dev q l : keeps_csv (confirm dev q l).
Proof. unfold confirm. keeps. Qed.

#[global] Hint Resolve keeps_csv_must_write keeps_csv_confirm : keeps.

Lemma keeps_csv_configure dev interval : keeps_csv (configure dev interval).
Proof. unfold configure, configure_body. keeps. Qed.

Lemma keeps_csv_poll_loop dev interval fuel : forall start last,
  keeps_csv (poll_loop dev interval fuel start last).
Proof.
  induction fuel as [|fuel IH]; intros start last.
  - intros w. reflexivity.
  - cbn [poll_loop]. keeps; apply IH.
Qed.

Lemma keeps_csv_cleanup dev : keeps_csv (cleanup dev).
Proof. unfold cleanup. keeps; intros w; reflexivity. Qed.

#[global] Hint Resolve keeps_csv_configure keeps_csv_poll_loop
  keeps_csv_cleanup : keeps.

Lemma amo_keeps {A} R (m : M A) : keeps_csv m -> adds_at_most_one R m.
Proof. intros H w. left. apply H. Qed.

Lemma amo_bind_left {A B} R (m : M A) (k : A -> M B) :
  keeps_csv m -> (forall a, adds_at_most_one R (k a)) ->
  adds_at_most_one R (bind m k).
Proof.
  intros Hm Hk w. unfold bind. specialize (Hm w).
  destruct (m w) as [[a|e|] w1]; cbn in *; [|left; assumption|left; assumption].
  destruct (Hk a w1) as [E | (r & Hr & E)]; rewrite E, Hm; [left|right]; eauto.
Qed.

Lemma amo_bind_right {A B} R (m : M A) (k : A -> M B) :
  adds_at_most_one R m -> (forall a, keeps_csv (k a)) ->
  adds_at_most_one R (bind m k).
Proof.
  intros Hm Hk w. unfold bind. specialize (Hm w).
  destruct (m w) as [[a|e|] w1]; cbn in *; [|assumption|assumption].
  rewrite (Hk a w1). assumption.
Qed.

Lemma amo_try {A} R (m : M A) (h : exn -> M A) :
  adds_at_most_one R m -> (forall e, keeps_csv (h e)) ->
  adds_at_most_one R (try_except m h).
Proof.
  intros Hm Hh w. unfold try_except. specialize (Hm w).
  destruct (m w) as [[a|e|] w1]; cbn in *; [assumption| |assumption].
  rewrite (Hh e w1). assumption.
Qed.

Lemma adds_rows_amo {A} R (m : M A) : adds_at_most_one R m -> adds_rows R m.
Proof.
  intros H w. destruct (H w) as [E | (r & Hr & E)].
  - exists []. rewrite app_nil_r. split; [exact E | constructor].
  - exists [r]. split; [exact E | repeat constructor; exact Hr].
Qed.

Lemma adds_rows_bind {A B} R (m : M A) (k : A -> M B) :
  adds_rows R m -> (forall a, adds_rows R (k a)) -> adds_rows R (bind m k).
Proof.
  intros Hm Hk w. unfold bind. destruct (Hm w) as (rows & E & F).
  destruct (m w) as [[a|e|] w1]; cbn in *; [|exists rows; auto|exists rows; auto].
  destruct (Hk a w1) as (rows' & E' & F').
  exists (rows ++ rows'). rewrite E', E, app_assoc.
  split; [reflexivity | apply Forall_app; auto].
Qed.

(** A row goes to the file exactly when the query went out and the answer
    has its four fields. *)
Lemma fetch_results_rows dev interval w :
  if yields_row dev w
  then exists r, integration_row r /\
                 csv (snd (fetch_results dev interval w)) = csv w ++ [r]
  else csv (snd (fetch_results dev interval w)) = csv w.
Proof.
  change (wp (fetch_results dev interval)
            (fun _ w' =>
               if yields_row dev w
               then exists r, integration_row r /\ csv w' = csv w ++ [r]
               else csv w' = csv w) w).
  unfold fetch_results, yields_row. apply wp_bind, wp_print. apply wp_bind.
  apply wp_must_write.
  - intros w1 (Hok & _ & Hcsv & _ & Hnr & _). cbn in Hok, Hcsv, Hnr.
    rewrite <- Hok. cbn [andb].
    apply wp_bind. apply wp_safe_serial_read.
    intros r w2 (Hr & _ & Hcsv2 & _). rewrite Hnr in Hr. rewrite <- Hr.
    destruct (read_result r) as [[|c rest]|].
    + wp_steps. cbn. congruence.
    + cbn [Py.truthy andb]. unfold wp.
      destruct (fields_ok empty_or_float 4 (c :: rest)) eqn:Hf.
      * destruct (process_response_row interval (c :: rest) w2 Hf)
          as (v0 & v1 & v2 & v3 & rest' & pv & cu & ip & wh & _ & _ & _ & _ & _ & E).
        rewrite E. cbn. eexists. split; [|rewrite Hcsv2, Hcsv; reflexivity].
        unfold integration_row. repeat eexists.
      * destruct (process_response_no_row interval (c :: rest) w2 Hf) as [_ E].
        rewrite E. congruence.
    + wp_steps. cbn. congruence.
  - intros w1 (Hok & _ & Hcsv & _). cbn in Hok, Hcsv. rewrite <- Hok. cbn.
    exact Hcsv.
Qed.

Lemma amo_fetch_results dev interval :
  adds_at_most_one integration_row (fetch_results dev interval).
Proof.
  intros w. pose proof (fetch_results_rows dev interval w) as H.
  destruct (yields_row dev w); [right|left]; exact H.
Qed.

Lemma amo_cycle_body dev interval :
  adds_at_most_one integration_row (cycle_body dev interval).
Proof.
  unfold cycle_body.
  repeat lazymatch goal with
         | |- adds_at_most_one _ (bind _ _) =>
           apply amo_bind_left; [keeps | intros ?]
         end.
  apply amo_fetch_results.
Qed.

Lemma amo_cycle dev interval loop_count :
  adds_at_most_one integration_row (cycle dev interval loop_count).
Proof.
  unfold cycle. apply amo_bind_left; [keeps | intros _].
  apply amo_bind_right; [|intros k; keeps].
  apply amo_try; [|intros e; keeps].
  apply amo_bind_right; [apply amo_cycle_body | intros a; keeps].
Qed.

Lemma adds_rows_measurement_loop dev interval cycles : forall loop_count,
  adds_rows integration_row (measurement_loop dev interval cycles loop_count).
Proof.
  induction cycles as [|cycles IH]; intros loop_count.
  - apply adds_rows_amo, amo_keeps. cbn. keeps.
  - cbn [measurement_loop]. apply adds_rows_bind.
    + apply adds_rows_amo, amo_cycle.
    + intros [ce|]; [apply IH | apply adds_rows_amo, amo_keeps; keeps].
Qed.

Lemma try_except_csv {A} (m : M A) (h : exn -> M A) w :
  (forall e, keeps_csv (h e)) ->
  csv (snd (try_except m h w)) = csv (snd (m w)).
Proof.
  intros Hh. unfold try_except.
  destruct (m w) as [[a|e|] w1]; cbn [fst snd]; try reflexivity. apply Hh.
Qed.

(** The file after the measurement part: what was there, the header when
    there was nothing, and data rows. *)
Lemma measurement_rows dev interval cycles w :
  exists rows,
    csv (snd (measurement dev interval cycles w))
    = csv w ++ (match csv w with [] => [integration_header] | _ => [] end)
            ++ rows /\
    Forall integration_row rows.
Proof.
  unfold measurement. rewrite try_except_csv by (intros e; keeps).
  unfold bind at 1, file_is_empty.
  destruct (csv w) as [|r0 file] eqn:Ec.
  - unfold bind at 1. unfold bind at 1. unfold print at 1. unfold writerow at 1.
    cbn [fst snd].
    set (w1 := add_row integration_header _).
    destruct (adds_rows_measurement_loop dev interval cycles 0%nat w1)
      as (rows & E & F).
    exists rows. split; [|exact F].
    rewrite E. subst w1. cbn. rewrite Ec. reflexivity.
  - unfold bind at 1. unfold ret at 1.
    destruct (adds_rows_measurement_loop dev interval cycles 0%nat w)
      as (rows & E & F).
    exists rows. split; [|exact F].
    rewrite E, Ec. reflexivity.
Qed.

Lemma main_rows dev interval cycles w :
  exists header rows,
    csv (snd (main dev interval cycles w)) = csv w ++ header ++ rows /\
    (header = [] \/ header = [integration_header] /\ csv w = []) /\
    Forall integration_row rows.
Proof.
  unfold main, bind.
  pose proof (keeps_csv_configure dev interval w) as Hc.
  destruct (configure dev interval w) as [[[code|]|e|] w1]; cbn in Hc.
  - exists [], []. cbn. rewrite app_nil_r. auto.
  - unfold print at 1. cbn [fst snd].
    set (w2 := add_console _ w1).
    destruct (measurement_rows dev interval cycles w2) as (rows & E & F).
    assert (Hw2 : csv w2 = csv w) by exact Hc.
    exists (match csv w with [] => [integration_header] | _ => [] end), rows.
    split; [|split; [|exact F]].
    + rewrite Hw2 in E.
      destruct (measurement dev interval cycles w2) as [[a|e|] w3];
        cbn [fst snd] in E |- *; try exact E;
        pose proof (keeps_csv_cleanup dev w3) as Hk;
        destruct (cleanup dev w3) as [[a'|e'|] w4]; cbn in Hk |- *; congruence.
    + destruct (csv w); [right; auto | left; reflexivity].
  - exists [], []. cbn. rewrite app_nil_r. auto.
  - exists [], []. cbn. rewrite app_nil_r. auto.
Qed.

Lemma avg_cycle_rows dev w :
  if avg_yields_row dev w
  then exists r, averaging_row r /\ csv (snd (avg_cycle dev w)) = csv w ++ [r]
  else csv (snd (avg_cycle dev w)) = csv w.
Proof.
  unfold avg_cycle, avg_yields_row.
  rewrite try_except_csv by (intros e; keeps).
  match goal with
  | |- context [csv (snd (?m w))] => remember (m w) as run eqn:Hrun
  end.
  unfold bind at 1 in Hrun. unfold ser_write at 1 in Hrun.
  destruct (dev_write dev (n_writes w)) as [[| | |] ms];
    cbn [fst snd write_ok andb]; try (subst run; reflexivity).
  unfold bind at 1 in Hrun. unfold ser_readline at 1 in Hrun.
  cbn [n_reads did_write] in Hrun.
  destruct (dev_read dev (n_reads w)) as [[b| |] mr]; cbn [fst snd];
    try (subst run; reflexivity).
  unfold bind at 1 in Hrun. unfold bytes_decode at 1 in Hrun.
  destruct (Py.decode b) as [s|]; [|subst run; reflexivity].
  unfold ret at 1 in Hrun. unfold bind at 1 in Hrun. unfold bind at 1 in Hrun.
  destruct (Py.strip s) as [|c rest]; [subst run; reflexivity|].
  cbn [Py.truthy andb].
  set (w1 := did_read _ _ _) in Hrun.
  destruct (fields_ok is_float 3 (c :: rest)) eqn:Hf.
  - destruct (avg_process_response_row (c :: rest) w1 Hf)
      as (v0 & v1 & v2 & rest' & pv & cu & p & _ & _ & _ & _ & E).
    rewrite E in Hrun. subst run. cbn. eexists. split; [|reflexivity].
    unfold averaging_row. repeat eexists.
  - destruct (avg_process_response_no_row (c :: rest) w1 Hf) as [E1 E2].
    destruct (avg_process_response (c :: rest) w1) as [o w2].
    cbn in E1, E2. subst o run. cbn. exact E2.
Qed.

Lemma amo_avg_cycle dev : adds_at_most_one averaging_row (avg_cycle dev).
Proof.
  intros w. pose proof (avg_cycle_rows dev w) as H.
  destruct (avg_yields_row dev w); [right|left]; exact H.
Qed.

Lemma adds_rows_avg_loop dev cycles :
  adds_rows averaging_row (avg_loop dev cycles).
Proof.
  induction cycles as [|cycles IH].
  - apply adds_rows_amo, amo_keeps. cbn. keeps.
  - cbn [avg_loop]. apply adds_rows_bind.
    + apply adds_rows_amo, amo_avg_cycle.
    + intros [|]; [apply adds_rows_amo, amo_keeps; keeps | apply IH].
Qed.

Lemma try_finally_csv {A} (m : M A) (f : M unit) w :
  keeps_csv f -> csv (snd (try_finally m f w)) = csv (snd (m w)).
Proof.
  intros Hf. unfold try_finally.
  destruct (m w) as [[a|e|] w1]; cbn [fst snd]; try reflexivity;
    specialize (Hf w1); destruct (f w1) as [[[]|e'|] w2]; exact Hf.
Qed.

Lemma avg_measurement_rows dev cycles w :
  exists rows,
    csv (snd (avg_measurement dev cycles w))
    = csv w ++ (match csv w with [] => [averaging_header] | _ => [] end)
            ++ rows /\
    Forall averaging_row rows.
Proof.
  unfold avg_measurement.
  rewrite try_finally_csv by keeps.
  rewrite try_except_csv by (intros e; keeps).
  unfold bind at 1, file_is_empty.
  destruct (csv w) as [|r0 file] eqn:Ec.
  - unfold bind at 1. unfold bind at 1. unfold print at 1. unfold writerow at 1.
    cbn [fst snd].
    set (w1 := add_row averaging_header _).
    destruct (adds_rows_avg_loop dev cycles w1) as (rows & E & F).
    exists rows. split; [|exact F].
    rewrite E. subst w1. cbn. rewrite Ec. reflexivity.
  - unfold bind at 1. unfold ret at 1.
    destruct (adds_rows_avg_loop dev cycles w) as (rows & E & F).
    exists rows. split; [|exact F].
    rewrite E, Ec. reflexivity.
Qed.

(** C10: a row is written whole or not at all.  In the integration script
    the fetch of a cycle appends one six-column row exactly when the query
    went out and the answer is a non-empty line with its four fields, each
    empty or a float literal, and nothing otherwise; a cycle appends at
    most one such row; after the whole run the file holds what it held,
    the header if it was empty, and six-column rows.  The averaging script
    does the same with its four-column rows. *)
Theorem rows_are_whole dev interval cycles w :
  (if yields_row dev w
   then exists r, integration_row r /\
                  csv (snd (fetch_results dev interval w)) = csv w ++ [r]
   else csv (snd (fetch_results dev interval w)) = csv w) /\
  (forall loop_count,
     csv (snd (cycle dev interval loop_count w)) = csv w \/
     exists r, integration_row r /\
               csv (snd (cycle dev interval loop_count w)) = csv w ++ [r]) /\
  (exists header rows,
     csv (snd (main dev interval cycles w)) = csv w ++ header ++ rows /\
     (header = [] \/ header = [integration_header] /\ csv w = []) /\
     Forall integration_row rows) /\
  (if avg_yields_row dev w
   then exists r, averaging_row r /\ csv (snd (avg_cycle dev w)) = csv w ++ [r]
   else csv (snd (avg_cycle dev w)) = csv w) /\
  (exists rows,
     csv (snd (avg_measurement dev cycles w))
     = csv w ++ (match csv w with [] => [averaging_header] | _ => [] end)
             ++ rows /\
     Forall averaging_row rows).
Proof.
  split; [apply fetch_results_rows|].
  split; [intros loop_count; apply amo_cycle|].
  split; [apply main_rows|].
  split; [apply avg_cycle_rows | apply avg_measurement_rows].
Qed.

(** ** A cycle from its start to the fetch *)

Section CycleFacts.

Variable dev : device.
Variable interval : Z.

(** With the reset and the start sent, the cycle is in its polling
    phase 600 ms and the two writes later. *)
Lemma cycle_body_started w a0 a1 :
  dev_write dev (n_writes w) = (WriteOk, a0) ->
  dev_write dev (S (n_writes w)) = (WriteOk, a1) ->
  exists w1,
    advanced w w1 [Wrote cmd_reset true; Wrote cmd_start true]
             (Z.of_N a0 + Z.of_N a1 + 600) 2 0 /\
    cycle_body dev interval w =
    bind (poll_loop dev interval (poll_fuel interval) (now w1) 0)
         (fun _ => fetch_results dev interval) w1.
Proof.
  intros H0 H1. unfold cycle_body, must_write.
  unfold bind at 1. unfold print at 1.
  unfold bind at 1. unfold bind at 1.
  match goal with
  | |- context [safe_serial_write dev ?c ?W] =>
    rewrite (safe_serial_write_ok dev c W a0 H0)
  end.
  unfold ret at 1. unfold bind at 1. unfold sleep at 1.
  unfold bind at 1. unfold print at 1.
  unfold bind at 1. unfold bind at 1.
  match goal with
  | |- context [safe_serial_write dev ?c ?W] =>
    rewrite (safe_serial_write_ok dev c W a1 H1)
  end.
  unfold ret at 1. unfold bind at 1. unfold sleep at 1.
  unfold bind at 1. unfold print at 1.
  unfold bind at 1. unfold time at 1.
  eexists. split; [|reflexivity].
  unfold advanced. cbn. repeat split;
    first [lia | rewrite <- ?app_assoc; reflexivity].
Qed.

Lemma cycle_body_reset_failed w o a0 :
  dev_write dev (n_writes w) = (o, a0) -> write_ok o = false ->
  exists w1,
    advanced w w1 [Wrote cmd_reset false] (Z.of_N a0) 1 0 /\
    cycle_body dev interval w =
    (Raise (polling_abort "Failed to send RESET command"), w1).
Proof.
  intros H0 Ho. unfold cycle_body, must_write.
  unfold bind at 1. unfold print at 1. unfold bind at 1. unfold bind at 1.
  match goal with
  | |- context [safe_serial_write dev ?c ?W] =>
    destruct (safe_serial_write_failed dev c W o a0 H0 Ho) as [m ->]
  end.
  eexists. split; [|reflexivity].
  unfold advanced. cbn. repeat split; lia.
Qed.

(** The decoding does nothing on the serial line and always comes back
    with a value for [cycle_error]. *)
Lemma process_response_serial response w :
  exists b w',
    process_response interval response w = (Ret b, w') /\
    traffic w' = traffic w /\ n_writes w' = n_writes w /\
    n_reads w' = n_reads w /\ ser_open w' = ser_open w /\ now w' = now w.
Proof.
  rewrite process_response_run.
  destruct (Py.split Py.comma response) as [|v0 [|v1 [|v2 [|v3 rest]]]];
    try (do 2 eexists; split; [reflexivity|]; cbn; auto).
  destruct (value_or_zero v0), (value_or_zero v1), (value_or_zero v2),
    (value_or_zero v3);
    do 2 eexists; (split; [reflexivity|]); cbn; auto.
Qed.

(** The fetch: the numeric query, and one read when the query went out;
    it returns, or raises the [Exception] of a query that could not be
    sent. *)
Lemma fetch_results_serial w :
  exists o w' ok tail,
    fetch_results dev interval w = (o, w') /\
    traffic w' = traffic w ++ Wrote cmd_value ok :: tail /\
    (tail = [] \/ exists r, tail = [ReadBack r]) /\
    ser_open w' = ser_open w /\ now w <= now w' /\
    match o with
    | Ret _ => True
    | Raise e => exn_class_of e = Exception /\ ok = false /\ tail = []
    | OutOfFuel => False
    end.
Proof.
  unfold fetch_results, must_write.
  unfold bind at 1. unfold print at 1. unfold bind at 1. unfold bind at 1.
  set (w0 := add_console _ w).
  destruct (safe_serial_write_run dev (line ":NUMERIC:NORMAL:VALUE?") w0)
    as (ok & w1 & -> & _ & Ht1 & _ & _ & _ & Ho1 & Hn1).
  assert (Hnow1 : now w <= now w1).
  { rewrite Hn1. subst w0. cbn. destruct ok; lia. }
  destruct ok.
  - unfold ret at 1. unfold bind at 1.
    destruct (safe_serial_read_run dev w1)
      as (r & w2 & -> & _ & Ht2 & _ & _ & _ & Ho2 & Hn2).
    assert (Hnow2 : now w <= now w2) by (rewrite Hn2; lia).
    destruct (read_result r) as [[|c rest]|].
    + do 4 eexists. split; [reflexivity|]. cbn. rewrite Ht2, Ht1.
      rewrite <- app_assoc. repeat split; eauto; congruence.
    + destruct (process_response_serial (c :: rest) w2)
        as (b & w3 & -> & Ht3 & _ & _ & Ho3 & Hn3).
      do 4 eexists. split; [reflexivity|]. rewrite Ht3, Ht2, Ht1.
      rewrite <- app_assoc. repeat split; eauto; congruence.
    + do 4 eexists. split; [reflexivity|]. cbn. rewrite Ht2, Ht1.
      rewrite <- app_assoc. repeat split; eauto; congruence.
  - do 4 eexists. split; [reflexivity|]. rewrite Ht1.
    repeat split; eauto.
Qed.

End CycleFacts.

(** ** The state sequences of the specification *)

(** What [cycle] makes of the end of its body. *)
Lemma cycle_of_abort dev interval loop_count w e w1 :
  cycle_body dev interval
    (add_console (SayCycle "--- Starting Integration Cycle ---" loop_count) w)
  = (Raise e, w1) ->
  exn_class_of e = Exception ->
  exists w2,
    cycle dev interval loop_count w = (Ret (NextCycle true), w2) /\
    advanced w1 w2 [] 1000 0 0.
Proof.
  intros E Hc. unfold cycle. unfold bind at 1. unfold print at 1.
  unfold bind at 1. unfold try_except. unfold bind at 1. rewrite E.
  unfold caught_by. rewrite Hc. cbn [isinstance].
  eexists. split; [reflexivity|].
  unfold advanced. cbn. rewrite app_nil_r. repeat split; lia.
Qed.

Lemma cycle_of_timeout dev interval loop_count w e w1 :
  cycle_body dev interval
    (add_console (SayCycle "--- Starting Integration Cycle ---" loop_count) w)
  = (Raise e, w1) ->
  exn_class_of e = TimeoutError ->
  exists w2,
    cycle dev interval loop_count w = (Ret Break, w2) /\
    advanced w1 w2 [] 0 0 0.
Proof.
  intros E Hc. unfold cycle. unfold bind at 1. unfold print at 1.
  unfold bind at 1. unfold try_except. unfold bind at 1. rewrite E.
  unfold caught_by. rewrite Hc. cbn [isinstance].
  eexists. split; [reflexivity|].
  unfold advanced. cbn. rewrite app_nil_r. repeat split; lia.
Qed.

Lemma cycle_of_return dev interval loop_count w b w1 :
  cycle_body dev interval
    (add_console (SayCycle "--- Starting Integration Cycle ---" loop_count) w)
  = (Ret b, w1) ->
  exists w2,
    cycle dev interval loop_count w = (Ret (NextCycle b), w2) /\
    advanced w1 w2 [] 0 0 0.
Proof.
  intros E. unfold cycle. unfold bind at 1. unfold print at 1.
  unfold bind at 1. unfold try_except. unfold bind at 1. rewrite E.
  unfold ret at 1.
  destruct b; (eexists; split; [reflexivity|]);
    unfold advanced; cbn; rewrite app_nil_r; repeat split; lia.
Qed.

(** C3: with the reset and the start sent, the answers RUNNING, RUNNING,
    TIMEUP to the state query (arriving within the watchdog) make the cycle
    send exactly three state queries, each followed by one read, and then
    the numeric query; the answer STOP to the first state query ends the
    cycle after that one read, with the cycle flagged and no further
    traffic. *)
Theorem polling_by_state_sequence dev interval loop_count w :
  (forall a0 a1 a2 a3 a4 b0 b1 b2 d0 d1 d2,
     dev_write dev (n_writes w) = (WriteOk, a0) ->
     dev_write dev (S (n_writes w)) = (WriteOk, a1) ->
     dev_write dev (S (S (n_writes w))) = (WriteOk, a2) ->
     dev_write dev (S (S (S (n_writes w)))) = (WriteOk, a3) ->
     dev_write dev (S (S (S (S (n_writes w))))) = (WriteOk, a4) ->
     dev_read dev (n_reads w) = (ReadLine b0, d0) ->
     dev_read dev (S (n_reads w)) = (ReadLine b1, d1) ->
     dev_read dev (S (S (n_reads w))) = (ReadLine b2, d2) ->
     read_result (Some b0) = Some (Py.lit "RUNNING") ->
     read_result (Some b1) = Some (Py.lit "RUNNING") ->
     read_result (Some b2) = Some (Py.lit "TIMEUP") ->
     Z.of_N a2 + Z.of_N d0 + Z.of_N a3 + Z.of_N d1 + 1000
     <= software_timeout_ms interval ->
     exists ok tail,
       traffic (snd (cycle dev interval loop_count w)) =
       traffic w ++
       [Wrote cmd_reset true; Wrote cmd_start true;
        Wrote cmd_state true; ReadBack (Some b0);
        Wrote cmd_state true; ReadBack (Some b1);
        Wrote cmd_state true; ReadBack (Some b2);
        Wrote cmd_value ok] ++ tail /\
       (tail = [] \/ exists r, tail = [ReadBack r])) /\
  (forall a0 a1 a2 b0 d0,
     dev_write dev (n_writes w) = (WriteOk, a0) ->
     dev_write dev (S (n_writes w)) = (WriteOk, a1) ->
     dev_write dev (S (S (n_writes w))) = (WriteOk, a2) ->
     dev_read dev (n_reads w) = (ReadLine b0, d0) ->
     read_result (Some b0) = Some (Py.lit "STOP") ->
     0 <= software_timeout_ms interval ->
     fst (cycle dev interval loop_count w) = Ret (NextCycle true) /\
     traffic (snd (cycle dev interval loop_count w)) =
     traffic w ++
     [Wrote cmd_reset true; Wrote cmd_start true;
      Wrote cmd_state true; ReadBack (Some b0)]).
Proof.
  set (w0 := add_console (SayCycle "--- Starting Integration Cycle ---" loop_count) w).
  split.
  - intros a0 a1 a2 a3 a4 b0 b1 b2 d0 d1 d2 W0 W1 W2 W3 W4 R0 R1 R2 S0 S1 S2 Ht.
    destruct (cycle_body_started dev interval w0 a0 a1 W0 W1)
      as (w1 & (T1 & _ & N1 & M1 & _ & C1) & E1).
    cbn in T1, N1, M1. rewrite Nat.add_0_r in M1.
    replace (n_writes w + 2)%nat with (S (S (n_writes w))) in N1 by lia.
    (* first turn: RUNNING *)
    assert (O1 : timed_out interval (now w1) (now w1) = false)
      by (apply timed_out_false; lia).
    set (k := Nat.pred (Nat.pred (Nat.pred (poll_fuel interval)))).
    pose proof (poll_turn dev interval (S (S k)) (now w1) 0 w1 O1) as P1.
    cbv zeta in P1. rewrite N1, M1, W2, R0 in P1. cbn [fst snd write_ok read_bytes] in P1.
    rewrite S0 in P1. change (classify (Py.lit "RUNNING")) with Running in P1.
    destruct P1 as (l2 & w2 & (T2 & _ & N2 & M2 & _ & C2) & E2).
    rewrite N1 in N2. rewrite M1 in M2.
    replace (S (S (n_writes w)) + 1)%nat with (S (S (S (n_writes w)))) in N2 by lia.
    replace (n_reads w + 1)%nat with (S (n_reads w)) in M2 by lia.
    (* second turn: RUNNING *)
    assert (O2 : timed_out interval (now w1) (now w2) = false)
      by (apply timed_out_false; lia).
    pose proof (poll_turn dev interval (S k) (now w1) l2 w2 O2) as P2.
    cbv zeta in P2. rewrite N2, M2, W3, R1 in P2. cbn [fst snd write_ok read_bytes] in P2.
    rewrite S1 in P2. change (classify (Py.lit "RUNNING")) with Running in P2.
    destruct P2 as (l3 & w3 & (T3 & _ & N3 & M3 & _ & C3) & E3).
    rewrite N2 in N3. rewrite M2 in M3.
    replace (S (S (S (n_writes w))) + 1)%nat with (S (S (S (S (n_writes w))))) in N3 by lia.
    replace (S (n_reads w) + 1)%nat with (S (S (n_reads w))) in M3 by lia.
    (* third turn: TIMEUP *)
    assert (O3 : timed_out interval (now w1) (now w3) = false)
      by (apply timed_out_false; lia).
    pose proof (poll_turn dev interval k (now w1) l3 w3 O3) as P3.
    cbv zeta in P3. rewrite N3, M3, W4, R2 in P3. cbn [fst snd write_ok read_bytes] in P3.
    rewrite S2 in P3. change (classify (Py.lit "TIMEUP")) with Complete in P3.
    destruct P3 as (w4 & (T4 & _) & E4).
    (* the fuel covers the three turns *)
    assert (F : poll_fuel interval = S (S (S k))).
    { unfold k, poll_fuel.
      assert (10 <= software_timeout_ms interval / 100)
        by (apply Z.div_le_lower_bound; lia).
      lia. }
    destruct (fetch_results_serial dev interval w4)
      as (o & w5 & ok & tail & E5 & T5 & Htail & _).
    assert (Ebody : cycle_body dev interval w0 = (o, w5)).
    { rewrite E1. unfold bind at 1. rewrite F, E2, E3, E4. exact E5. }
    exists ok, tail. split; [|exact Htail].
    assert (Htr : traffic w5 =
                  traffic w ++
                  [Wrote cmd_reset true; Wrote cmd_start true;
                   Wrote cmd_state true; ReadBack (Some b0);
                   Wrote cmd_state true; ReadBack (Some b1);
                   Wrote cmd_state true; ReadBack (Some b2);
                   Wrote cmd_value ok] ++ tail).
    { rewrite T5, T4, T3, T2, T1. rewrite <- !app_assoc. reflexivity. }
    destruct o as [b|e|].
    + destruct (cycle_of_return dev interval loop_count w b w5 Ebody)
        as (w6 & -> & (T6 & _)).
      cbn [snd]. rewrite T6, app_nil_r. exact Htr.
    + destruct (fetch_results_serial dev interval w4)
        as (o' & w5' & ok' & tail' & E5' & _ & _ & _ & _ & Hexn).
      rewrite E5 in E5'. injection E5' as <- <-.
      destruct Hexn as (Hc & _).
      destruct (cycle_of_abort dev interval loop_count w e w5 Ebody Hc)
        as (w6 & -> & (T6 & _)).
      cbn [snd]. rewrite T6, app_nil_r. exact Htr.
    + destruct (fetch_results_serial dev interval w4)
        as (o' & w5' & ok' & tail' & E5' & _ & _ & _ & _ & Hexn).
      rewrite E5 in E5'. injection E5' as <- <-. contradiction.
  - intros a0 a1 a2 b0 d0 W0 W1 W2 R0 S0 Ht.
    destruct (cycle_body_started dev interval w0 a0 a1 W0 W1)
      as (w1 & (T1 & _ & N1 & M1 & _ & C1) & E1).
    cbn in T1, N1, M1. rewrite Nat.add_0_r in M1.
    replace (n_writes w + 2)%nat with (S (S (n_writes w))) in N1 by lia.
    assert (O1 : timed_out interval (now w1) (now w1) = false)
      by (apply timed_out_false; lia).
    pose proof (poll_turn dev interval (Nat.pred (poll_fuel interval))
                  (now w1) 0 w1 O1) as P1.
    cbv zeta in P1. rewrite N1, M1, W2, R0 in P1. cbn [fst snd write_ok read_bytes] in P1.
    rewrite S0 in P1. change (classify (Py.lit "STOP")) with StoppedUnexpectedly in P1.
    destruct P1 as (w2 & (T2 & _) & E2).
    assert (F : poll_fuel interval = S (Nat.pred (poll_fuel interval))).
    { unfold poll_fuel. lia. }
    assert (Ebody : cycle_body dev interval w0
                    = (Raise (polling_abort "Integration stopped unexpectedly"), w2)).
    { rewrite E1. unfold bind at 1. rewrite F, E2. reflexivity. }
    destruct (cycle_of_abort dev interval loop_count w _ w2 Ebody eq_refl)
      as (w3 & -> & (T3 & _)).
    cbn [fst snd]. split; [reflexivity|].
    rewrite T3, app_nil_r, T2, T1. rewrite <- !app_assoc. reflexivity.
Qed.

Lemma polling_by_state_sequence_witness :
  (exists ok tail,
     traffic (snd (cycle Bench.completes 10 1 Bench.w0)) =
     traffic Bench.w0 ++
     [Wrote cmd_reset true; Wrote cmd_start true;
      Wrote cmd_state true; ReadBack (Some (wire (line "RUNNING")));
      Wrote cmd_state true; ReadBack (Some (wire (line "RUNNING")));
      Wrote cmd_state true; ReadBack (Some (wire (line "TIMEUP")));
      Wrote cmd_value ok] ++ tail /\
     (tail = [] \/ exists r, tail = [ReadBack r])) /\
  (fst (cycle Bench.stops 10 1 Bench.w0) = Ret (NextCycle true) /\
   traffic (snd (cycle Bench.stops 10 1 Bench.w0)) =
   traffic Bench.w0 ++
   [Wrote cmd_reset true; Wrote cmd_start true;
    Wrote cmd_state true; ReadBack (Some (wire (line "STOP")))]).
Proof.
  split.
  - apply (proj1 (polling_by_state_sequence Bench.completes 10 1 Bench.w0)
             0 0 0 0 0
             (wire (line "RUNNING")) (wire (line "RUNNING"))
             (wire (line "TIMEUP")) 10 10 10)%N;
      try reflexivity.
    unfold software_timeout_ms. cbn. lia.
  - apply (proj2 (polling_by_state_sequence Bench.stops 10 1 Bench.w0)
             0 0 0 (wire (line "STOP")) 10)%N;
      try reflexivity.
    unfold software_timeout_ms. lia.
Defined.

(** ** The watchdog *)

Section Watchdog.

Variable dev : device.
Variable interval : Z.





End Watchdog.



(** ** One integration in flight *)

Lemma monitor_app p t1 t2 :
  monitor p (t1 ++ t2) =
  match monitor p t1 with
  | Some p' => monitor p' t2
  | None => None
  end.
Proof.
  revert p. induction t1 as [|e t1 IH]; intros p; cbn; [reflexivity|].
  destruct (monitor_step p e); [apply IH | reflexivity].
Qed.

Lemma phase_after w w1 evs p :
  traffic w1 = traffic w ++ evs -> phase_of w = Some p ->
  phase_of w1 = monitor p evs.
Proof.
  unfold phase_of. intros -> H. rewrite monitor_app, H. reflexivity.
Qed.

(** The monitor does reject traffic that breaks the discipline: a start
    without a reset, a second start, a reset while in flight. *)
Lemma monitor_rejects :
  monitor Idle [Wrote cmd_start true] = None /\
  monitor Idle [Wrote cmd_reset true; Wrote cmd_start true;
                Wrote cmd_state true; Wrote cmd_start true] = None /\
  monitor Idle [Wrote cmd_reset true; Wrote cmd_start true;
                Wrote cmd_reset true] = None /\
  monitor Idle [Wrote cmd_reset true; Wrote cmd_start true;
                Wrote cmd_state true;
                ReadBack (Some (wire (line "RUNNING")));
                Wrote cmd_reset true] = None /\
  monitor Idle [Wrote cmd_reset true; Wrote cmd_start true;
                Wrote cmd_state true;
                ReadBack (Some (wire (line "TIMEUP")));
                Wrote cmd_reset true; Wrote cmd_start true]
  = Some InFlight.
Proof. repeat split; vm_compute; reflexivity. Qed.

Lemma calm_same w w' : traffic w' = traffic w -> calm w -> calm w'.
Proof. unfold calm, phase_of. intros ->. auto. Qed.

Lemma calm_wrote w w' cmd ok :
  plain cmd -> traffic w' = traffic w ++ [Wrote cmd ok] -> calm w -> calm w'.
Proof.
  intros [H1 H2] Ht (p & Hp & Hn).
  exists Idle. split; [|discriminate].
  rewrite (phase_after _ _ _ _ Ht Hp). cbn [monitor]. unfold monitor_step.
  rewrite H1, H2.
  destruct (cmd =? cmd_stop)%string; [reflexivity|].
  destruct p; [reflexivity|reflexivity|congruence].
Qed.

Lemma calm_read w w' r :
  traffic w' = traffic w ++ [ReadBack r] -> calm w -> calm w'.
Proof.
  intros Ht (p & Hp & Hn).
  exists Idle. split; [|discriminate].
  rewrite (phase_after _ _ _ _ Ht Hp). cbn.
  destruct p; [reflexivity|reflexivity|congruence].
Qed.

Lemma calm_initial t0 file : calm (initial_world t0 file).
Proof. exists Idle. split; [reflexivity|discriminate]. Qed.

Section Discipline.

Variable dev : device.
Variable interval : Z.

(** The polling keeps the integration in flight until a read shows its
    end. *)
Lemma poll_run_phase start w o w' :
  poll_run dev interval start w o w' ->
  phase_of w = Some InFlight ->
  match o with
  | Ret _ => phase_of w' = Some Idle
  | Raise e =>
    exn_class_of e = Exception /\ phase_of w' = Some Idle \/
    exn_class_of e = TimeoutError /\ phase_of w' = Some InFlight
  | OutOfFuel => False
  end.
Proof.
  induction 1 as [w e0 Ht Hc | w w1 s dt Ht Hw Hr Hs Ha
                  | w w1 s dt e0 Ht Hw Hr Hs Hc Ha | w w1 o w' Ht Hg Hrun IH];
    intros Hp.
  - right. auto.
  - destruct Ha as (Htr & _). rewrite (phase_after _ _ _ _ Htr Hp). cbn.
    rewrite (shows_end_classify _ _ Hr), Hs. reflexivity.
  - left. split; [exact Hc|].
    destruct Ha as (Htr & _). rewrite (phase_after _ _ _ _ Htr Hp). cbn.
    rewrite (shows_end_classify _ _ Hr).
    destruct Hs as [-> | ->]; reflexivity.
  - apply IH.
    destruct Hg as (evs & dt & dr & (Htr & _) & _ & [(_ & -> & _) | (_ & _ & Hev)]).
    + rewrite (phase_after _ _ _ _ Htr Hp). reflexivity.
    + cbv zeta in Hev. destruct Hev as (-> & Hs).
      rewrite (phase_after _ _ _ _ Htr Hp). cbn. rewrite Hs. reflexivity.
Qed.

Lemma cycle_body_start_failed w a0 o a1 :
  dev_write dev (n_writes w) = (WriteOk, a0) ->
  dev_write dev (S (n_writes w)) = (o, a1) -> write_ok o = false ->
  exists w1,
    advanced w w1 [Wrote cmd_reset true; Wrote cmd_start false]
             (Z.of_N a0 + Z.of_N a1 + 400) 2 0 /\
    cycle_body dev interval w =
    (Raise (polling_abort "Failed to send START command"), w1).
Proof.
  intros H0 H1 Ho. unfold cycle_body, must_write.
  unfold bind at 1. unfold print at 1. unfold bind at 1. unfold bind at 1.
  match goal with
  | |- context [safe_serial_write dev ?c ?W] =>
    rewrite (safe_serial_write_ok dev c W a0 H0)
  end.
  unfold ret at 1. unfold bind at 1. unfold sleep at 1.
  unfold bind at 1. unfold print at 1. unfold bind at 1. unfold bind at 1.
  match goal with
  | |- context [safe_serial_write dev ?c ?W] =>
    destruct (safe_serial_write_failed dev c W o a1 H1 Ho) as [m ->]
  end.
  eexists. split; [|reflexivity].
  unfold advanced. cbn. repeat split;
    first [lia | rewrite <- ?app_assoc; reflexivity].
Qed.

(** A turn of the main loop that starts with nothing in flight sends its
    start right after its reset and, unless it ends in [break], ends with
    nothing in flight. *)
Lemma cycle_phase loop_count w :
  calm w ->
  exists k w',
    cycle dev interval loop_count w = (Ret k, w') /\
    match k with
    | NextCycle _ => calm w'
    | Break => phase_of w' <> None
    end.
Proof.
  intros (p & Hp & Hn).
  set (w0 := add_console (SayCycle "--- Starting Integration Cycle ---" loop_count) w).
  assert (Hp0 : phase_of w0 = Some p) by exact Hp.
  destruct (dev_write dev (n_writes w)) as [o0 a0] eqn:W0.
  destruct (write_ok o0) eqn:Ho0.
  - destruct o0; try discriminate.
    destruct (dev_write dev (S (n_writes w))) as [o1 a1] eqn:W1.
    destruct (write_ok o1) eqn:Ho1.
    + destruct o1; try discriminate.
      destruct (cycle_body_started dev interval w0 a0 a1 W0 W1)
        as (w1 & (T1 & _) & E1).
      assert (Hp1 : phase_of w1 = Some InFlight).
      { rewrite (phase_after _ _ _ _ T1 Hp0). cbn.
        destruct p; [reflexivity|reflexivity|congruence]. }
      pose proof (poll_loop_terminates dev interval (poll_fuel interval)
                    (now w1) 0 w1 (poll_fuel_enough interval w1)) as Hterm.
      destruct (poll_loop dev interval (poll_fuel interval) (now w1) 0 w1)
        as [o w2] eqn:E. cbn [fst] in Hterm.
      pose proof (poll_loop_run dev interval _ _ _ _ _ _ E Hterm) as Hrun.
      pose proof (poll_run_phase _ _ _ _ Hrun Hp1) as Hph.
      destruct o as [[]|e|]; [| |contradiction].
      * destruct (fetch_results_serial dev interval w2)
          as (o' & w3 & ok & tail & E3 & T3 & Htail & _ & _ & Ho').
        assert (Hp3 : phase_of w3 = Some Idle).
        { rewrite (phase_after _ _ _ _ T3 Hph).
          destruct Htail as [-> | (r & ->)]; reflexivity. }
        assert (Ebody : cycle_body dev interval w0 = (o', w3)).
        { rewrite E1. unfold bind at 1. rewrite E. exact E3. }
        destruct o' as [b|e|]; [| |contradiction].
        -- destruct (cycle_of_return dev interval loop_count w b w3 Ebody)
             as (w4 & -> & (T4 & _)).
           do 2 eexists. split; [reflexivity|].
           rewrite app_nil_r in T4. apply (calm_same w3); [exact T4|].
           exists Idle. split; [exact Hp3|discriminate].
        -- destruct Ho' as (Hc & _).
           destruct (cycle_of_abort dev interval loop_count w e w3 Ebody Hc)
             as (w4 & -> & (T4 & _)).
           do 2 eexists. split; [reflexivity|].
           rewrite app_nil_r in T4. apply (calm_same w3); [exact T4|].
           exists Idle. split; [exact Hp3|discriminate].
      * assert (Ebody : cycle_body dev interval w0 = (Raise e, w2)).
        { rewrite E1. unfold bind at 1. rewrite E. reflexivity. }
        destruct Hph as [(Hc & Hp2) | (Hc & Hp2)].
        -- destruct (cycle_of_abort dev interval loop_count w e w2 Ebody Hc)
             as (w4 & -> & (T4 & _)).
           do 2 eexists. split; [reflexivity|].
           rewrite app_nil_r in T4. apply (calm_same w2); [exact T4|].
           exists Idle. split; [exact Hp2|discriminate].
        -- destruct (cycle_of_timeout dev interval loop_count w e w2 Ebody Hc)
             as (w4 & -> & (T4 & _)).
           do 2 eexists. split; [reflexivity|].
           rewrite app_nil_r in T4. unfold phase_of in *. rewrite T4, Hp2.
           discriminate.
    + destruct (cycle_body_start_failed w0 a0 o1 a1 W0 W1 Ho1)
        as (w1 & (T1 & _) & E1).
      destruct (cycle_of_abort dev interval loop_count w _ w1 E1 eq_refl)
        as (w4 & -> & (T4 & _)).
      do 2 eexists. split; [reflexivity|].
      rewrite app_nil_r in T4. apply (calm_same w1); [exact T4|].
      exists Idle. split; [|discriminate].
      rewrite (phase_after _ _ _ _ T1 Hp0). cbn.
      destruct p; [reflexivity|reflexivity|congruence].
  - destruct (cycle_body_reset_failed dev interval w0 o0 a0 W0 Ho0)
      as (w1 & (T1 & _) & E1).
    destruct (cycle_of_abort dev interval loop_count w _ w1 E1 eq_refl)
      as (w4 & -> & (T4 & _)).
    do 2 eexists. split; [reflexivity|].
    rewrite app_nil_r in T4. apply (calm_same w1); [exact T4|].
    exists Idle. split; [|discriminate].
    rewrite (phase_after _ _ _ _ T1 Hp0). cbn.
    destruct p; [reflexivity|reflexivity|congruence].
Qed.

Lemma measurement_loop_phase cycles : forall loop_count w,
  calm w ->
  phase_of (snd (measurement_loop dev interval cycles loop_count w)) <> None /\
  fst (measurement_loop dev interval cycles loop_count w) <> OutOfFuel.
Proof.
  induction cycles as [|cycles IH]; intros loop_count w Hc.
  - cbn. destruct Hc as (p & Hp & _). unfold phase_of in *. rewrite Hp.
    split; discriminate.
  - cbn [measurement_loop]. unfold bind at 1 2.
    destruct (cycle_phase (S loop_count) w Hc) as (k & w' & -> & Hk).
    destruct k as [ce|].
    + apply IH. exact Hk.
    + cbn. split; [exact Hk|discriminate].
Qed.

End Discipline.

(** ** The traffic of a turn of the main loop *)

Lemma emits_ret {A} P (a : A) : emits P (ret a).
Proof. intros w. exists []. rewrite app_nil_r. auto. Qed.

Lemma emits_raise {A} P c text : emits P (@raise A c text).
Proof. intros w. exists []. rewrite app_nil_r. auto. Qed.

Lemma emits_reraise {A} P e : emits P (@reraise A e).
Proof. intros w. exists []. rewrite app_nil_r. auto. Qed.

Lemma emits_print P m : emits P (print m).
Proof. intros w. exists []. cbn. rewrite app_nil_r. auto. Qed.

Lemma emits_sleep P ms : emits P (sleep ms).
Proof. intros w. exists []. cbn. rewrite app_nil_r. auto. Qed.

Lemma emits_serial_open P dev : emits P (serial_open dev).
Proof.
  intros w. exists []. unfold serial_open.
  destruct (dev_opens dev); cbn; rewrite app_nil_r; auto.
Qed.

Lemma emits_close_if_open P : emits P close_if_open.
Proof.
  intros w. exists []. unfold close_if_open.
  destruct (ser_open w); cbn; rewrite app_nil_r; auto.
Qed.

Lemma emits_bind {A B} P (m : M A) (k : A -> M B) :
  emits P m -> (forall a, emits P (k a)) -> emits P (bind m k).
Proof.
  intros Hm Hk w. unfold bind. destruct (Hm w) as (evs1 & T1 & P1).
  destruct (m w) as [[a|e|] w1]; cbn [fst snd] in *; eauto.
  destruct (Hk a w1) as (evs2 & T2 & P2).
  exists (evs1 ++ evs2). rewrite T2, T1, app_assoc, forallb_app, P1, P2. auto.
Qed.

Lemma emits_try {A} P (m : M A) (h : exn -> M A) :
  emits P m -> (forall e, emits P (h e)) -> emits P (try_except m h).
Proof.
  intros Hm Hh w. unfold try_except. destruct (Hm w) as (evs1 & T1 & P1).
  destruct (m w) as [[a|e|] w1]; cbn [fst snd] in *; eauto.
  destruct (Hh e w1) as (evs2 & T2 & P2).
  exists (evs1 ++ evs2). rewrite T2, T1, app_assoc, forallb_app, P1, P2. auto.
Qed.

Lemma emits_safe_serial_write P dev cmd :
  P (Wrote cmd true) = true -> P (Wrote cmd false) = true ->
  emits P (safe_serial_write dev cmd).
Proof.
  intros Ht Hf w.
  destruct (safe_serial_write_run dev cmd w) as (ok & w' & -> & _ & T & _).
  exists [Wrote cmd ok]. split; [exact T|]. cbn.
  destruct ok; [rewrite Ht | rewrite Hf]; reflexivity.
Qed.

Lemma emits_safe_serial_read P dev :
  (forall r, P (ReadBack r) = true) -> emits P (safe_serial_read dev).
Proof.
  intros Hr w.
  destruct (safe_serial_read_run dev w) as (r & w' & -> & _ & T & _).
  exists [ReadBack r]. split; [exact T|]. cbn. rewrite Hr. reflexivity.
Qed.

(** Breaks an [emits outside_cycle] goal down along the structure of the
    program. *)
Ltac emit :=
  repeat first
    [ apply emits_ret | apply emits_raise | apply emits_reraise
    | apply emits_print | apply emits_sleep | apply emits_serial_open
    | apply emits_close_if_open
    | apply emits_safe_serial_write; lazy; reflexivity
    | apply emits_safe_serial_read; intros ?; reflexivity
    | apply emits_bind; [|intros ?]
    | apply emits_try; [|intros ?]
    | match goal with
      | |- emits _ (if ?c then _ else _) => destruct c
      | |- emits _ (match ?x with _ => _ end) => destruct x
      end ].

Lemma emits_configure dev interval :
  emits outside_cycle (configure dev interval).
Proof. unfold configure, configure_body, must_write, confirm. emit. Qed.

Lemma poll_run_raises dev interval start w o w' :
  poll_run dev interval start w o w' ->
  match o with
  | Ret _ => True
  | Raise e => exn_class_of e = TimeoutError \/ exn_class_of e = Exception
  | OutOfFuel => False
  end.
Proof.
  induction 1; auto.
Qed.

Section TurnTraffic.

Variable dev : device.
Variable interval : Z.

(** A turn of the polling that goes round adds to a polling stretch. *)
Lemma polling_stretch_step w w1 t :
  goes_around dev w w1 ->
  exists evs,
    traffic w1 = traffic w ++ evs /\
    polling_stretch (evs ++ t) = polling_stretch t /\
    forallb quiet (evs ++ t) = forallb quiet t.
Proof.
  intros (evs & dt & dr & (T & _) & _ & Hk). exists evs.
  split; [exact T|].
  destruct Hk as [(_ & -> & _) | (_ & _ & Hk)].
  - cbn [app polling_stretch forallb quiet]. rewrite String.eqb_refl.
    auto.
  - cbv zeta in Hk. destruct Hk as [-> Hs].
    cbn [app polling_stretch forallb quiet]. rewrite String.eqb_refl, Hs.
    auto.
Qed.

(** The traffic of the polling is a polling stretch; when the polling
    returns, its last read is the first to show an end, and it shows
    completion. *)
Lemma poll_run_stretch start w o w' :
  poll_run dev interval start w o w' ->
  exists evs,
    traffic w' = traffic w ++ evs /\
    polling_stretch evs = true /\
    match o with
    | Ret _ =>
      exists pre r s,
        evs = pre ++ [Wrote cmd_state true; ReadBack r] /\
        polling_stretch pre = true /\ forallb quiet pre = true /\
        read_result r = Some s /\ classify s = Complete
    | Raise _ => True
    | OutOfFuel => False
    end.
Proof.
  induction 1 as [w e0 Ht Hc | w w1 s dt Ht Hw Hr Hs Ha
                  | w w1 s dt e0 Ht Hw Hr Hs Hc Ha | w w1 o w' Ht Hg Hrun IH].
  - exists []. rewrite app_nil_r. auto.
  - eexists. split; [apply Ha|]. split.
    + cbn [polling_stretch]. rewrite String.eqb_refl.
      rewrite (shows_end_classify _ _ Hr), Hs. reflexivity.
    + exists [], (read_bytes (fst (dev_read dev (n_reads w)))), s. auto.
  - eexists. split; [apply Ha|]. split; [|exact I].
    cbn [polling_stretch]. rewrite String.eqb_refl.
    rewrite (shows_end_classify _ _ Hr).
    destruct Hs as [-> | ->]; reflexivity.
  - destruct IH as (evs2 & T2 & S2 & Ho).
    destruct (polling_stretch_step w w1 evs2 Hg) as (evs1 & T1 & S1 & _).
    exists (evs1 ++ evs2). rewrite T2, T1, app_assoc.
    split; [reflexivity|]. split; [rewrite S1; exact S2|].
    destruct o as [[]|e|]; auto.
    destruct Ho as (pre & r & s & -> & Sp & Qp & Hr & Hs).
    destruct (polling_stretch_step w w1 pre Hg) as (evs1' & T1' & S1' & Q1').
    assert (evs1' = evs1) by (rewrite T1 in T1'; eapply app_inv_head; eauto).
    subst evs1'.
    exists (evs1 ++ pre), r, s. rewrite app_assoc, S1', Q1'. auto.
Qed.

(** The fetch sends the numeric query and reads once when it went out. *)
Lemma fetch_results_traffic w :
  exists o w' tail,
    fetch_results dev interval w = (o, w') /\
    traffic w' = traffic w ++ tail /\
    fetch_traffic tail /\
    match o with
    | Ret _ => True
    | Raise e => exn_class_of e = Exception
    | OutOfFuel => False
    end.
Proof.
  unfold fetch_results, must_write.
  unfold bind at 1. unfold print at 1. unfold bind at 1. unfold bind at 1.
  set (w0 := add_console _ w).
  destruct (safe_serial_write_run dev (line ":NUMERIC:NORMAL:VALUE?") w0)
    as (ok & w1 & -> & _ & Ht1 & _).
  change (traffic w0) with (traffic w) in Ht1.
  destruct ok.
  - unfold ret at 1. unfold bind at 1.
    destruct (safe_serial_read_run dev w1) as (r & w2 & -> & _ & Ht2 & _).
    assert (Hf : fetch_traffic [Wrote cmd_value true; ReadBack r])
      by (right; eexists; reflexivity).
    destruct (read_result r) as [[|c rest]|].
    + do 3 eexists. split; [reflexivity|]. cbn [traffic add_console].
      rewrite Ht2, Ht1, <- app_assoc. auto.
    + destruct (process_response_serial interval (c :: rest) w2)
        as (b & w3 & -> & Ht3 & _).
      do 3 eexists. split; [reflexivity|].
      rewrite Ht3, Ht2, Ht1, <- app_assoc. auto.
    + do 3 eexists. split; [reflexivity|]. cbn [traffic add_console].
      rewrite Ht2, Ht1, <- app_assoc. auto.
  - do 3 eexists. split; [reflexivity|]. cbn [traffic].
    split; [exact Ht1|]. split; [left; reflexivity | reflexivity].
Qed.

(** A turn of the main loop always comes back, and its traffic is that of
    a cycle. *)
Lemma cycle_traffic loop_count w :
  exists k w' evs,
    cycle dev interval loop_count w = (Ret k, w') /\
    traffic w' = traffic w ++ evs /\
    turn_traffic evs.
Proof.
  set (w0 := add_console
               (SayCycle "--- Starting Integration Cycle ---" loop_count) w).
  assert (B : exists o w1 evs,
             cycle_body dev interval w0 = (o, w1) /\
             traffic w1 = traffic w ++ evs /\ turn_traffic evs /\
             match o with
             | Ret _ => True
             | Raise e =>
               exn_class_of e = TimeoutError \/ exn_class_of e = Exception
             | OutOfFuel => False
             end).
  { destruct (dev_write dev (n_writes w)) as [o0 a0] eqn:E0.
    destruct (write_ok o0) eqn:H0.
    - destruct o0; try discriminate.
      destruct (dev_write dev (S (n_writes w))) as [o1 a1] eqn:E1.
      destruct (write_ok o1) eqn:H1.
      + destruct o1; try discriminate.
        destruct (cycle_body_started dev interval w0 a0 a1 E0 E1)
          as (w1 & (T1 & _) & ->).
        change (traffic w0) with (traffic w) in T1.
        unfold bind.
        pose proof (poll_loop_terminates dev interval (poll_fuel interval)
                      (now w1) 0 w1 (poll_fuel_enough interval w1)) as Hne.
        destruct (poll_loop dev interval (poll_fuel interval) (now w1) 0 w1)
          as [o w2] eqn:Ep. cbn [fst] in Hne.
        pose proof (poll_loop_run dev interval _ _ _ _ _ _ Ep Hne) as Hrun.
        destruct (poll_run_stretch _ _ _ _ Hrun) as (evs & T2 & S2 & Ho).
        pose proof (poll_run_raises _ _ _ _ _ _ Hrun) as Hc.
        destruct o as [[]|e|]; [| |contradiction].
        * destruct Ho as (pre & r & s & -> & Sp & Qp & Hr & Hs).
          destruct (fetch_results_traffic w2)
            as (o & w3 & tail & -> & T3 & F3 & Ho3).
          do 3 eexists. split; [reflexivity|]. split.
          { rewrite T3, T2, T1, <- !app_assoc. cbn [app]. reflexivity. }
          split; [eapply TurnFetched; eauto|].
          destruct o; auto.
        * do 3 eexists. split; [reflexivity|]. split.
          { rewrite T2, T1, <- app_assoc. cbn [app]. reflexivity. }
          split; [apply TurnPolled; exact S2 | exact Hc].
      + destruct (cycle_body_start_failed dev interval w0 a0 o1 a1 E0 E1 H1)
          as (w1 & (T1 & _) & ->).
        do 3 eexists. split; [reflexivity|]. split; [exact T1|].
        split; [apply TurnNoStart | right; reflexivity].
    - destruct (cycle_body_reset_failed dev interval w0 o0 a0 E0 H0)
        as (w1 & (T1 & _) & ->).
      do 3 eexists. split; [reflexivity|]. split; [exact T1|].
      split; [apply TurnNoReset | right; reflexivity]. }
  destruct B as (o & w1 & evs & Hb & T & Hshape & Ho).
  destruct o as [b|e|]; [| |contradiction].
  - destruct (cycle_of_return dev interval loop_count w b w1 Hb)
      as (w2 & -> & (T2 & _)).
    do 3 eexists. split; [reflexivity|].
    rewrite T2, app_nil_r. split; [exact T | exact Hshape].
  - destruct Ho as [Hc|Hc].
    + destruct (cycle_of_timeout dev interval loop_count w e w1 Hb Hc)
        as (w2 & -> & (T2 & _)).
      do 3 eexists. split; [reflexivity|].
      rewrite T2, app_nil_r. split; [exact T | exact Hshape].
    + destruct (cycle_of_abort dev interval loop_count w e w1 Hb Hc)
        as (w2 & -> & (T2 & _)).
      do 3 eexists. split; [reflexivity|].
      rewrite T2, app_nil_r. split; [exact T | exact Hshape].
Qed.

Lemma measurement_loop_traffic cycles : forall loop_count w,
  exists turns,
    traffic (snd (measurement_loop dev interval cycles loop_count w))
    = traffic w ++ List.concat turns /\
    Forall turn_traffic turns /\
    (List.length turns <= cycles)%nat.
Proof.
  induction cycles as [|cycles IH]; intros loop_count w.
  - exists []. cbn. rewrite app_nil_r. auto.
  - cbn [measurement_loop]. unfold bind.
    destruct (cycle_traffic (S loop_count) w) as (k & w1 & evs & -> & T & Hs).
    destruct k as [ce|].
    + destruct (IH (S loop_count) w1) as (turns & T2 & F2 & L2).
      exists (evs :: turns). cbn [List.concat List.length].
      rewrite T2, T, <- app_assoc.
      split; [reflexivity|]. split; [constructor; assumption | lia].
    + exists [evs]. cbn. rewrite app_nil_r.
      split; [exact T|]. split; [repeat constructor; assumption | lia].
Qed.

Lemma measurement_traffic cycles w :
  exists turns,
    traffic (snd (measurement dev interval cycles w))
    = traffic w ++ List.concat turns /\
    Forall turn_traffic turns /\
    (List.length turns <= cycles)%nat.
Proof.
  unfold measurement.
  match goal with
  | |- context [try_except ?m ?h w] =>
    assert (E : traffic (snd (try_except m h w)) = traffic (snd (m w)))
  end.
  { unfold try_except.
    match goal with
    | |- context [let (_, _) := ?m w in _] => destruct (m w) as [[a|e|] w1]
    end; try reflexivity.
    destruct (caught_by e KeyboardInterrupt);
      [|destruct (caught_by e Exception)]; reflexivity. }
  rewrite E.
  match goal with
  | |- context [snd (?m w)] =>
    assert (E2 : exists w1, traffic w1 = traffic w /\
                            m w = measurement_loop dev interval cycles 0 w1)
  end.
  { unfold bind at 1, file_is_empty.
    destruct (csv w) as [|r0 file].
    - unfold bind at 1. unfold bind at 1. unfold print at 1.
      unfold writerow at 1. eexists. split; [|reflexivity]. reflexivity.
    - unfold bind at 1. unfold ret at 1. eexists. split; reflexivity. }
  destruct E2 as (w1 & T1 & ->). rewrite <- T1.
  apply measurement_loop_traffic.
Qed.

End TurnTraffic.

(** ** The discipline over the whole run *)

Section WholeRun.

Variable dev : device.
Variable interval : Z.

Lemma wp_calm_must_write cmd text (Q : outcome unit -> world -> Prop) w :
  plain cmd -> calm w ->
  (forall o w', o <> OutOfFuel -> calm w' -> Q o w') ->
  wp (must_write dev cmd text) Q w.
Proof.
  intros Hp Hc HQ. apply wp_must_write; intros w' (_ & Ht & _);
    (apply HQ; [discriminate | eapply calm_wrote; eauto]).
Qed.

Lemma wp_calm_read (Q : outcome (option Py.str) -> world -> Prop) w :
  calm w ->
  (forall o w', o <> OutOfFuel -> calm w' -> Q o w') ->
  wp (safe_serial_read dev) Q w.
Proof.
  intros Hc HQ. apply wp_safe_serial_read. intros r w' (_ & Ht & _).
  apply HQ; [discriminate | eapply calm_read; eauto].
Qed.

Lemma wp_calm_confirm q l (Q : outcome unit -> world -> Prop) w :
  plain q -> calm w ->
  (forall o w', o <> OutOfFuel -> calm w' -> Q o w') ->
  wp (confirm dev q l) Q w.
Proof.
  intros Hp Hc HQ. unfold confirm. apply wp_bind.
  apply wp_safe_serial_write. intros ok w1 (_ & Ht & _).
  assert (Hc1 : calm w1) by (eapply calm_wrote; eauto).
  destruct ok.
  - apply wp_bind. apply wp_calm_read; [exact Hc1|].
    intros o w2 Hne Hc2. destruct o as [r|e|]; [apply wp_print| |congruence];
      (apply HQ; [discriminate | exact Hc2]).
  - apply wp_ret. apply HQ; [discriminate | exact Hc1].
Qed.

(** Carries [calm] to the world the goal is about, when the traffic has
    not changed since. *)
Ltac calm_now :=
  match goal with
  | H : calm ?w0 |- calm _ => apply (calm_same w0); [reflexivity | exact H]
  end.

Ltac plain_cmd := split; lazy; reflexivity.

Ltac calm_step :=
  cbv beta iota;
  lazymatch goal with
  | |- calm _ /\ _ => split; [calm_now | discriminate]
  | |- wp (bind _ _) _ _ => apply wp_bind
  | |- wp (print _) _ _ => apply wp_print
  | |- wp (sleep _) _ _ => apply wp_sleep
  | |- wp (ret _) _ _ => apply wp_ret
  | |- wp (raise _ _) _ _ => apply wp_raise
  | |- wp (must_write _ _ _) _ _ =>
    apply wp_calm_must_write;
    [plain_cmd | calm_now | intros [?|?|] ? ? ?; [| |congruence]]
  | |- wp (confirm _ _ _) _ _ =>
    apply wp_calm_confirm;
    [plain_cmd | calm_now | intros [?|?|] ? ? ?; [| |congruence]]
  | |- wp (safe_serial_read _) _ _ =>
    apply wp_calm_read;
    [calm_now | intros [?|?|] ? ? ?; [| |congruence]]
  | |- wp (if ?c then _ else _) _ _ => destruct c
  | |- wp (match ?r with _ => _ end) _ _ => destruct r
  end.

(** The configuration sends neither a reset nor a start, and always comes
    to an end. *)
Lemma configure_body_calm w :
  calm w ->
  wp (configure_body dev interval)
     (fun o w' => calm w' /\ o <> OutOfFuel) w.
Proof.
  intros Hc. unfold configure_body.
  apply wp_bind, wp_print. apply wp_bind.
  unfold serial_open at 1. unfold wp at 1.
  destruct (dev_opens dev); cbn [fst snd]; [|split; [calm_now|discriminate]].
  assert (Hc1 : calm (set_ser_open true
                        (add_console (Say "Attempting to connect...") w)))
    by calm_now.
  clear Hc. revert Hc1. generalize (set_ser_open true
                        (add_console (Say "Attempting to connect...") w)).
  clear w. intros w Hc.
  repeat calm_step.
Qed.

Lemma configure_calm w :
  calm w ->
  calm (snd (configure dev interval w)) /\
  fst (configure dev interval w) <> OutOfFuel.
Proof.
  intros Hc. pose proof (configure_body_calm w Hc) as H.
  unfold wp in H. unfold configure, try_except, bind.
  destruct (configure_body dev interval w) as [[[]|e|] w1]; cbn [fst snd] in *;
    destruct H as [H Hne].
  - split; [exact H | discriminate].
  - unfold close_if_open.
    destruct (caught_by e SerialException);
      [|destruct (caught_by e Exception)];
      cbn [print bind ret reraise fst snd];
      try (destruct (ser_open (add_console _ w1)));
      cbn [serial_close fst snd];
      (split; [calm_now | discriminate]).
  - congruence.
Qed.

Lemma try_except_phase {A} (m : M A) (h : exn -> M A) w :
  phase_of (snd (m w)) <> None /\ fst (m w) <> OutOfFuel ->
  (forall e w', traffic (snd (h e w')) = traffic w' /\
                fst (h e w') <> OutOfFuel) ->
  phase_of (snd (try_except m h w)) <> None /\
  fst (try_except m h w) <> OutOfFuel.
Proof.
  intros [Hp Hf] Hh. unfold try_except.
  destruct (m w) as [[a|e|] w1]; cbn [fst snd] in *; auto.
  destruct (Hh e w1) as [Ht Hn]. unfold phase_of in *. rewrite Ht. auto.
Qed.

Lemma measurement_phase cycles w :
  calm w ->
  phase_of (snd (measurement dev interval cycles w)) <> None /\
  fst (measurement dev interval cycles w) <> OutOfFuel.
Proof.
  intros Hc. unfold measurement. apply try_except_phase.
  - match goal with
    | |- phase_of (snd (?m w)) <> None /\ _ =>
      assert (E : exists w1, traffic w1 = traffic w /\
                             m w = measurement_loop dev interval cycles 0 w1)
    end.
    { unfold bind at 1, file_is_empty.
      destruct (csv w) as [|r0 file].
      - unfold bind at 1. unfold bind at 1. unfold print at 1.
        unfold writerow at 1. eexists. split; [|reflexivity]. reflexivity.
      - unfold bind at 1. unfold ret at 1. eexists. split; reflexivity. }
    destruct E as (w1 & Ht & ->).
    apply measurement_loop_phase. apply (calm_same w); assumption.
  - intros e w'.
    destruct (caught_by e KeyboardInterrupt);
      [|destruct (caught_by e Exception)]; cbn; split;
        first [reflexivity | discriminate].
Qed.

(** The clean-up sends the stop command when the port is open, and
    nothing else. *)
Lemma cleanup_serial w :
  exists o w1 evs,
    cleanup dev w = (o, w1) /\ o <> OutOfFuel /\
    traffic w1 = traffic w ++ evs /\
    (evs = [] \/ exists ok, evs = [Wrote cmd_stop ok]).
Proof.
  unfold cleanup.
  unfold bind at 1. unfold print at 1. unfold bind at 1. unfold print at 1.
  unfold bind at 1. cbn [fst snd ser_open add_console].
  destruct (ser_open w).
  - unfold bind at 1. unfold try_finally, try_except.
    unfold bind at 1. unfold print at 1. unfold bind at 1.
    match goal with
    | |- context [safe_serial_write dev ?c ?W] =>
      destruct (safe_serial_write_run dev c W)
        as (ok & w1 & -> & _ & Ht & _)
    end.
    destruct ok; cbn; do 3 eexists;
      (split; [reflexivity|]); (split; [discriminate|]);
      (split; [cbn; exact Ht|]); right; eexists; reflexivity.
  - cbn. do 3 eexists. split; [reflexivity|]. split; [discriminate|].
    split; [cbn; symmetry; apply app_nil_r | left; reflexivity].
Qed.

Lemma cleanup_phase w :
  phase_of w <> None ->
  phase_of (snd (cleanup dev w)) <> None /\ fst (cleanup dev w) <> OutOfFuel.
Proof.
  intros Hp. destruct (cleanup_serial w) as (o & w1 & evs & -> & Ho & Ht & Hev).
  cbn [fst snd]. split; [|exact Ho].
  destruct (phase_of w) as [p|] eqn:E; [|congruence].
  rewrite (phase_after _ _ _ _ Ht E).
  destruct Hev as [-> | (ok & ->)]; cbn; discriminate.
Qed.

(** The serial traffic of a whole run keeps to the discipline of the
    monitor, and a turn of the main loop that begins with nothing in
    flight either ends with nothing in flight or ends the loop. *)
Lemma run_monitored cycles :
  (forall t0 file,
     monitor Idle
       (traffic (snd (main dev interval cycles (initial_world t0 file))))
     <> None /\
     fst (main dev interval cycles (initial_world t0 file)) <> OutOfFuel) /\
  (forall loop_count w,
     calm w ->
     exists k w',
       cycle dev interval loop_count w = (Ret k, w') /\
       match k with
       | NextCycle _ => calm w'
       | Break => phase_of w' <> None
       end).
Proof.
  split; [|intros loop_count w Hc; apply cycle_phase; exact Hc].
  intros t0 file.
  destruct (configure_calm _ (calm_initial t0 file)) as [Hc Hf].
  change (phase_of (snd (main dev interval cycles (initial_world t0 file)))
          <> None /\
          fst (main dev interval cycles (initial_world t0 file)) <> OutOfFuel).
  unfold main, bind.
  destruct (configure dev interval (initial_world t0 file))
    as [[[code|]|e|] w1]; cbn [fst snd] in *.
  - unfold ret. cbn [fst snd].
    split; [|discriminate]. destruct Hc as (p & -> & _). discriminate.
  - unfold print at 1 2.
    set (w2 := add_console (Say "Starting Integration Loop.") w1).
    assert (Hc2 : calm w2) by (apply (calm_same w1); [reflexivity|exact Hc]).
    destruct (measurement_phase cycles w2 Hc2) as [Hp Hne].
    destruct (measurement dev interval cycles w2) as [[a|e|] w3];
      cbn [fst snd] in *; try congruence;
      (destruct (cleanup_phase w3 Hp) as [Hp' Hne'];
       destruct (cleanup dev w3) as [[a'|e'|] w4]; cbn [fst snd] in *;
       try congruence; (split; [exact Hp'|discriminate])).
  - split; [|discriminate]. destruct Hc as (p & -> & _). discriminate.
  - congruence.
Qed.

(** The traffic of a whole run: the configuration, the turns of the main
    loop, the stop command of the clean-up. *)
Lemma main_traffic cycles w :
  exists cfg turns fin,
    traffic (snd (main dev interval cycles w))
    = traffic w ++ cfg ++ List.concat turns ++ fin /\
    forallb outside_cycle cfg = true /\
    Forall turn_traffic turns /\
    (List.length turns <= cycles)%nat /\
    (fin = [] \/ exists ok, fin = [Wrote cmd_stop ok]).
Proof.
  destruct (emits_configure dev interval w) as (cfg & Tc & Pc).
  assert (Hstop : forall w1,
             traffic w1 = traffic w ++ cfg ->
             exists cfg turns fin,
               traffic w1 = traffic w ++ cfg ++ List.concat turns ++ fin /\
               forallb outside_cycle cfg = true /\
               Forall turn_traffic turns /\
               (List.length turns <= cycles)%nat /\
               (fin = [] \/ exists ok, fin = [Wrote cmd_stop ok])).
  { intros w1 T. exists cfg, [], []. cbn [List.concat app List.length].
    rewrite app_nil_r. split; [exact T|]. split; [exact Pc|].
    split; [constructor|]. split; [lia|]. left. reflexivity. }
  unfold main. unfold bind at 1.
  destruct (configure dev interval w) as [[[code|]|e|] w1];
    cbn [fst snd] in Tc; [apply Hstop; exact Tc | | apply Hstop; exact Tc
                          | apply Hstop; exact Tc].
  unfold bind at 1. unfold print at 1.
  set (w2 := add_console (Say "Starting Integration Loop.") w1).
  destruct (measurement_traffic dev interval cycles w2)
    as (turns & Tm & Fm & Lm).
  change (traffic w2) with (traffic w1) in Tm.
  destruct (measurement dev interval cycles w2) as [[a|e|] w3];
    cbn [fst snd] in Tm.
  - destruct (cleanup_serial w3) as (o & w4 & fin & Ec & _ & Tf & Hf).
    exists cfg, turns, fin. rewrite Ec.
    assert (Tall : traffic w4
                   = traffic w ++ cfg ++ List.concat turns ++ fin)
      by (rewrite Tf, Tm, Tc, <- !app_assoc; reflexivity).
    destruct o; cbn [fst snd]; repeat split; auto.
  - destruct (cleanup_serial w3) as (o & w4 & fin & Ec & _ & Tf & Hf).
    exists cfg, turns, fin. rewrite Ec.
    assert (Tall : traffic w4
                   = traffic w ++ cfg ++ List.concat turns ++ fin)
      by (rewrite Tf, Tm, Tc, <- !app_assoc; reflexivity).
    destruct o; cbn [fst snd]; repeat split; auto.
  - exists cfg, turns, []. cbn [fst snd].
    rewrite app_nil_r, Tm, Tc, <- app_assoc. repeat split; auto.
Qed.

(** C9: in every turn of the main loop the serial traffic is, in this
    order, the reset; when it went out, the start; when that went out, the
    polling, made of state queries only (each with its read when it went
    out) and ended by the first read that shows the integration over, or by
    the watchdog; and, after a read that showed completion, the fetch.  The
    traffic of the main loop is these turns one after the other, and that
    of a whole run is the configuration, which sends no reset and no start,
    then the turns, then the stop command of the clean-up.  So every start
    follows its reset directly, and after a start no reset and no start is
    sent until a read has shown the integration over: the monitor of this
    discipline accepts the traffic of every run, and a turn that begins
    with nothing in flight either ends with nothing in flight or ends the
    loop. *)
Theorem one_integration_in_flight cycles :
  (forall t0 file,
     monitor Idle
       (traffic (snd (main dev interval cycles (initial_world t0 file))))
     <> None /\
     fst (main dev interval cycles (initial_world t0 file)) <> OutOfFuel) /\
  (forall loop_count w,
     calm w ->
     exists k w',
       cycle dev interval loop_count w = (Ret k, w') /\
       match k with
       | NextCycle _ => calm w'
       | Break => phase_of w' <> None
       end) /\
  (forall loop_count w,
     exists k w' evs,
       cycle dev interval loop_count w = (Ret k, w') /\
       traffic w' = traffic w ++ evs /\
       turn_traffic evs) /\
  (forall loop_count w,
     exists turns,
       traffic (snd (measurement_loop dev interval cycles loop_count w))
       = traffic w ++ List.concat turns /\
       Forall turn_traffic turns /\
       (List.length turns <= cycles)%nat) /\
  (forall w,
     exists cfg turns fin,
       traffic (snd (main dev interval cycles w))
       = traffic w ++ cfg ++ List.concat turns ++ fin /\
       forallb outside_cycle cfg = true /\
       Forall turn_traffic turns /\
       (List.length turns <= cycles)%nat /\
       (fin = [] \/ exists ok, fin = [Wrote cmd_stop ok])).
Proof.
  destruct (run_monitored cycles) as [H1 H2].
  split; [exact H1|]. split; [exact H2|].
  split; [intros loop_count w; apply cycle_traffic|].
  split; [intros loop_count w; apply measurement_loop_traffic|].
  intros w. apply main_traffic.
Qed.

End WholeRun.

Lemma one_integration_in_flight_witness :
  exists k w',
    cycle Bench.completes 10 1 Bench.w0 = (Ret k, w') /\
    match k with
    | NextCycle _ => calm w'
    | Break => phase_of w' <> None
    end.
Proof.
  apply (proj1 (proj2 (one_integration_in_flight Bench.completes 10 0))
               1%nat Bench.w0).
  exists Idle. split; [reflexivity | discriminate].
Defined.

(** ** The configuration fails fast *)

Section Configuration.

Variable dev : device.
Variable interval : Z.

Lemma wp_cfg_print k m (Q : outcome unit -> world -> Prop) w :
  at_config k w ->
  (forall w', at_config k w' -> Q (Ret tt) w') ->
  wp (print m) Q w.
Proof. intros H HQ. apply wp_print. apply HQ. exact H. Qed.

Lemma wp_cfg_sleep k ms (Q : outcome unit -> world -> Prop) w :
  at_config k w ->
  (forall w', at_config k w' -> Q (Ret tt) w') ->
  wp (sleep ms) Q w.
Proof. intros H HQ. apply wp_sleep. apply HQ. exact H. Qed.

Lemma wp_cfg_must k cmd text (Q : outcome unit -> world -> Prop) w :
  at_config k w ->
  (forall w', at_config (S k) w' ->
              write_ok (fst (dev_write dev k)) = true -> Q (Ret tt) w') ->
  (forall w' pre,
     at_config (S k) w' -> traffic w' = pre ++ [Wrote cmd false] ->
     write_ok (fst (dev_write dev k)) = false ->
     Q (Raise (polling_abort text)) w') ->
  wp (must_write dev cmd text) Q w.
Proof.
  intros [Hk Ho] Hok Hfail. apply wp_must_write;
    intros w' (E & Ht & _ & Hn & _ & Hs & _); rewrite Hk in E, Hn.
  - apply Hok; [split; congruence | congruence].
  - eapply Hfail; [split; congruence | exact Ht | congruence].
Qed.

Lemma wp_cfg_confirm k q l (Q : outcome unit -> world -> Prop) w :
  at_config k w ->
  (forall w', at_config (S k) w' -> Q (Ret tt) w') ->
  wp (confirm dev q l) Q w.
Proof.
  intros [Hk Ho] HQ. unfold confirm. apply wp_bind.
  apply wp_safe_serial_write. intros ok w1 (_ & _ & _ & Hn & _ & Hs & _).
  assert (H1 : at_config (S k) w1) by (split; congruence).
  destruct ok.
  - apply wp_bind. apply wp_safe_serial_read.
    intros r w2 (_ & _ & _ & Hn2 & _ & Hs2 & _).
    apply wp_print. apply HQ. destruct H1. split; cbn; congruence.
  - apply wp_ret. apply HQ. exact H1.
Qed.

(** The set commands sent before the one at position [i] all went out. *)
Ltac earlier_ok :=
  let j := fresh "j" in
  let c := fresh "c" in
  let Hin := fresh "Hin" in
  let Hlt := fresh "Hlt" in
  intros j c Hin Hlt; unfold set_commands in Hin; cbn [In] in Hin;
  repeat (destruct Hin as [Hin|Hin];
          [injection Hin as <- <-; first [assumption | lia]|]);
  contradiction.

(** Every set command went out. *)
Ltac earlier_ok' :=
  let j := fresh "j" in
  let c := fresh "c" in
  let Hin := fresh "Hin" in
  intros j c Hin; unfold set_commands in Hin; cbn [In] in Hin;
  repeat (destruct Hin as [Hin|Hin]; [injection Hin as <- <-; assumption|]);
  contradiction.

Ltac cfg_fail :=
  lazymatch goal with
  | Hat : at_config (S ?k) ?w',
    Ht : traffic ?w' = ?pre ++ [Wrote ?cmd false],
    Hf : write_ok (fst (dev_write dev ?k)) = false
    |- config_post _ _ (Raise _) ?w' =>
    split; [reflexivity|]; split; [apply Hat|]; right;
    exists k, cmd, pre;
    split; [unfold set_commands; cbn [In]; tauto|];
    split; [apply Hat|];
    split; [exact Ht|];
    split; [exact Hf | earlier_ok]
  end.

Ltac cfg_step :=
  cbv beta iota;
  lazymatch goal with
  | |- wp (bind _ _) _ _ => apply wp_bind
  | |- wp (print _) _ _ =>
    eapply wp_cfg_print; [eassumption | clear_at; intros ? ?]
  | |- wp (sleep _) _ _ =>
    eapply wp_cfg_sleep; [eassumption | clear_at; intros ? ?]
  | |- wp (must_write _ _ _) _ _ =>
    eapply wp_cfg_must;
    [eassumption | clear_at; intros ? ? ? | clear_at; intros ? ? ? ? ?; cfg_fail]
  | |- wp (confirm _ _ _) _ _ =>
    eapply wp_cfg_confirm; [eassumption | clear_at; intros ? ?]
  end
with clear_at :=
  repeat match goal with
         | H : at_config _ _ |- _ => clear H
         end.

Lemma configure_body_cases w :
  n_writes w = 0%nat -> n_reads w = 0%nat -> dev_opens dev = true ->
  wp (configure_body dev interval) (config_post dev interval) w.
Proof.
  intros Hw Hr Hopen. unfold configure_body.
  apply wp_bind, wp_print. apply wp_bind.
  unfold serial_open at 1. unfold wp at 1. rewrite Hopen. cbn [fst snd].
  assert (Hat : at_config 0
                  (set_ser_open true
                     (add_console (Say "Attempting to connect...") w)))
    by (split; [exact Hw | reflexivity]).
  assert (Hr0 : n_reads (set_ser_open true
                     (add_console (Say "Attempting to connect...") w)) = 0%nat)
    by exact Hr.
  revert Hat Hr0.
  generalize (set_ser_open true (add_console (Say "Attempting to connect...") w)).
  clear w Hw Hr. intros w Hat Hr.
  apply wp_bind, wp_print. apply wp_bind, wp_sleep. apply wp_bind.
  (* the identification *)
  apply wp_must_write.
  - intros w1 (E1 & _ & _ & Hn1 & Hr1 & Hs1 & _).
    destruct Hat as [Hk Ho]. cbn in E1, Hn1, Hr1, Hs1.
    rewrite Hk in E1, Hn1. rewrite Hr in Hr1.
    apply wp_bind. apply wp_safe_serial_read.
    intros r w2 (E2 & _ & _ & Hn2 & _ & Hs2 & _). rewrite Hr1 in E2.
    assert (Hat2 : at_config 1 w2) by (split; congruence).
    clear Hn2 Hs2 Hn1 Hs1 Hr1 Hk Ho Hr.
    apply wp_bind.
    destruct (read_result r) as [[|c r0]|] eqn:Hres.
    + apply wp_bind, wp_print. apply wp_raise.
      split; [reflexivity|]. split; [apply Hat2|]. left. right.
      intros c r0. rewrite <- E2, Hres. discriminate.
    + apply wp_bind, wp_print.
      assert (Hat3 : at_config 1
                       (add_console (SayStr "Instrument ID" (c :: r0)) w2))
        by exact Hat2.
      revert Hat3. generalize (add_console (SayStr "Instrument ID" (c :: r0)) w2).
      clear Hat2 w2. intros w2 Hat2.
      assert (Hat3 : forall m, at_config 1 (add_console m w2))
        by (intros m; exact Hat2).
      destruct (negb _ && negb _).
      * apply wp_print.
        specialize (Hat3 (Say "Warning: Instrument ID doesn't obviously mention Teledyne/LeCroy. Ensure compatibility.")).
        clear Hat2. repeat cfg_step. earlier_ok'.
      * apply wp_ret. clear Hat3. repeat cfg_step. earlier_ok'.
    + apply wp_bind, wp_print. apply wp_raise.
      split; [reflexivity|]. split; [apply Hat2|]. left. right.
      intros c r0. rewrite <- E2, Hres. discriminate.
  - intros w1 (E1 & _ & _ & Hn1 & _ & Hs1 & _).
    destruct Hat as [Hk Ho]. cbn in E1, Hs1. rewrite Hk in E1.
    split; [reflexivity|]. split; [congruence|]. left. left. congruence.
Qed.

End Configuration.

Lemma set_commands_functional interval i c1 c2 :
  In (i, c1) (set_commands interval) -> In (i, c2) (set_commands interval) ->
  c1 = c2.
Proof.
  unfold set_commands. cbn [In]. intros H1 H2.
  repeat destruct H1 as [H1|H1]; try contradiction;
    repeat destruct H2 as [H2|H2]; try contradiction; congruence.
Qed.

Lemma keeps_csv_configure_body dev interval :
  keeps_csv (configure_body dev interval).
Proof. unfold configure_body. keeps. Qed.

(** What [configure] and [main] make of a configuration body that raised
    an [Exception]: the port is closed and the script leaves with
    status 1. *)
Lemma main_of_failed_config dev interval cycles w e w1 :
  configure_body dev interval w = (Raise e, w1) ->
  exn_class_of e = Exception -> ser_open w1 = true ->
  exists w',
    main dev interval cycles w = (Ret 1, w') /\
    traffic w' = traffic w1 /\ n_writes w' = n_writes w1 /\
    csv w' = csv w1 /\ ser_open w' = false.
Proof.
  intros E Hc Ho. unfold main. unfold bind at 1.
  unfold configure, try_except. unfold bind at 1. rewrite E.
  unfold caught_by. rewrite Hc. cbn [isinstance].
  unfold bind at 1. unfold print at 1. unfold bind at 1.
  unfold close_if_open. cbn [ser_open add_console]. rewrite Ho.
  cbn. eexists. repeat split.
Qed.

(** C8: once the instrument is identified, the first set command whose
    write fails ends the configuration there (it is the last thing
    written) and the script leaves with status 1, the port closed, nothing
    added to the file and no cycle begun, however many cycles were to run;
    and when every set command is sent the configuration succeeds whatever
    becomes of the read-back queries and their answers. *)
Theorem fail_fast_configuration dev interval cycles t0 file :
  (forall i cmd,
     In (i, cmd) (set_commands interval) ->
     identifies dev ->
     (forall j c, In (j, c) (set_commands interval) -> (j < i)%nat ->
                  write_ok (fst (dev_write dev j)) = true) ->
     write_ok (fst (dev_write dev i)) = false ->
     exists w' pre,
       main dev interval cycles (initial_world t0 file) = (Ret 1, w') /\
       traffic w' = pre ++ [Wrote cmd false] /\
       n_writes w' = S i /\
       csv w' = file /\
       ser_open w' = false) /\
  (identifies dev ->
   (forall j c, In (j, c) (set_commands interval) ->
                write_ok (fst (dev_write dev j)) = true) ->
   fst (configure dev interval (initial_world t0 file)) = Ret None).
Proof.
  split.
  - intros i cmd Hin (Hopen & Hw0 & c0 & r0 & Hidn) Hfirst Hfail.
    pose proof (configure_body_cases dev interval (initial_world t0 file)
                  eq_refl eq_refl Hopen) as H.
    unfold wp in H.
    pose proof (keeps_csv_configure_body dev interval (initial_world t0 file))
      as Hcsv.
    destruct (configure_body dev interval (initial_world t0 file))
      as [[[]|e|] w1] eqn:E; cbn [fst snd config_post] in H, Hcsv.
    + rewrite (H i cmd Hin) in Hfail. discriminate.
    + destruct H as (Hc & Ho & [[H0 | H0] | (i' & cmd' & pre & Hin' & Hn & Ht & Hf & Hfirst')]).
      * congruence.
      * exfalso. apply (H0 c0 r0). exact Hidn.
      * assert (i' = i).
        { destruct (Nat.lt_trichotomy i' i) as [Hlt | [Heq | Hgt]].
          - rewrite (Hfirst i' cmd' Hin' Hlt) in Hf. discriminate.
          - exact Heq.
          - rewrite (Hfirst' i cmd Hin Hgt) in Hfail. discriminate. }
        subst i'.
        assert (cmd' = cmd) by (eapply set_commands_functional; eauto).
        subst cmd'.
        destruct (main_of_failed_config dev interval cycles _ e w1 E Hc Ho)
          as (w' & Em & Ht' & Hn' & Hc' & Ho').
        exists w', pre. repeat split; try congruence.
        rewrite Hc', Hcsv. reflexivity.
    + contradiction.
  - intros (Hopen & Hw0 & c0 & r0 & Hidn) Hall.
    pose proof (configure_body_cases dev interval (initial_world t0 file)
                  eq_refl eq_refl Hopen) as H.
    unfold wp in H. unfold configure, try_except, bind.
    destruct (configure_body dev interval (initial_world t0 file))
      as [[[]|e|] w1]; cbn [fst snd config_post] in H.
    + reflexivity.
    + exfalso.
      destruct H as (_ & _ & [[H0 | H0] | (i' & cmd' & pre & Hin' & _ & _ & Hf & _)]).
      * congruence.
      * apply (H0 c0 r0). exact Hidn.
      * rewrite (Hall i' cmd' Hin') in Hf. discriminate.
    + contradiction.
Qed.

Lemma fail_fast_configuration_witness :
  (exists w' pre,
     main Bench.item1_fails 10 3 (initial_world Bench.t0 []) = (Ret 1, w') /\
     traffic w' = pre ++ [Wrote (line ":NUMeric:NORMal:ITEM1 UPPeak") false] /\
     n_writes w' = 8%nat /\ csv w' = [] /\ ser_open w' = false) /\
  fst (configure Bench.no_readback 10 (initial_world Bench.t0 [])) = Ret None.
Proof.
  split.
  - apply (proj1 (fail_fast_configuration Bench.item1_fails 10 3 Bench.t0 [])
             7%nat (line ":NUMeric:NORMal:ITEM1 UPPeak")).
    + unfold set_commands. cbn [In]. tauto.
    + split; [reflexivity|]. split; [reflexivity|].
      eexists. eexists. vm_compute. reflexivity.
    + intros j c Hin Hlt. unfold set_commands in Hin. cbn [In] in Hin.
      repeat (destruct Hin as [Hin|Hin];
              [injection Hin as <- <-; first [reflexivity | lia]|]).
      contradiction.
    + reflexivity.
  - apply (proj2 (fail_fast_configuration Bench.no_readback 10 3 Bench.t0 [])).
    + split; [reflexivity|]. split; [reflexivity|].
      eexists. eexists. vm_compute. reflexivity.
    + intros j c Hin. unfold set_commands in Hin. cbn [In] in Hin.
      repeat (destruct Hin as [Hin|Hin];
              [injection Hin as <- <-; reflexivity|]).
      contradiction.
Defined.

(* ================================================================== *)
(** * Further properties of the two scripts *)
(* ================================================================== *)

(** ** [seconds_to_hms] on every integer *)

(** X1: for every integer number of seconds the minutes and the seconds
    of [seconds_to_hms] lie in 0..59 and the hours are at most 9999; the
    triple adds up to the input exactly when the input is at most
    9999 h 59 min 59 s, and above that the hours are 9999 and the triple
    falls short of the input. *)
Theorem seconds_to_hms_range (s h m sec : Z) :
  seconds_to_hms s = (h, m, sec) ->
  h <= 9999 /\ 0 <= m < 60 /\ 0 <= sec < 60 /\
  (h * 3600 + m * 60 + sec = s <-> s <= max_encodable_seconds) /\
  (s <= max_encodable_seconds \/
   h = 9999 /\ h * 3600 + m * 60 + sec < s).
Proof.
  unfold seconds_to_hms, max_encodable_seconds. intros E.
  injection E as <- <- <-. Z.div_mod_to_equations. lia.
Qed.

Lemma seconds_to_hms_range_witness :
  9999 <= 9999 /\ 0 <= 6 < 60 /\ 0 <= 40 < 60 /\
  (9999 * 3600 + 6 * 60 + 40 = 40000000
   <-> 40000000 <= max_encodable_seconds) /\
  (40000000 <= max_encodable_seconds \/
   9999 = 9999 /\ 9999 * 3600 + 6 * 60 + 40 < 40000000).
Proof. exact (seconds_to_hms_range 40000000 9999 6 40 eq_refl). Defined.

(** ** [safe_serial_write] *)

(** X2: [safe_serial_write] makes exactly one write and never raises: it
    returns [True] exactly when the write returned, pauses 100 ms after a
    good write and not at all after a bad one, prints one message for a bad
    write and nothing for a good one, and leaves the CSV file and the port
    alone. *)
Theorem safe_serial_write_total dev cmd w :
  exists ok w',
    safe_serial_write dev cmd w = (Ret ok, w') /\
    ok = write_ok (fst (dev_write dev (n_writes w))) /\
    traffic w' = traffic w ++ [Wrote cmd ok] /\
    now w' = now w + Z.of_N (snd (dev_write dev (n_writes w)))
             + (if ok then 100 else 0) /\
    (if ok then console w' = console w
     else exists m, console w' = console w ++ [m]) /\
    csv w' = csv w /\ ser_open w' = ser_open w.
Proof.
  destruct (dev_write dev (n_writes w)) as [o ms] eqn:E.
  destruct (write_ok o) eqn:Ho.
  - destruct o; try discriminate.
    rewrite (safe_serial_write_ok dev cmd w ms E).
    do 2 eexists. split; [reflexivity|]. cbn. repeat split; lia.
  - destruct (safe_serial_write_failed dev cmd w o ms E Ho) as [m ->].
    do 2 eexists. split; [reflexivity|]. cbn. rewrite Ho.
    repeat split; try lia. exists m. reflexivity.
Qed.

(** ** The text [safe_serial_read] returns *)

Lemma lstrip_head s :
  match Py.lstrip s with
  | c :: _ => Py.isspace c = false
  | [] => True
  end.
Proof.
  induction s as [|c r IH]; cbn [Py.lstrip]; [exact I|].
  destruct (Py.isspace c) eqn:E; [exact IH | exact E].
Qed.

Lemma lstrip_clean s :
  match s with c :: _ => Py.isspace c = false | [] => True end ->
  Py.lstrip s = s.
Proof.
  destruct s as [|c r]; [reflexivity|]. cbn [Py.lstrip]. intros ->. reflexivity.
Qed.

Lemma lstrip_idem s : Py.lstrip (Py.lstrip s) = Py.lstrip s.
Proof. apply lstrip_clean, lstrip_head. Qed.

Lemma lstrip_suffix s : exists pre, s = pre ++ Py.lstrip s.
Proof.
  induction s as [|c r [pre IH]]; [exists []; reflexivity|].
  cbn [Py.lstrip]. destruct (Py.isspace c).
  - exists (c :: pre). cbn. congruence.
  - exists []. reflexivity.
Qed.

Lemma rstrip_prefix s : exists suf, s = Py.rstrip s ++ suf.
Proof.
  unfold Py.rstrip. destruct (lstrip_suffix (rev s)) as [pre E].
  exists (rev pre). rewrite <- rev_app_distr, <- E, rev_involutive.
  reflexivity.
Qed.

Lemma rstrip_idem s : Py.rstrip (Py.rstrip s) = Py.rstrip s.
Proof. unfold Py.rstrip. rewrite rev_involutive, lstrip_idem. reflexivity. Qed.

Lemma strip_head s :
  match Py.strip s with
  | c :: _ => Py.isspace c = false
  | [] => True
  end.
Proof.
  unfold Py.strip. pose proof (lstrip_head s) as H.
  destruct (rstrip_prefix (Py.lstrip s)) as [suf E].
  destruct (Py.rstrip (Py.lstrip s)) as [|c u]; [exact I|].
  rewrite E in H. exact H.
Qed.

Lemma strip_last s c u d :
  Py.strip s = c :: u -> Py.isspace (last (c :: u) d) = false.
Proof.
  unfold Py.strip, Py.rstrip. intros E.
  pose proof (lstrip_head (rev (Py.lstrip s))) as H.
  destruct (Py.lstrip (rev (Py.lstrip s))) as [|x r] eqn:L.
  - discriminate.
  - rewrite <- E. cbn [rev]. rewrite last_last. exact H.
Qed.

Lemma strip_idem s : Py.strip (Py.strip s) = Py.strip s.
Proof.
  unfold Py.strip at 1. rewrite (lstrip_clean _ (strip_head s)).
  unfold Py.strip. apply rstrip_idem.
Qed.

Lemma strip_stripped s : stripped (Py.strip s).
Proof.
  unfold stripped. pose proof (strip_head s) as H.
  destruct (Py.strip s) as [|c u] eqn:E; [exact I|].
  split; [exact H | exact (strip_last s c u c E)].
Qed.

Lemma utf8_decode_ascii l :
  Forall (fun n => (n < 128)%N) l -> Py.utf8_decode l = Some l.
Proof.
  induction 1 as [|n l Hn _ IH]; [reflexivity|].
  cbn [Py.utf8_decode]. apply N.ltb_lt in Hn. rewrite Hn, IH. reflexivity.
Qed.

(** X3: the text [safe_serial_read] returns has no white space at either
    end (stripping it again changes nothing); and a line of ASCII bytes
    that is not empty always comes back as its stripped text, never as
    [None]. *)
Theorem safe_serial_read_text dev w :
  (forall s, fst (safe_serial_read dev w) = Ret (Some s) ->
             stripped s /\ Py.strip s = s) /\
  (forall b ms,
     dev_read dev (n_reads w) = (ReadLine b, ms) -> b <> [] ->
     Forall (fun x => (Byte.to_N x < 128)%N) b ->
     fst (safe_serial_read dev w) = Ret (Some (Py.strip (map Byte.to_N b)))).
Proof.
  split.
  - intros s E.
    destruct (dev_read dev (n_reads w)) as [o ms] eqn:R.
    destruct o as [b| |].
    + rewrite (safe_serial_read_line dev b w ms R) in E.
      destruct b as [|b0 bs]; [discriminate|].
      destruct (Py.decode (b0 :: bs)) as [t|]; [|discriminate].
      cbn in E. injection E as <-.
      split; [apply strip_stripped | apply strip_idem].
    + destruct (safe_serial_read_raised dev _ w ms R eq_refl) as [m Hm].
      rewrite Hm in E. discriminate.
    + destruct (safe_serial_read_raised dev _ w ms R eq_refl) as [m Hm].
      rewrite Hm in E. discriminate.
  - intros b ms R Hb Hascii.
    rewrite (safe_serial_read_line dev b w ms R).
    destruct b as [|b0 bs]; [congruence|].
    unfold Py.decode. rewrite utf8_decode_ascii; [reflexivity|].
    apply Forall_map. exact Hascii.
Qed.

Lemma safe_serial_read_text_witness :
  (stripped (Py.lit "RUNNING") /\ Py.strip (Py.lit "RUNNING") = Py.lit "RUNNING") /\
  fst (safe_serial_read Bench.always_running
         (set_now 5 (did_read None 0 (did_read None 0 (did_read None 0
            (did_read None 0 (did_read None 0 Bench.w0)))))))
  = Ret (Some (Py.strip (map Byte.to_N (wire (line "RUNNING"))))).
Proof.
  set (w := set_now 5 (did_read None 0 (did_read None 0 (did_read None 0
            (did_read None 0 (did_read None 0 Bench.w0)))))).
  split.
  - apply (proj1 (safe_serial_read_text Bench.always_running w)).
    vm_compute. reflexivity.
  - apply (proj2 (safe_serial_read_text Bench.always_running w)
             (wire (line "RUNNING")) 10%N).
    + vm_compute. reflexivity.
    + discriminate.
    + vm_compute. repeat constructor.
Defined.

(** ** The states of the integrator *)

Lemma starts_with_app p q s :
  Py.starts_with (p ++ q) s = true -> Py.starts_with p s = true.
Proof.
  revert s. induction p as [|a p IH]; intros s; [reflexivity|].
  destruct s as [|b s]; cbn [Py.starts_with app]; [auto|].
  intros H. apply andb_true_iff in H. destruct H as [H1 H2].
  rewrite H1. cbn. apply IH. exact H2.
Qed.

Lemma contains_app p q s :
  Py.contains (p ++ q) s = true -> Py.contains p s = true.
Proof.
  induction s as [|c s IH]; cbn [Py.contains]; intros H;
    apply orb_true_iff in H; apply orb_true_iff; destruct H as [H|H].
  - left. eapply starts_with_app; eauto.
  - discriminate.
  - left. eapply starts_with_app; eauto.
  - right. auto.
Qed.

Lemma contains_longer p q s :
  Py.contains p s = false -> Py.contains (p ++ q) s = false.
Proof.
  intros H. destruct (Py.contains (p ++ q) s) eqn:E; [|reflexivity].
  apply contains_app in E. congruence.
Qed.

Lemma classify_by_words (state_response : Py.str) :
  classify state_response =
  let u := Py.upper state_response in
  if Py.contains (Py.lit "TIM") u then Complete
  else if Py.contains (Py.lit "RUN") u then Running
  else if Py.contains (Py.lit "STOP") u || Py.contains (Py.lit "RESET") u
  then StoppedUnexpectedly
  else if Py.contains (Py.lit "OVERFLOW") u then Overflow
  else Unrecognized.
Proof.
  unfold classify. cbv zeta.
  destruct (Py.contains (Py.lit "TIM") (Py.upper state_response)) eqn:T;
    [reflexivity|].
  change (Py.lit "TIMEUP") with (Py.lit "TIM" ++ Py.lit "EUP").
  rewrite (contains_longer _ _ _ T). cbn [orb].
  destruct (Py.contains (Py.lit "RUN") (Py.upper state_response)) eqn:R;
    [reflexivity|].
  change (Py.lit "RUNNING") with (Py.lit "RUN" ++ Py.lit "NING").
  rewrite (contains_longer _ _ _ R). reflexivity.
Qed.

(** X4: a turn of the polling loop whose state query went out and got a
    text back is decided by five words, looked for in the upper-cased
    answer in this order.  With TIM the loop returns (the integration is
    complete), whatever else the answer carries; else with RUN it goes
    round after 400 ms; else with STOP or RESET it raises "stopped
    unexpectedly"; else with OVERFLOW it raises "overflow"; else it goes
    round after 500 ms.  The tests for TIMEUP and RUNNING add nothing to
    those for TIM and RUN. *)
Theorem state_words_decide_turn dev interval fuel start last w s :
  timed_out interval start (now w) = false ->
  write_ok (fst (dev_write dev (n_writes w))) = true ->
  read_result (read_bytes (fst (dev_read dev (n_reads w)))) = Some s ->
  let u := Py.upper s in
  let evs := [Wrote cmd_state true;
              ReadBack (read_bytes (fst (dev_read dev (n_reads w))))] in
  let dt := Z.of_N (snd (dev_write dev (n_writes w))) + 100
            + Z.of_N (snd (dev_read dev (n_reads w))) in
  let run := poll_loop dev interval (S fuel) start last w in
  if Py.contains (Py.lit "TIM") u then
    exists w1, advanced w w1 evs dt 1 1 /\ run = (Ret tt, w1)
  else if Py.contains (Py.lit "RUN") u then
    exists last' w1,
      advanced w w1 evs (dt + 400) 1 1 /\
      run = poll_loop dev interval fuel start last' w1
  else if Py.contains (Py.lit "STOP") u || Py.contains (Py.lit "RESET") u then
    exists w1,
      advanced w w1 evs dt 1 1 /\
      run = (Raise (polling_abort "Integration stopped unexpectedly"), w1)
  else if Py.contains (Py.lit "OVERFLOW") u then
    exists w1,
      advanced w w1 evs dt 1 1 /\
      run = (Raise (polling_abort "Integration overflow"), w1)
  else
    exists last' w1,
      advanced w w1 evs (dt + 500) 1 1 /\
      run = poll_loop dev interval fuel start last' w1.
Proof.
  intros Ht Hw Hr. cbv zeta.
  pose proof (poll_turn dev interval fuel start last w Ht) as T.
  cbv zeta in T. rewrite Hw, Hr in T.
  pose proof (classify_by_words s) as C. cbv zeta in C.
  destruct (Py.contains (Py.lit "TIM") (Py.upper s));
    [rewrite C in T; exact T|].
  destruct (Py.contains (Py.lit "RUN") (Py.upper s));
    [rewrite C in T; exact T|].
  destruct (Py.contains (Py.lit "STOP") (Py.upper s)
            || Py.contains (Py.lit "RESET") (Py.upper s));
    [rewrite C in T; exact T|].
  destruct (Py.contains (Py.lit "OVERFLOW") (Py.upper s));
    rewrite C in T; exact T.
Qed.

Lemma state_words_decide_turn_witness :
  exists w1,
    advanced Bench.w0 w1
      [Wrote cmd_state true;
       ReadBack (read_bytes (fst (dev_read (answering "Stop, TimeUp") 0)))]
      (0 + 100 + 10) 1 1 /\
    poll_loop (answering "Stop, TimeUp") 10 1 (now Bench.w0) 0 Bench.w0
    = (Ret tt, w1).
Proof.
  exact (state_words_decide_turn (answering "Stop, TimeUp") 10 0
           (now Bench.w0) 0 Bench.w0 (Py.lit "Stop, TimeUp")
           eq_refl eq_refl eq_refl).
Defined.

(** ** The fields of a response *)

Lemma split_length s :
  List.length (Py.split Py.comma s) = S (commas s).
Proof.
  unfold commas. induction s as [|c r IH]; [reflexivity|].
  cbn [Py.split filter]. destruct (c =? Py.comma)%N.
  - cbn [List.length]. rewrite IH. reflexivity.
  - destruct (Py.split Py.comma r) as [|f fs]; [discriminate|].
    cbn [List.length] in *. exact IH.
Qed.

Lemma split_join s : join (Py.split Py.comma s) = s.
Proof.
  induction s as [|c r IH]; [reflexivity|].
  cbn [Py.split]. destruct (c =? Py.comma)%N eqn:E.
  - apply N.eqb_eq in E. subst c.
    pose proof (split_length r) as L.
    destruct (Py.split Py.comma r) as [|f fs]; [discriminate|].
    change (join ([] :: f :: fs)) with ([] ++ Py.comma :: join (f :: fs)).
    rewrite IH. reflexivity.
  - pose proof (split_length r) as L.
    destruct (Py.split Py.comma r) as [|f fs]; [discriminate|].
    rewrite <- IH. destruct fs as [|g gs]; reflexivity.
Qed.

Lemma split_no_comma s :
  Forall (fun f => commas f = 0%nat) (Py.split Py.comma s).
Proof.
  induction s as [|c r IH]; [repeat constructor|].
  cbn [Py.split]. destruct (c =? Py.comma)%N eqn:E.
  - constructor; [reflexivity | exact IH].
  - destruct (Py.split Py.comma r) as [|f fs].
    + repeat constructor. unfold commas. cbn [filter]. rewrite E. reflexivity.
    + inversion IH as [|? ? Hf Hfs]. subst. constructor; [|exact Hfs].
      unfold commas in *. cbn [filter]. rewrite E. exact Hf.
Qed.

(** X5: the fields the two scripts decode: [response.split(',')] gives one
    field more than the response has commas (so never an empty list), no
    field holds a comma, and joining the fields with commas gives the
    response back; the integration script therefore finds its four fields
    exactly when the response has three commas or more, the averaging
    script its three fields exactly with two commas or more. *)
Theorem split_fields (response : Py.str) :
  let values := Py.split Py.comma response in
  List.length values = S (commas response) /\
  Forall (fun f => commas f = 0%nat) values /\
  join values = response /\
  (4 <=? List.length values)%nat = (3 <=? commas response)%nat /\
  (3 <=? List.length values)%nat = (2 <=? commas response)%nat.
Proof.
  cbv zeta. rewrite split_length.
  repeat split; first [apply split_no_comma | apply split_join].
Qed.

(** ** Blank fields *)

Lemma skip_space_blank v :
  forallb PyFloat.is_c_space v = true -> PyFloat.skip_space v = [].
Proof.
  induction v as [|c r IH]; [reflexivity|].
  cbn [forallb PyFloat.skip_space]. intros H.
  apply andb_true_iff in H. destruct H as [-> H]. auto.
Qed.

Lemma to_ascii_blank v :
  forallb PyFloat.is_c_space v = true -> PyFloat.to_ascii v = v.
Proof.
  induction v as [|c r IH]; [reflexivity|].
  cbn [forallb PyFloat.to_ascii]. intros H.
  apply andb_true_iff in H. destruct H as [Hc H].
  replace ((c <? 127)%N) with true; [rewrite (IH H); reflexivity|].
  symmetry. apply N.ltb_lt.
  unfold PyFloat.is_c_space, Py.in_range in Hc.
  apply orb_true_iff in Hc. destruct Hc as [Hc|Hc].
  - apply andb_true_iff in Hc. destruct Hc as [_ Hc].
    apply N.leb_le in Hc. lia.
  - apply N.eqb_eq in Hc. lia.
Qed.

Lemma parse_blank v :
  forallb PyFloat.is_c_space v = true -> PyFloat.parse v = None.
Proof.
  intros H. unfold PyFloat.parse, PyFloat.parse_spec.
  rewrite (to_ascii_blank v H), (skip_space_blank v H). reflexivity.
Qed.

Lemma forallb_firstn_false {A} (ok : A -> bool) n : forall l i v,
  (i < n)%nat -> nth_error l i = Some v -> ok v = false ->
  forallb ok (firstn n l) = false.
Proof.
  induction n as [|n IH]; intros l i v Hi Hn Hv; [lia|].
  destruct l as [|x l]; [destruct i; discriminate|].
  cbn [firstn forallb]. destruct i as [|i].
  - injection Hn as ->. rewrite Hv. reflexivity.
  - cbn in Hn. rewrite (IH l i v); [apply andb_false_r|lia|exact Hn|exact Hv].
Qed.

(** X6: a field that is blank (white space only, not empty) among the
    fields a script converts makes the decoding fail: [float] refuses it
    and the guard for empty fields does not apply.  The integration script
    flags the cycle, the averaging script goes on; neither writes a row,
    and both report a parse error with the raw response. *)
Theorem blank_field_fails interval response w i v :
  let values := Py.split Py.comma response in
  nth_error values i = Some v -> v <> [] ->
  forallb PyFloat.is_c_space v = true ->
  ((i < 4)%nat -> (4 <= List.length values)%nat ->
   process_response interval response w =
   (Ret true,
    add_console (SayStr "Error parsing measurement response" response) w)) /\
  ((i < 3)%nat -> (3 <= List.length values)%nat ->
   avg_process_response response w =
   (Ret tt, add_console (SayStr "Error parsing response" response) w)).
Proof.
  cbv zeta. intros Hn Hv Hb. split; intros Hi Hl.
  - apply process_response_parse_error; [exact Hl|].
    unfold fields_ok. rewrite (forallb_firstn_false _ 4 _ i v Hi Hn).
    + apply andb_false_r.
    + unfold empty_or_float. destruct v; [congruence|].
      rewrite (parse_blank _ Hb). reflexivity.
  - apply avg_process_response_parse_error; [exact Hl|].
    unfold fields_ok. rewrite (forallb_firstn_false _ 3 _ i v Hi Hn).
    + apply andb_false_r.
    + unfold is_float. rewrite (parse_blank _ Hb). reflexivity.
Qed.

Lemma blank_field_fails_witness :
  process_response 10 (Py.lit "12.5, ,9.2,0.002778") Bench.w0 =
  (Ret true,
   add_console (SayStr "Error parsing measurement response"
                       (Py.lit "12.5, ,9.2,0.002778")) Bench.w0) /\
  avg_process_response (Py.lit "12.5, ,9.2,0.002778") Bench.w0 =
  (Ret tt,
   add_console (SayStr "Error parsing response"
                       (Py.lit "12.5, ,9.2,0.002778")) Bench.w0).
Proof.
  pose proof (blank_field_fails 10 (Py.lit "12.5, ,9.2,0.002778") Bench.w0
                1%nat (Py.lit " ")) as H.
  cbv zeta in H.
  destruct H as [H1 H2].
  - vm_compute. reflexivity.
  - discriminate.
  - vm_compute. reflexivity.
  - split; [apply H1 | apply H2]; vm_compute; lia.
Defined.

(** ** What a computation does to the port, and what it can raise *)

Lemma keeps_port_ret {A} (a : A) : keeps_port (ret a).
Proof. intros w. reflexivity. Qed.

Lemma keeps_port_raise {A} c text : keeps_port (@raise A c text).
Proof. intros w. reflexivity. Qed.

Lemma keeps_port_reraise {A} e : keeps_port (@reraise A e).
Proof. intros w. reflexivity. Qed.

Lemma keeps_port_print m : keeps_port (print m).
Proof. intros w. reflexivity. Qed.

Lemma keeps_port_sleep ms : keeps_port (sleep ms).
Proof. intros w. reflexivity. Qed.

Lemma keeps_port_time : keeps_port time.
Proof. intros w. reflexivity. Qed.

Lemma keeps_port_writerow r : keeps_port (writerow r).
Proof. intros w. reflexivity. Qed.

Lemma keeps_port_file_is_empty : keeps_port file_is_empty.
Proof. intros w. reflexivity. Qed.

Lemma keeps_port_out_of_fuel {A} : keeps_port (@out_of_fuel A).
Proof. intros w. reflexivity. Qed.

Lemma keeps_port_bind {A B} (m : M A) (k : A -> M B) :
  keeps_port m -> (forall a, keeps_port (k a)) -> keeps_port (bind m k).
Proof.
  intros Hm Hk w. unfold bind. specialize (Hm w).
  destruct (m w) as [[a|e|] w1]; cbn in *; [|assumption|assumption].
  rewrite (Hk a w1). assumption.
Qed.

Lemma keeps_port_try {A} (m : M A) (h : exn -> M A) :
  keeps_port m -> (forall e, keeps_port (h e)) -> keeps_port (try_except m h).
Proof.
  intros Hm Hh w. unfold try_except. specialize (Hm w).
  destruct (m w) as [[a|e|] w1]; cbn in *; [assumption| |assumption].
  rewrite (Hh e w1). assumption.
Qed.

Lemma keeps_port_ser_write dev cmd : keeps_port (ser_write dev cmd).
Proof.
  intros w. unfold ser_write.
  destruct (dev_write dev (n_writes w)) as [[| | |] ms]; reflexivity.
Qed.

Lemma keeps_port_ser_readline dev : keeps_port (ser_readline dev).
Proof.
  intros w. unfold ser_readline.
  destruct (dev_read dev (n_reads w)) as [[b| |] ms]; reflexivity.
Qed.

Lemma keeps_port_bytes_decode b : keeps_port (bytes_decode b).
Proof. intros w. unfold bytes_decode. destruct (Py.decode b); reflexivity. Qed.

Lemma keeps_port_item values i : keeps_port (item values i).
Proof. intros w. unfold item. destruct (nth_error values i); reflexivity. Qed.

Lemma keeps_port_float_of v : keeps_port (float_of v).
Proof. intros w. unfold float_of. destruct (PyFloat.parse v); reflexivity. Qed.

Lemma keeps_port_float_or_zero v : keeps_port (float_or_zero v).
Proof.
  intros w. unfold float_or_zero.
  destruct (Py.truthy v); [apply keeps_port_float_of | reflexivity].
Qed.

Create HintDb port.

#[global] Hint Resolve keeps_port_ret keeps_port_raise keeps_port_reraise
  keeps_port_print keeps_port_sleep keeps_port_time keeps_port_writerow
  keeps_port_file_is_empty keeps_port_out_of_fuel keeps_port_ser_write
  keeps_port_ser_readline keeps_port_bytes_decode keeps_port_item
  keeps_port_float_of keeps_port_float_or_zero : port.

(** Breaks a [keeps_port] goal down along the structure of the program;
    the leaves are the lemmas of the [port] database. *)
Ltac port :=
  repeat first
    [ solve [auto 1 with port nocore]
    | apply keeps_port_bind; [|intros ?]
    | apply keeps_port_try; [|intros ?]
    | match goal with
      | |- keeps_port (if ?c then _ else _) => destruct c
      | |- keeps_port (match ?x with _ => _ end) => destruct x
      end ].

Lemma keeps_port_safe_serial_write dev cmd :
  keeps_port (safe_serial_write dev cmd).
Proof. unfold safe_serial_write. port. Qed.

Lemma keeps_port_safe_serial_read dev : keeps_port (safe_serial_read dev).
Proof. unfold safe_serial_read. port. Qed.

#[global] Hint Resolve keeps_port_safe_serial_write
  keeps_port_safe_serial_read : port.

Lemma keeps_port_must_write dev cmd text :
  keeps_port (must_write dev cmd text).
Proof. unfold must_write. port. Qed.

Lemma keeps_port_confirm dev q l : keeps_port (confirm dev q l).
Proof. unfold confirm. port. Qed.

Lemma keeps_port_read_text dev : keeps_port (read_text dev).
Proof. unfold read_text. port. Qed.

#[global] Hint Resolve keeps_port_must_write keeps_port_confirm
  keeps_port_read_text : port.

Lemma keeps_port_poll_loop dev interval fuel : forall start last,
  keeps_port (poll_loop dev interval fuel start last).
Proof.
  induction fuel as [|fuel IH]; intros start last.
  - intros w. reflexivity.
  - cbn [poll_loop]. port; apply IH.
Qed.

Lemma keeps_port_process_response interval response :
  keeps_port (process_response interval response).
Proof. unfold process_response. port. Qed.

Lemma keeps_port_avg_process_response response :
  keeps_port (avg_process_response response).
Proof. unfold avg_process_response. port. Qed.

#[global] Hint Resolve keeps_port_poll_loop keeps_port_process_response
  keeps_port_avg_process_response : port.

Lemma keeps_port_fetch_results dev interval :
  keeps_port (fetch_results dev interval).
Proof. unfold fetch_results. port. Qed.

#[global] Hint Resolve keeps_port_fetch_results : port.

Lemma keeps_port_cycle dev interval loop_count :
  keeps_port (cycle dev interval loop_count).
Proof. unfold cycle, cycle_body. port. Qed.

Lemma keeps_port_avg_cycle dev : keeps_port (avg_cycle dev).
Proof. unfold avg_cycle. port. Qed.

#[global] Hint Resolve keeps_port_cycle keeps_port_avg_cycle : port.

Lemma keeps_port_measurement_loop dev interval cycles : forall loop_count,
  keeps_port (measurement_loop dev interval cycles loop_count).
Proof.
  induction cycles as [|cycles IH]; intros loop_count; cbn [measurement_loop].
  - port.
  - port; apply IH.
Qed.

Lemma keeps_port_avg_loop dev cycles : keeps_port (avg_loop dev cycles).
Proof.
  induction cycles as [|cycles IH]; cbn [avg_loop]; port.
Qed.

#[global] Hint Resolve keeps_port_measurement_loop keeps_port_avg_loop : port.

Lemma keeps_port_measurement dev interval cycles :
  keeps_port (measurement dev interval cycles).
Proof. unfold measurement. port. Qed.

Lemma keeps_port_number_response_val_of raw :
  keeps_port (number_response_val_of raw).
Proof. unfold number_response_val_of. port. Qed.

Lemma keeps_port_set_number_of_items dev v :
  keeps_port (set_number_of_items dev v).
Proof. unfold set_number_of_items. port. Qed.

#[global] Hint Resolve keeps_port_measurement
  keeps_port_number_response_val_of keeps_port_set_number_of_items : port.

Lemma reo_ret {A} (a : A) : raises_exceptions_only (ret a).
Proof. intros w. exact I. Qed.

Lemma reo_print m : raises_exceptions_only (print m).
Proof. intros w. exact I. Qed.

Lemma reo_sleep ms : raises_exceptions_only (sleep ms).
Proof. intros w. exact I. Qed.

Lemma reo_raise {A} c text :
  isinstance c Exception = true -> raises_exceptions_only (@raise A c text).
Proof. intros H w. exact H. Qed.

Lemma reo_reraise {A} e :
  caught_by e Exception = true -> raises_exceptions_only (@reraise A e).
Proof. intros H w. exact H. Qed.

Lemma reo_bind {A B} (m : M A) (k : A -> M B) :
  raises_exceptions_only m -> (forall a, raises_exceptions_only (k a)) ->
  raises_exceptions_only (bind m k).
Proof.
  intros Hm Hk w. unfold bind. specialize (Hm w).
  destruct (m w) as [[a|e|] w1]; cbn in *; [|assumption|assumption].
  apply Hk.
Qed.

Lemma reo_try {A} (m : M A) (h : exn -> M A) :
  raises_exceptions_only m ->
  (forall e, caught_by e Exception = true -> raises_exceptions_only (h e)) ->
  raises_exceptions_only (try_except m h).
Proof.
  intros Hm Hh w. unfold try_except. specialize (Hm w).
  destruct (m w) as [[a|e|] w1]; cbn in *; [assumption| |assumption].
  apply Hh. exact Hm.
Qed.

Lemma reo_ser_write dev cmd : raises_exceptions_only (ser_write dev cmd).
Proof.
  intros w. unfold ser_write.
  destruct (dev_write dev (n_writes w)) as [[| | |] ms]; cbn; reflexivity.
Qed.

Lemma reo_ser_readline dev : raises_exceptions_only (ser_readline dev).
Proof.
  intros w. unfold ser_readline.
  destruct (dev_read dev (n_reads w)) as [[b| |] ms]; cbn; reflexivity.
Qed.

Lemma reo_bytes_decode b : raises_exceptions_only (bytes_decode b).
Proof.
  intros w. unfold bytes_decode. destruct (Py.decode b); cbn; reflexivity.
Qed.

Lemma reo_serial_open dev : raises_exceptions_only (serial_open dev).
Proof.
  intros w. unfold serial_open. destruct (dev_opens dev); cbn; reflexivity.
Qed.

Lemma reo_safe_serial_write dev cmd :
  raises_exceptions_only (safe_serial_write dev cmd).
Proof.
  intros w. destruct (safe_serial_write_run dev cmd w) as (ok & w' & -> & _).
  exact I.
Qed.

Lemma reo_safe_serial_read dev : raises_exceptions_only (safe_serial_read dev).
Proof.
  intros w. destruct (safe_serial_read_run dev w) as (r & w' & -> & _).
  exact I.
Qed.

Create HintDb reo.

#[global] Hint Resolve reo_ret reo_print reo_sleep reo_ser_write
  reo_ser_readline reo_bytes_decode reo_serial_open reo_safe_serial_write
  reo_safe_serial_read : reo.

(** Breaks a [raises_exceptions_only] goal down along the structure of
    the program; a handler is entered with what it caught. *)
Ltac reo :=
  repeat first
    [ solve [auto 1 with reo nocore]
    | apply reo_bind; [|intros ?]
    | apply reo_try;
      [|let e := fresh "e" in let He := fresh "He" in
        intros e He; rewrite ?He]
    | apply reo_raise; reflexivity
    | apply reo_reraise; assumption
    | match goal with
      | |- raises_exceptions_only (if ?c then _ else _) => destruct c
      | |- raises_exceptions_only (match ?x with _ => _ end) => destruct x
      end ].

Lemma reo_must_write dev cmd text :
  raises_exceptions_only (must_write dev cmd text).
Proof. unfold must_write. reo. Qed.

Lemma reo_confirm dev q l : raises_exceptions_only (confirm dev q l).
Proof. unfold confirm. reo. Qed.

Lemma reo_read_text dev : raises_exceptions_only (read_text dev).
Proof. unfold read_text. reo. Qed.

#[global] Hint Resolve reo_must_write reo_confirm reo_read_text : reo.

Lemma reo_number_response_val_of raw :
  raises_exceptions_only (number_response_val_of raw).
Proof. unfold number_response_val_of. reo. Qed.

Lemma reo_set_number_of_items dev v :
  raises_exceptions_only (set_number_of_items dev v).
Proof. unfold set_number_of_items. reo. Qed.

#[global] Hint Resolve reo_number_response_val_of reo_set_number_of_items
  : reo.

(** ** The traffic of the polling loop *)

Section PollTraffic.

Variable dev : device.
Variable interval : Z.

Lemma polls_only_failed t :
  polls_only (Wrote cmd_state false :: t) = polls_only t.
Proof. cbn [polls_only]. rewrite String.eqb_refl. reflexivity. Qed.

Lemma polls_only_answered r t :
  polls_only (Wrote cmd_state true :: ReadBack r :: t) = polls_only t.
Proof. cbn [polls_only]. rewrite String.eqb_refl. reflexivity. Qed.

Lemma poll_loop_traffic fuel : forall start last w,
  exists evs,
    traffic (snd (poll_loop dev interval fuel start last w)) = traffic w ++ evs /\
    polls_only evs = true /\
    100 * Z.of_nat (queries evs)
    <= now (snd (poll_loop dev interval fuel start last w)) - now w /\
    Z.of_nat (queries evs)
    <= Z.max 0 ((software_timeout_ms interval - (now w - start)) / 100 + 1).
Proof.
  induction fuel as [|fuel IH]; intros start last w.
  { exists []. cbn. rewrite app_nil_r. repeat split; lia. }
  destruct (timed_out interval start (now w)) eqn:Ht.
  { rewrite (poll_turn_expired dev interval fuel start last w Ht).
    exists []. cbn. rewrite app_nil_r. repeat split; lia. }
  assert (Hrem : 0 <= software_timeout_ms interval - (now w - start)).
  { unfold timed_out in Ht. apply Z.ltb_ge in Ht. lia. }
  assert (Hq : 0 <= (software_timeout_ms interval - (now w - start)) / 100)
    by (apply Z.div_pos; lia).
  assert (Hnext : forall w1 dt,
             now w1 = now w + dt -> 100 <= dt ->
             (software_timeout_ms interval - (now w1 - start)) / 100 + 1
             <= (software_timeout_ms interval - (now w - start)) / 100).
  { intros w1 dt E Hdt.
    replace ((software_timeout_ms interval - (now w - start)) / 100)
      with ((software_timeout_ms interval - (now w - start) - 1 * 100) / 100 + 1).
    - apply Z.add_le_mono_r. apply Z.div_le_mono; lia.
    - rewrite <- Z.add_opp_r, <- Z.mul_opp_l, Z.div_add by lia. lia. }
  pose proof (N2Z.is_nonneg (snd (dev_write dev (n_writes w)))) as Hw0.
  pose proof (N2Z.is_nonneg (snd (dev_read dev (n_reads w)))) as Hr0.
  assert (Last : forall (o : outcome unit) w1 evs dt dw dr,
             advanced w w1 evs dt dw dr -> 100 <= dt ->
             polls_only evs = true -> queries evs = 1%nat ->
             exists evs0,
               traffic (snd (o, w1)) = traffic w ++ evs0 /\
               polls_only evs0 = true /\
               100 * Z.of_nat (queries evs0) <= now (snd (o, w1)) - now w /\
               Z.of_nat (queries evs0)
               <= Z.max 0 ((software_timeout_ms interval - (now w - start))
                           / 100 + 1)).
  { intros o w1 evs dt dw dr (Htr & _ & _ & _ & _ & Hnow) Hdt Hp Hn.
    exists evs. cbn [snd]. rewrite Hn. repeat split; auto; lia. }
  assert (Next : forall last' w1 evs dt dw dr,
             advanced w w1 evs dt dw dr -> 100 <= dt ->
             polls_only evs = true -> queries evs = 1%nat ->
             (forall t, polls_only (evs ++ t) = polls_only t) ->
             (forall t, queries (evs ++ t) = S (queries t)) ->
             exists evs0,
               traffic (snd (poll_loop dev interval fuel start last' w1))
               = traffic w ++ evs0 /\
               polls_only evs0 = true /\
               100 * Z.of_nat (queries evs0)
               <= now (snd (poll_loop dev interval fuel start last' w1)) - now w /\
               Z.of_nat (queries evs0)
               <= Z.max 0 ((software_timeout_ms interval - (now w - start))
                           / 100 + 1)).
  { intros last' w1 evs dt dw dr (Htr & _ & _ & _ & _ & Hnow) Hdt Hp Hn Hpa Hqa.
    destruct (IH start last' w1) as (evs' & Ht' & Hp' & Hn' & Hb').
    exists (evs ++ evs'). rewrite Ht', Htr, <- app_assoc, Hpa, Hqa.
    pose proof (Hnext w1 dt Hnow Hdt).
    repeat split; auto; lia. }
  pose proof (poll_turn dev interval fuel start last w Ht) as T.
  cbv zeta in T.
  destruct (write_ok (fst (dev_write dev (n_writes w)))).
  - destruct (read_result (read_bytes (fst (dev_read dev (n_reads w)))))
      as [s|].
    + destruct (classify s).
      * destruct T as (w1 & A & ->).
        eapply Last; [exact A|lia|apply polls_only_answered|reflexivity].
      * destruct T as (last' & w1 & A & ->).
        eapply Next; [exact A|lia|apply polls_only_answered|reflexivity
                      |intros t; apply polls_only_answered|reflexivity].
      * destruct T as (w1 & A & ->).
        eapply Last; [exact A|lia|apply polls_only_answered|reflexivity].
      * destruct T as (w1 & A & ->).
        eapply Last; [exact A|lia|apply polls_only_answered|reflexivity].
      * destruct T as (last' & w1 & A & ->).
        eapply Next; [exact A|lia|apply polls_only_answered|reflexivity
                      |intros t; apply polls_only_answered|reflexivity].
    + destruct T as (w1 & A & ->).
      destruct (timed_out interval start (now w1)).
      * eapply Last; [exact A|lia|apply polls_only_answered|reflexivity].
      * eapply Next; [exact A|lia|apply polls_only_answered|reflexivity
                      |intros t; apply polls_only_answered|reflexivity].
  - destruct T as (w1 & A & ->).
    destruct (timed_out interval start (now w1)).
    + eapply Last; [exact A|lia|apply polls_only_failed|reflexivity].
    + eapply Next; [exact A|lia|apply polls_only_failed|reflexivity
                    |intros t; apply polls_only_failed|reflexivity].
Qed.

(** X7: the polling phase of a cycle, as the cycle starts it, always ends
    (it returns or raises within its fuel), leaves the CSV file alone, and
    its serial traffic is made of state queries only: each either failed
    to go out or is followed by exactly one read.  At least 100 ms pass
    per state query, and there are at most one more than a hundredth of
    the watchdog time in milliseconds. *)
Theorem polling_traffic last w :
  let run := poll_loop dev interval (poll_fuel interval) (now w) last w in
  fst run <> OutOfFuel /\
  csv (snd run) = csv w /\
  exists evs,
    traffic (snd run) = traffic w ++ evs /\
    polls_only evs = true /\
    100 * Z.of_nat (queries evs) <= now (snd run) - now w /\
    Z.of_nat (queries evs)
    <= Z.max 0 (software_timeout_ms interval / 100 + 1).
Proof.
  cbv zeta. split; [|split].
  - apply poll_loop_terminates. apply poll_fuel_enough.
  - apply keeps_csv_poll_loop.
  - destruct (poll_loop_traffic (poll_fuel interval) (now w) last w)
      as (evs & H1 & H2 & H3 & H4).
    rewrite Z.sub_diag, Z.sub_0_r in H4. exists evs. auto.
Qed.

End PollTraffic.

(** ** A cycle that does not get started *)

(** X8: when the reset cannot be sent the cycle stops there: it is flagged,
    the start and the state query are never sent, no row is written, and
    the next cycle begins a second later.  The same holds when the reset
    went out and the start cannot be sent: nothing follows the failed
    start. *)
Theorem cycle_not_started dev interval loop_count w :
  let reset := dev_write dev (n_writes w) in
  let start := dev_write dev (S (n_writes w)) in
  (write_ok (fst reset) = false ->
   exists w',
     cycle dev interval loop_count w = (Ret (NextCycle true), w') /\
     traffic w' = traffic w ++ [Wrote cmd_reset false] /\
     csv w' = csv w /\
     now w' = now w + Z.of_N (snd reset) + 1000) /\
  (write_ok (fst reset) = true -> write_ok (fst start) = false ->
   exists w',
     cycle dev interval loop_count w = (Ret (NextCycle true), w') /\
     traffic w' = traffic w ++ [Wrote cmd_reset true; Wrote cmd_start false] /\
     csv w' = csv w /\
     now w' = now w + Z.of_N (snd reset) + 100 + 300 + Z.of_N (snd start) + 1000).
Proof.
  cbv zeta.
  set (w0 := add_console
               (SayCycle "--- Starting Integration Cycle ---" loop_count) w).
  destruct (dev_write dev (n_writes w)) as [o0 a0] eqn:E0.
  destruct (dev_write dev (S (n_writes w))) as [o1 a1] eqn:E1.
  cbn [fst snd]. split.
  - intros H0.
    destruct (cycle_body_reset_failed dev interval w0 o0 a0 E0 H0)
      as (w1 & (At & Ac & _ & _ & _ & An) & Hb).
    destruct (cycle_of_abort dev interval loop_count w _ w1 Hb eq_refl)
      as (w2 & Hc & (Bt & Bc & _ & _ & _ & Bn)).
    exists w2. split; [exact Hc|].
    rewrite Bt, Bc, Bn, At, Ac, An, app_nil_r. cbn. repeat split; lia.
  - intros H0 H1. destruct o0; try discriminate.
    destruct (cycle_body_start_failed dev interval w0 a0 o1 a1 E0 E1 H1)
      as (w1 & (At & Ac & _ & _ & _ & An) & Hb).
    destruct (cycle_of_abort dev interval loop_count w _ w1 Hb eq_refl)
      as (w2 & Hc & (Bt & Bc & _ & _ & _ & Bn)).
    exists w2. split; [exact Hc|].
    rewrite Bt, Bc, Bn, At, Ac, An, app_nil_r. cbn. repeat split; lia.
Qed.

Lemma cycle_not_started_witness :
  (exists w',
     cycle (Bench.scripted [(WriteTimeout, 2000%N)] []) 10 1 Bench.w0
     = (Ret (NextCycle true), w') /\
     traffic w' = traffic Bench.w0 ++ [Wrote cmd_reset false] /\
     csv w' = csv Bench.w0 /\
     now w' = now Bench.w0 + 2000 + 1000) /\
  (exists w',
     cycle (Bench.scripted [(WriteOk, 0%N); (WriteSerialError, 5%N)] []) 10 1
           Bench.w0
     = (Ret (NextCycle true), w') /\
     traffic w' = traffic Bench.w0
                  ++ [Wrote cmd_reset true; Wrote cmd_start false] /\
     csv w' = csv Bench.w0 /\
     now w' = now Bench.w0 + 0 + 100 + 300 + 5 + 1000).
Proof.
  split.
  - apply (proj1 (cycle_not_started
                    (Bench.scripted [(WriteTimeout, 2000%N)] []) 10 1 Bench.w0)).
    reflexivity.
  - apply (proj2 (cycle_not_started
                    (Bench.scripted [(WriteOk, 0%N); (WriteSerialError, 5%N)] [])
                    10 1 Bench.w0)); reflexivity.
Defined.

(** ** The flag of a cycle and the row it wrote *)

Lemma row_iff_bind_left {A B} (g : B -> bool) (m : M A) (k : A -> M B) :
  keeps_csv m -> (forall a, row_iff g (k a)) -> row_iff g (bind m k).
Proof.
  intros Hm Hk w. unfold bind. specialize (Hm w).
  destruct (m w) as [[a|e|] w1]; cbn [fst snd] in *; [|exact Hm|exact Hm].
  specialize (Hk a w1). rewrite Hm in Hk. exact Hk.
Qed.

Lemma row_iff_map {A B} (g : A -> bool) (g' : B -> bool) (f : A -> B)
      (m : M A) :
  row_iff g m -> (forall a, g' (f a) = g a) ->
  row_iff g' (bind m (fun a => ret (f a))).
Proof.
  intros Hm Hf w. unfold bind, ret. specialize (Hm w).
  destruct (m w) as [[a|e|] w1]; cbn [fst snd] in *; [|exact Hm|exact Hm].
  rewrite Hf. exact Hm.
Qed.

Lemma row_iff_try {A} (g : A -> bool) (m : M A) (h : exn -> M A) :
  row_iff g m ->
  (forall e w, csv (snd (h e w)) = csv w /\
               match fst (h e w) with Ret a => g a = false | _ => True end) ->
  row_iff g (try_except m h).
Proof.
  intros Hm Hh w. unfold try_except. specialize (Hm w).
  destruct (m w) as [[a|e|] w1]; cbn [fst snd] in *; [exact Hm| |exact Hm].
  destruct (Hh e w1) as [Hc Ho]. rewrite Hc, Hm.
  destruct (fst (h e w1)); [rewrite Ho|..]; reflexivity.
Qed.

Lemma row_iff_then {A} (g : A -> bool) (m : M A) (k : A -> M A) :
  row_iff g m ->
  (forall a w, exists w', k a w = (Ret a, w') /\ csv w' = csv w) ->
  row_iff g (bind m k).
Proof.
  intros Hm Hk w. unfold bind. specialize (Hm w).
  destruct (m w) as [[a|e|] w1]; cbn [fst snd] in *; [|exact Hm|exact Hm].
  destruct (Hk a w1) as (w2 & -> & Hc). cbn [fst snd]. rewrite Hc. exact Hm.
Qed.

Lemma row_iff_fetch_results dev interval :
  row_iff negb (fetch_results dev interval).
Proof.
  intros w.
  change (wp (fetch_results dev interval)
            (fun o w' =>
               match o with
               | Ret a =>
                 if negb a
                 then exists r, integration_row r /\ csv w' = csv w ++ [r]
                 else csv w' = csv w
               | Raise _ | OutOfFuel => csv w' = csv w
               end) w).
  unfold fetch_results. apply wp_bind, wp_print. apply wp_bind.
  apply wp_must_write.
  - intros w1 (_ & _ & Hcsv & _). cbn in Hcsv.
    apply wp_bind. apply wp_safe_serial_read.
    intros r w2 (_ & _ & Hcsv2 & _).
    destruct (read_result r) as [[|c rest]|].
    + wp_steps. cbn. congruence.
    + unfold wp.
      destruct (fields_ok empty_or_float 4 (c :: rest)) eqn:Hf.
      * destruct (process_response_row interval (c :: rest) w2 Hf)
          as (v0 & v1 & v2 & v3 & rest' & pv & cu & ip & wh & _ & _ & _ & _ & _ & E).
        rewrite E. cbn. eexists. split; [|rewrite Hcsv2, Hcsv; reflexivity].
        unfold integration_row. repeat eexists.
      * destruct (process_response_no_row interval (c :: rest) w2 Hf)
          as [E1 E2].
        destruct (process_response interval (c :: rest) w2) as [o w3].
        cbn [fst snd] in *. subst o. cbn. congruence.
    + wp_steps. cbn. congruence.
  - intros w1 (_ & _ & Hcsv & _). cbn in Hcsv. exact Hcsv.
Qed.

Lemma row_iff_cycle dev interval loop_count :
  row_iff succeeded (cycle dev interval loop_count).
Proof.
  unfold cycle. apply row_iff_bind_left; [keeps | intros _].
  apply row_iff_then.
  - apply row_iff_try.
    + apply row_iff_map with (g := negb); [|intros [|]; reflexivity].
      unfold cycle_body.
      repeat lazymatch goal with
             | |- row_iff _ (bind _ _) =>
               apply row_iff_bind_left; [keeps | intros ?]
             end.
      apply row_iff_fetch_results.
    + intros e w.
      destruct (caught_by e SerialException);
        [|destruct (caught_by e IOError);
          [|destruct (caught_by e TimeoutError);
            [|destruct (caught_by e Exception)]]];
        split; reflexivity.
  - intros [[|]|] w; eexists; split; reflexivity.
Qed.

Lemma app_one_neq {A} (l : list A) (r : A) : l ++ [r] <> l.
Proof.
  intros E. apply (f_equal (@List.length A)) in E.
  rewrite length_app in E. cbn in E. lia.
Qed.

(** X9: the flag of a cycle and the CSV file agree.  A turn of the main
    loop ends as "completed successfully" exactly when it appended a row
    (one row, of the six columns); every other end of the turn (flagged,
    or leaving the loop) leaves the file as it was. *)
Theorem success_means_row dev interval loop_count w :
  let run := cycle dev interval loop_count w in
  (fst run = Ret (NextCycle false) <->
   exists r, integration_row r /\ csv (snd run) = csv w ++ [r]) /\
  (fst run = Ret (NextCycle false) \/ csv (snd run) = csv w).
Proof.
  cbv zeta. pose proof (row_iff_cycle dev interval loop_count w) as H.
  destruct (fst (cycle dev interval loop_count w)) as [[[|]|]|e|];
    cbn [succeeded] in H.
  - split; [|right; exact H]. split; [discriminate|].
    intros (r & _ & E). rewrite H in E. symmetry in E.
    destruct (app_one_neq _ _ E).
  - split; [|left; reflexivity]. split; [intros _; exact H | reflexivity].
  - split; [|right; exact H]. split; [discriminate|].
    intros (r & _ & E). rewrite H in E. symmetry in E.
    destruct (app_one_neq _ _ E).
  - split; [|right; exact H]. split; [discriminate|].
    intros (r & _ & E). rewrite H in E. symmetry in E.
    destruct (app_one_neq _ _ E).
  - split; [|right; exact H]. split; [discriminate|].
    intros (r & _ & E). rewrite H in E. symmetry in E.
    destruct (app_one_neq _ _ E).
Qed.

(** ** How the integration script leaves *)

Lemma opens_then {B} dev msg (k : M B) w :
  keeps_port k ->
  let m := bind (print msg) (fun _ => bind (serial_open dev) (fun _ => k)) in
  match fst (m w) with
  | Ret _ => ser_open (snd (m w)) = true
  | Raise _ | OutOfFuel => True
  end.
Proof.
  intros Hk. cbv zeta. unfold bind, print, serial_open.
  destruct (dev_opens dev); [|exact I].
  specialize (Hk (set_ser_open true (add_console msg w))).
  destruct (k (set_ser_open true (add_console msg w))) as [[b|e|] w1];
    cbn [fst snd] in *; auto.
Qed.

Lemma reo_configure_body dev interval :
  raises_exceptions_only (configure_body dev interval).
Proof. unfold configure_body. reo. Qed.

Lemma configure_port dev interval w :
  exists status w1,
    configure dev interval w = (Ret status, w1) /\
    match status with
    | None => ser_open w1 = true
    | Some code => code = 1 /\ ser_open w1 = false
    end.
Proof.
  pose proof (reo_configure_body dev interval w) as Hr.
  assert (Hp : match fst (configure_body dev interval w) with
               | Ret _ => ser_open (snd (configure_body dev interval w)) = true
               | Raise _ | OutOfFuel => True
               end).
  { unfold configure_body. apply opens_then. port. }
  unfold configure, try_except. unfold bind at 1.
  destruct (configure_body dev interval w) as [[[]|e|] w1];
    cbn [fst snd] in *.
  - do 2 eexists. split; [reflexivity | exact Hp].
  - rewrite Hr. unfold close_if_open.
    destruct (caught_by e SerialException);
      unfold bind, print, ret; cbn [ser_open add_console];
      destruct (ser_open w1) eqn:Eo; unfold serial_close; do 2 eexists;
        (split; [reflexivity|]); (split; [reflexivity|]);
        first [exact Eo | reflexivity].
  - contradiction.
Qed.

Lemma cleanup_open dev w :
  ser_open w = true ->
  exists o w1 ok,
    cleanup dev w = (o, w1) /\ o <> OutOfFuel /\
    traffic w1 = traffic w ++ [Wrote cmd_stop ok] /\
    ser_open w1 = false /\ csv w1 = csv w.
Proof.
  intros Ho. unfold cleanup.
  unfold bind at 1. unfold print at 1. unfold bind at 1. unfold print at 1.
  unfold bind at 1. cbn [fst snd ser_open add_console]. rewrite Ho.
  unfold bind at 1. unfold try_finally, try_except.
  unfold bind at 1. unfold print at 1. unfold bind at 1.
  match goal with
  | |- context [safe_serial_write dev ?c ?W] =>
    destruct (safe_serial_write_run dev c W)
      as (ok & w1 & -> & _ & Ht & Hc & _)
  end.
  destruct ok; cbn; do 3 eexists;
    (split; [reflexivity|]); (split; [discriminate|]);
    (split; [cbn; exact Ht|]); (split; [reflexivity | exact Hc]).
Qed.

(** X10: the integration script always leaves with the port closed and
    an exit status.  The status is 1 exactly when the configuration
    failed, and then nothing is sent after the configuration; otherwise
    the status is 0, whatever happened in the measurement loop, and the
    last thing sent is the stop command of the clean-up. *)
Theorem integrator_exit dev interval cycles t0 file :
  let w0 := initial_world t0 file in
  exists status w',
    main dev interval cycles w0 = (Ret status, w') /\
    ser_open w' = false /\
    ((status = 1 /\
      fst (configure dev interval w0) = Ret (Some 1) /\
      w' = snd (configure dev interval w0)) \/
     (status = 0 /\
      fst (configure dev interval w0) = Ret None /\
      exists pre ok, traffic w' = pre ++ [Wrote cmd_stop ok])).
Proof.
  cbv zeta.
  destruct (configure_calm dev interval _ (calm_initial t0 file)) as [Hc _].
  destruct (configure_port dev interval (initial_world t0 file))
    as (status & w1 & E & Hs).
  unfold main. unfold bind at 1. rewrite E in *. cbn [fst snd] in *.
  destruct status as [code|].
  - destruct Hs as [-> Ho]. exists 1, w1. split; [reflexivity|].
    split; [exact Ho|]. left. auto.
  - unfold bind at 1. unfold print at 1.
    set (w2 := add_console (Say "Starting Integration Loop.") w1).
    assert (Hc2 : calm w2) by (apply (calm_same w1); [reflexivity|exact Hc]).
    destruct (measurement_phase dev interval cycles w2 Hc2) as [_ Hne].
    pose proof (keeps_port_measurement dev interval cycles w2) as Hp.
    assert (Ho3 : ser_open (snd (measurement dev interval cycles w2)) = true)
      by (rewrite Hp; exact Hs).
    destruct (cleanup_open dev _ Ho3) as (o & w4 & ok & Ec & Hno & Ht & Hcl & _).
    exists 0, w4. split.
    + destruct (measurement dev interval cycles w2) as [[a|e|] w3];
        cbn [fst snd] in *; try congruence;
        rewrite Ec; destruct o; try congruence; reflexivity.
    + split; [exact Hcl|]. right. split; [reflexivity|].
      split; [reflexivity|]. do 2 eexists. exact Ht.
Qed.

(** ** An instrument that is not there *)

(** X11: when the port does not open, the integration script leaves with
    status 1 without any serial traffic; when the identification query
    cannot be sent, or gets no text back (nothing, an empty line, bytes
    that do not decode, a read error), it leaves with status 1 after that
    one write, or write and read.  In each case the port is closed, the
    CSV file is untouched and no set command is sent. *)
Theorem unidentified_instrument dev interval cycles t0 file :
  let w0 := initial_world t0 file in
  (dev_opens dev = false ->
   exists w',
     main dev interval cycles w0 = (Ret 1, w') /\
     traffic w' = [] /\ csv w' = file /\ ser_open w' = false) /\
  (dev_opens dev = true ->
   write_ok (fst (dev_write dev 0)) = false ->
   exists w',
     main dev interval cycles w0 = (Ret 1, w') /\
     traffic w' = [Wrote (line "*IDN?") false] /\
     csv w' = file /\ ser_open w' = false) /\
  (dev_opens dev = true ->
   write_ok (fst (dev_write dev 0)) = true ->
   (forall c r,
      read_result (read_bytes (fst (dev_read dev 0))) <> Some (c :: r)) ->
   exists w',
     main dev interval cycles w0 = (Ret 1, w') /\
     traffic w' = [Wrote (line "*IDN?") true;
                   ReadBack (read_bytes (fst (dev_read dev 0)))] /\
     csv w' = file /\ ser_open w' = false).
Proof.
  cbv zeta. split; [|split].
  - intros Ho. unfold main. unfold bind at 1.
    unfold configure, try_except. unfold bind at 1.
    unfold configure_body. unfold bind at 1. unfold print at 1.
    unfold bind at 1. unfold serial_open at 1. rewrite Ho.
    cbn. eexists. repeat split.
  - intros Ho Hw.
    destruct (dev_write dev 0) as [o ms] eqn:E. cbn [fst] in Hw.
    assert (B : exists w1,
               configure_body dev interval (initial_world t0 file)
               = (Raise (polling_abort "Failed to send *IDN?"), w1) /\
               traffic w1 = [Wrote (line "*IDN?") false] /\
               csv w1 = file /\ ser_open w1 = true).
    { unfold configure_body. unfold bind at 1. unfold print at 1.
      unfold bind at 1. unfold serial_open at 1. rewrite Ho.
      unfold bind at 1. unfold print at 1. unfold bind at 1.
      unfold sleep at 1. unfold bind at 1. unfold must_write.
      unfold bind at 1.
      match goal with
      | |- context [safe_serial_write dev ?c ?W] =>
        destruct (safe_serial_write_failed dev c W o ms E Hw) as [m ->]
      end.
      eexists. split; [reflexivity|]. cbn. auto. }
    destruct B as (w1 & Hb & Ht & Hc & Hop).
    destruct (main_of_failed_config dev interval cycles _ _ w1 Hb eq_refl Hop)
      as (w' & Hm & Ht' & _ & Hc' & Ho').
    exists w'. rewrite Ht', Hc'. auto.
  - intros Ho Hw Hr.
    destruct (dev_write dev 0) as [o ms] eqn:E. cbn [fst] in Hw.
    destruct o; try discriminate.
    assert (B : exists w1 e,
               configure_body dev interval (initial_world t0 file)
               = (Raise e, w1) /\ exn_class_of e = Exception /\
               traffic w1 = [Wrote (line "*IDN?") true;
                             ReadBack (read_bytes (fst (dev_read dev 0)))] /\
               csv w1 = file /\ ser_open w1 = true).
    { unfold configure_body. unfold bind at 1. unfold print at 1.
      unfold bind at 1. unfold serial_open at 1. rewrite Ho.
      unfold bind at 1. unfold print at 1. unfold bind at 1.
      unfold sleep at 1. unfold bind at 1. unfold must_write.
      unfold bind at 1.
      match goal with
      | |- context [safe_serial_write dev ?c ?W] =>
        rewrite (safe_serial_write_ok dev c W ms E)
      end.
      unfold ret at 1. unfold bind at 1.
      match goal with
      | |- context [safe_serial_read dev ?W] =>
        destruct (safe_serial_read_run dev W)
          as (r & w2 & -> & Hrr & Ht2 & Hc2 & _ & _ & Ho2 & _)
      end.
      cbn in Hrr, Ht2, Hc2, Ho2. subst r.
      destruct (read_result (read_bytes (fst (dev_read dev 0))))
        as [[|c rest]|] eqn:R.
      - do 2 eexists. split; [reflexivity|]. cbn. auto.
      - destruct (Hr c rest eq_refl).
      - do 2 eexists. split; [reflexivity|]. cbn. auto. }
    destruct B as (w1 & e & Hb & He & Ht & Hc & Hop).
    destruct (main_of_failed_config dev interval cycles _ _ w1 Hb He Hop)
      as (w' & Hm & Ht' & _ & Hc' & Ho').
    exists w'. rewrite Ht', Hc'. auto.
Qed.

Lemma unidentified_instrument_witness :
  (exists w',
     main unplugged 10 3 (initial_world Bench.t0 []) = (Ret 1, w') /\
     traffic w' = [] /\ csv w' = [] /\ ser_open w' = false) /\
  (exists w',
     main (Bench.scripted [(WriteTimeout, 2000%N)] []) 10 3
          (initial_world Bench.t0 []) = (Ret 1, w') /\
     traffic w' = [Wrote (line "*IDN?") false] /\
     csv w' = [] /\ ser_open w' = false) /\
  (exists w',
     main Bench.silent 10 3 (initial_world Bench.t0 []) = (Ret 1, w') /\
     traffic w' = [Wrote (line "*IDN?") true;
                   ReadBack (read_bytes (fst (dev_read Bench.silent 0)))] /\
     csv w' = [] /\ ser_open w' = false).
Proof.
  split; [|split].
  - apply (proj1 (unidentified_instrument unplugged 10 3 Bench.t0 [])).
    reflexivity.
  - apply (proj1 (proj2 (unidentified_instrument
                           (Bench.scripted [(WriteTimeout, 2000%N)] [])
                           10 3 Bench.t0 []))); reflexivity.
  - apply (proj2 (proj2 (unidentified_instrument Bench.silent 10 3
                           Bench.t0 []))); try reflexivity.
    intros c r. vm_compute. discriminate.
Defined.

(** ** The loop of the averaging script *)

Lemma avg_process_response_serial response w :
  exists w',
    avg_process_response response w = (Ret tt, w') /\
    traffic w' = traffic w /\ n_writes w' = n_writes w /\
    n_reads w' = n_reads w /\ ser_open w' = ser_open w /\ now w' = now w.
Proof.
  rewrite avg_process_response_run.
  destruct (Py.split Py.comma response) as [|v0 [|v1 [|v2 rest]]];
    try (eexists; split; [reflexivity|]; cbn; auto).
  destruct (PyFloat.parse v0), (PyFloat.parse v1), (PyFloat.parse v2);
    eexists; (split; [reflexivity|]); cbn; auto.
Qed.

(** One turn of the loop: it never raises; it ends the loop exactly when
    the query or the read raised or the line did not decode, and then
    without a row; a turn that goes on has slept its second. *)
Lemma avg_cycle_run dev w :
  exists w',
    avg_cycle dev w = (Ret (avg_breaks dev w), w') /\
    n_writes w' = S (n_writes w) /\
    ser_open w' = ser_open w /\
    (if avg_breaks dev w then csv w' = csv w else now w + 1000 <= now w').
Proof.
  unfold avg_cycle, try_except, avg_breaks.
  unfold bind at 1. unfold ser_write at 1.
  pose proof (N2Z.is_nonneg (snd (dev_write dev (n_writes w)))) as Hw0.
  pose proof (N2Z.is_nonneg (snd (dev_read dev (n_reads w)))) as Hr0.
  destruct (dev_write dev (n_writes w)) as [[| | |] ms];
    cbn [fst snd write_ok negb orb] in *;
    try (eexists; split; [reflexivity|]; cbn; auto).
  unfold bind at 1. unfold ser_readline at 1. cbn [n_reads did_write].
  destruct (dev_read dev (n_reads w)) as [[b| |] mr]; cbn [fst snd] in *;
    try (eexists; split; [reflexivity|]; cbn; auto).
  unfold bind at 1. unfold bytes_decode at 1.
  destruct (Py.decode b) as [s|];
    [|eexists; split; [reflexivity|]; cbn; auto].
  unfold ret at 1. unfold bind at 1. unfold bind at 1.
  destruct (Py.strip s) as [|c rest].
  - eexists. split; [reflexivity|]. cbn. repeat split; lia.
  - match goal with
    | |- context [avg_process_response ?r ?W] =>
      destruct (avg_process_response_serial r W)
        as (w1 & -> & _ & Hnw & _ & Ho & Hn)
    end.
    eexists. split; [reflexivity|]. cbn in *. rewrite Hnw, Ho, Hn.
    repeat split; lia.
Qed.

(** X12: a turn of the averaging loop never raises and makes exactly one
    write.  It ends the loop exactly when the numeric query or the read
    raised, or the line read is not UTF-8 (a line the integration script
    would only skip), and then no row is written; a text that does not
    parse does not end the loop, and a turn that goes on has taken a
    second or more.  A turn that ends the loop ends it however many turns
    were still to come. *)
Theorem avg_cycle_ends dev w :
  (exists w',
     avg_cycle dev w = (Ret (avg_breaks dev w), w') /\
     n_writes w' = S (n_writes w) /\
     ser_open w' = ser_open w /\
     (if avg_breaks dev w then csv w' = csv w else now w + 1000 <= now w')) /\
  (forall cycles,
     avg_breaks dev w = true ->
     avg_loop dev (S cycles) w = (Ret tt, snd (avg_cycle dev w))).
Proof.
  split; [apply avg_cycle_run|].
  intros cycles Hb. cbn [avg_loop]. unfold bind.
  destruct (avg_cycle_run dev w) as (w' & -> & _). rewrite Hb. reflexivity.
Qed.

Lemma avg_cycle_ends_witness :
  avg_loop Bench.garbled 5 Bench.w0
  = (Ret tt, snd (avg_cycle Bench.garbled Bench.w0)).
Proof.
  apply (proj2 (avg_cycle_ends Bench.garbled Bench.w0) 4%nat).
  vm_compute. reflexivity.
Defined.

(** ** The configuration of the averaging script *)

(** The value of [number_response_val]: the number the answer reports,
    or [-1]; one message is printed and nothing else happens. *)
Lemma number_response_val_of_run raw w :
  exists m,
    number_response_val_of raw w =
    (Ret (match reported_items raw with Some n => n | None => -1 end),
     add_console m w).
Proof.
  unfold number_response_val_of, reported_items.
  destruct raw as [|c r]; [eexists; reflexivity|].
  cbn [Py.truthy]. unfold try_except.
  destruct (rev (PyInt.split_ws (c :: r))) as [|last rest];
    [eexists; reflexivity|].
  destruct (PyInt.parse last); eexists; reflexivity.
Qed.

Section AveragingConfigured.

Variable dev : device.
Variable averaging_count : Z.
Variable file : list row.

Hypothesis writes_go_out : forall n, write_ok (fst (dev_write dev n)) = true.
Hypothesis lines_decode :
  forall n, exists b s,
    fst (dev_read dev n) = ReadLine b /\ Py.decode b = Some s.

Lemma cfg_print m (Q : outcome unit -> world -> Prop) w nw nr tr :
  config_state file nw nr tr w ->
  (forall w', config_state file nw nr tr w' -> Q (Ret tt) w') ->
  wp (print m) Q w.
Proof. intros H HQ. apply wp_print, HQ. exact H. Qed.

Lemma cfg_sleep ms (Q : outcome unit -> world -> Prop) w nw nr tr :
  config_state file nw nr tr w ->
  (forall w', config_state file nw nr tr w' -> Q (Ret tt) w') ->
  wp (sleep ms) Q w.
Proof. intros H HQ. apply wp_sleep, HQ. exact H. Qed.

Lemma cfg_write cmd (Q : outcome unit -> world -> Prop) w nw nr tr :
  config_state file nw nr tr w ->
  (forall w', config_state file (S nw) nr (tr ++ [Wrote cmd true]) w' -> Q (Ret tt) w') ->
  wp (ser_write dev cmd) Q w.
Proof.
  intros (Hnw & Hnr & Htr & Ho & Hc) HQ. unfold wp, ser_write.
  pose proof (writes_go_out (n_writes w)) as Hw.
  destruct (dev_write dev (n_writes w)) as [[| | |] ms]; try discriminate.
  apply HQ. unfold config_state. cbn. rewrite Hnw, Htr. auto.
Qed.

Lemma cfg_read (Q : outcome Py.str -> world -> Prop) w nw nr tr :
  config_state file nw nr tr w ->
  (forall w' b s,
     fst (dev_read dev nr) = ReadLine b -> Py.decode b = Some s ->
     config_state file nw (S nr) (tr ++ [ReadBack (Some b)]) w' ->
     Q (Ret (Py.strip s)) w') ->
  wp (read_text dev) Q w.
Proof.
  intros (Hnw & Hnr & Htr & Ho & Hc) HQ.
  unfold wp, read_text, bind, ser_readline.
  destruct (lines_decode nr) as (b & s & R & D). rewrite Hnr.
  destruct (dev_read dev nr) as [o ms]. cbn [fst snd] in *. subst o.
  unfold bytes_decode. rewrite D. apply (HQ _ b s eq_refl D).
  unfold config_state. cbn. rewrite Hnr, Htr. auto.
Qed.

Lemma cfg_number raw (Q : outcome Z -> world -> Prop) w nw nr tr :
  config_state file nw nr tr w ->
  (forall w', config_state file nw nr tr w' ->
              Q (Ret (match reported_items raw with
                      | Some n => n
                      | None => -1
                      end)) w') ->
  wp (number_response_val_of raw) Q w.
Proof.
  intros H HQ. destruct (number_response_val_of_run raw w) as [m Hm].
  eapply wp_run; [exact Hm|]. apply HQ. exact H.
Qed.

Lemma not_number_3 cmd :
  (cmd =? cmd_number_3)%string = false ->
  Wrote cmd true <> Wrote cmd_number_3 true.
Proof.
  intros H E. injection E as E. rewrite E, String.eqb_refl in H.
  discriminate.
Qed.

(** One step of the configuration on such a device. *)
Ltac avg_cfg_step :=
  lazymatch goal with
  | H : config_state file _ _ _ ?w |- wp ?m _ ?w =>
    lazymatch m with
    | bind _ _ => apply wp_bind
    | ret _ => apply wp_ret
    | print _ => eapply cfg_print; [exact H | clear w H; intros w H]
    | sleep _ => eapply cfg_sleep; [exact H | clear w H; intros w H]
    | ser_write _ _ => eapply cfg_write; [exact H | clear w H; intros w H]
    | read_text _ =>
      let b := fresh "b" in
      let s := fresh "s" in
      let R := fresh "R" in
      let D := fresh "D" in
      eapply cfg_read; [exact H | clear w H; intros w b s R D H]
    | number_response_val_of _ =>
      eapply cfg_number; [exact H | clear w H; intros w H]
    | (if Py.truthy ?s then _ else _) => destruct (Py.truthy s)
    end
  end.

Lemma avg_configure_body_run t0 :
  dev_opens dev = true ->
  wp (avg_configure_body dev averaging_count)
     (fun o w' =>
        o = Ret tt /\ ser_open w' = true /\ csv w' = file /\
        n_writes w' = (if reports_three dev then 10 else 12)%nat /\
        (In (Wrote cmd_number_3 true) (traffic w')
         <-> reports_three dev = false))
     (initial_world t0 file).
Proof.
  intros port_opens.
  unfold avg_configure_body.
  apply wp_bind, wp_print. apply wp_bind.
  unfold serial_open at 1. unfold wp at 1. rewrite port_opens. cbn [fst snd].
  assert (H : config_state file 0 0 []
                (set_ser_open true
                   (add_console (Say "Attempting to connect...")
                      (initial_world t0 file))))
    by (unfold config_state; cbn; auto).
  revert H. generalize (set_ser_open true
                   (add_console (Say "Attempting to connect...")
                      (initial_world t0 file))).
  intros w H.
  repeat avg_cfg_step.
  all: unfold set_number_of_items.
  all: match goal with
       | R : fst (dev_read dev 4) = ReadLine ?b, D : Py.decode ?b = Some ?s
         |- _ =>
         assert (Hn : reports_three dev
                      = (match reported_items (Py.strip s) with
                         | Some n => n
                         | None => -1
                         end =? 3))
           by (unfold reports_three, number_answer; rewrite R, D;
               destruct (reported_items (Py.strip s)); reflexivity)
       end.
  all: rewrite <- Hn; destruct (reports_three dev); cbn [negb].
  all: repeat avg_cfg_step.
  all: destruct H as (Hnw & _ & Htr & Ho & Hc); rewrite Hnw, Htr.
  all: (split; [reflexivity|]); (split; [exact Ho|]); (split; [exact Hc|]);
       (split; [reflexivity|]).
  all: cbn [app In]; split; [intros HIn | intros Hf].
  all: first [discriminate Hf | reflexivity | idtac].
  all: first
         [ solve [repeat (first [left; reflexivity | right])]
         | repeat (destruct HIn as [HIn|HIn];
                   [first [discriminate HIn
                          |exfalso; revert HIn; apply not_number_3;
                           lazy; reflexivity]|]);
           destruct HIn ].
Qed.

(** X13: on an instrument whose port opens, that takes every write and
    answers every read with a line that decodes (an empty line included),
    the configuration of the averaging script always completes, with the
    port open and the CSV file untouched; and it sends the command that
    sets the number of items to 3 exactly when the last word of the answer
    to the number query does not read as the integer 3: then twelve
    commands are written in all, otherwise ten. *)
Theorem avg_configure_number t0 :
  dev_opens dev = true ->
  let run := avg_configure dev averaging_count (initial_world t0 file) in
  fst run = Ret None /\
  ser_open (snd run) = true /\
  csv (snd run) = file /\
  n_writes (snd run) = (if reports_three dev then 10 else 12)%nat /\
  (In (Wrote cmd_number_3 true) (traffic (snd run))
   <-> reports_three dev = false).
Proof.
  intros port_opens. cbv zeta.
  pose proof (avg_configure_body_run t0 port_opens) as H. unfold wp in H.
  destruct (avg_configure_body dev averaging_count (initial_world t0 file))
    as [o w1] eqn:E. cbn [fst snd] in H. destruct H as (-> & H).
  assert (E2 : avg_configure dev averaging_count (initial_world t0 file)
               = (Ret None, w1))
    by (unfold avg_configure, try_except, bind; rewrite E; reflexivity).
  rewrite E2. cbn [fst snd]. split; [reflexivity | exact H].
Qed.

End AveragingConfigured.

Lemma avg_configure_number_witness :
  let run :=
    avg_configure (answering ":NUM:NORM:NUMBER 4") 16
                  (initial_world Bench.t0 []) in
  fst run = Ret None /\
  ser_open (snd run) = true /\
  csv (snd run) = [] /\
  n_writes (snd run) = 12%nat /\
  (In (Wrote cmd_number_3 true) (traffic (snd run))
   <-> reports_three (answering ":NUM:NORM:NUMBER 4") = false).
Proof.
  apply (avg_configure_number (answering ":NUM:NORM:NUMBER 4") 16 []).
  - intros n. reflexivity.
  - intros n. do 2 eexists. split; [reflexivity|]. vm_compute. reflexivity.
  - reflexivity.
Defined.

(** ** How the averaging script leaves *)

Lemma reo_avg_configure_body dev count :
  raises_exceptions_only (avg_configure_body dev count).
Proof. unfold avg_configure_body. reo. Qed.

Lemma avg_configure_port dev count w :
  exists status w1,
    avg_configure dev count w = (Ret status, w1) /\
    match status with
    | None => ser_open w1 = true
    | Some code => code = 0 /\ ser_open w1 = false
    end.
Proof.
  pose proof (reo_avg_configure_body dev count w) as Hr.
  assert (Hp : match fst (avg_configure_body dev count w) with
               | Ret _ => ser_open (snd (avg_configure_body dev count w)) = true
               | Raise _ | OutOfFuel => True
               end).
  { unfold avg_configure_body. apply opens_then. port. }
  unfold avg_configure, try_except. unfold bind at 1.
  destruct (avg_configure_body dev count w) as [[[]|e|] w1];
    cbn [fst snd] in *.
  - do 2 eexists. split; [reflexivity | exact Hp].
  - rewrite Hr. unfold close_if_open.
    destruct (caught_by e SerialException);
      unfold bind, print, ret; cbn [ser_open add_console];
      destruct (ser_open w1) eqn:Eo; unfold serial_close; do 2 eexists;
        (split; [reflexivity|]); (split; [reflexivity|]);
        first [exact Eo | reflexivity].
  - contradiction.
Qed.

Lemma avg_loop_run dev cycles : forall w,
  fst (avg_loop dev cycles w) = Ret tt \/
  exists e, fst (avg_loop dev cycles w) = Raise e /\
            exn_class_of e = KeyboardInterrupt.
Proof.
  induction cycles as [|cycles IH]; intros w; cbn [avg_loop].
  - right. eexists. split; reflexivity.
  - unfold bind. destruct (avg_cycle_run dev w) as (w' & -> & _).
    destruct (avg_breaks dev w); [left; reflexivity | apply IH].
Qed.

Lemma avg_measurement_run dev cycles w :
  exists w',
    avg_measurement dev cycles w = (Ret tt, w') /\ ser_open w' = false.
Proof.
  unfold avg_measurement, try_finally.
  match goal with
  | |- context [try_except ?m ?h w] =>
    assert (E : exists w1, try_except m h w = (Ret tt, w1))
  end.
  { unfold try_except.
    match goal with
    | |- context [let (_, _) := ?m w in _] =>
      assert (E : exists w1, m w = avg_loop dev cycles w1)
    end.
    { unfold bind at 1, file_is_empty.
      destruct (csv w) as [|r0 file].
      - unfold bind at 1. unfold bind at 1. unfold print at 1.
        unfold writerow at 1. eexists. reflexivity.
      - unfold bind at 1. unfold ret at 1. eexists. reflexivity. }
    destruct E as (w1 & ->).
    destruct (avg_loop_run dev cycles w1) as [H | (e & H & Hk)];
      destruct (avg_loop dev cycles w1) as [o w2]; cbn [fst] in H; subst o.
    - eexists. reflexivity.
    - unfold caught_by. rewrite Hk. cbn. eexists. reflexivity. }
  destruct E as (w1 & ->).
  unfold bind, close_if_open, print.
  destruct (ser_open w1) eqn:Eo; cbn; eexists; split; try reflexivity.
  exact Eo.
Qed.

(** X14: the averaging script always leaves with the port closed and with
    exit status 0, also when its configuration failed (it leaves through
    [exit()], where the integration script uses status 1); after a failed
    configuration nothing else happens, and when the port does not open
    there is no serial traffic at all. *)
Theorem averaging_exit dev count cycles w :
  exists w',
    avg_main dev count cycles w = (Ret 0, w') /\
    ser_open w' = false /\
    (fst (avg_configure dev count w) = Ret None \/
     fst (avg_configure dev count w) = Ret (Some 0) /\
     w' = snd (avg_configure dev count w)) /\
    (dev_opens dev = true \/ traffic w' = traffic w).
Proof.
  assert (Hclosed : dev_opens dev = true \/
                    exists w1, avg_configure dev count w = (Ret (Some 0), w1) /\
                               traffic w1 = traffic w).
  { destruct (dev_opens dev) eqn:Ho; [left; reflexivity | right].
    unfold avg_configure, try_except. unfold bind at 1.
    unfold avg_configure_body. unfold bind at 1. unfold print at 1.
    unfold bind at 1. unfold serial_open at 1. rewrite Ho.
    unfold close_if_open, bind, print, ret. cbn.
    destruct (ser_open w); cbn; eexists; split; reflexivity. }
  destruct (avg_configure_port dev count w) as (status & w1 & E & Hs).
  unfold avg_main. unfold bind at 1. rewrite E in *. cbn [fst snd].
  destruct status as [code|].
  - destruct Hs as [-> Ho]. exists w1. split; [reflexivity|].
    split; [exact Ho|]. split; [right; auto|].
    destruct Hclosed as [H | (w2 & H & Ht)]; [left; exact H | right].
    congruence.
  - unfold bind at 1. unfold print at 1.
    destruct (avg_measurement_run dev cycles
                (add_console (Say "Starting measurement loop.") w1))
      as (w' & -> & Ho).
    exists w'. split; [reflexivity|]. split; [exact Ho|].
    split; [left; reflexivity|].
    destruct Hclosed as [H | (w2 & H & Ht)]; [left; exact H | congruence].
Qed.

(** ** The last word of the answer to the number query *)

Lemma split_from_words s : forall tok,
  Forall (fun c => Py.isspace c = false) tok ->
  Forall (fun t => t <> [] /\ Forall (fun c => Py.isspace c = false) t)
         (PyInt.split_from tok s).
Proof.
  induction s as [|c r IH]; intros tok Htok; cbn [PyInt.split_from].
  - destruct tok as [|a tok]; constructor; [|constructor].
    split; [|apply Forall_rev; exact Htok].
    intros E. apply (f_equal (@List.length N)) in E.
    rewrite length_rev in E. discriminate.
  - destruct (Py.isspace c) eqn:Ec.
    + destruct tok as [|a tok]; [apply IH; constructor|].
      constructor; [|apply IH; constructor].
      split; [|apply Forall_rev; exact Htok].
      intros E. apply (f_equal (@List.length N)) in E.
      rewrite length_rev in E. discriminate.
    + apply IH. constructor; assumption.
Qed.

Lemma split_from_some s : forall tok,
  tok <> [] -> PyInt.split_from tok s <> [].
Proof.
  induction s as [|c r IH]; intros tok Htok; cbn [PyInt.split_from].
  - destruct tok; [congruence | discriminate].
  - destruct (Py.isspace c).
    + destruct tok; [congruence | discriminate].
    + apply IH. discriminate.
Qed.

(** X15: the number the averaging script reads from the answer to the
    number query.  A stripped answer that is not empty always has a last
    word (so the [IndexError] the script also catches there cannot
    occur); that word is not empty and holds no white space, and the
    script takes the answer to report [n] items exactly when [int] reads
    this last word as [n]. *)
Theorem number_answer_last_word (s : Py.str) :
  let number_response_raw := Py.strip s in
  number_response_raw <> [] ->
  exists last rest,
    rev (PyInt.split_ws number_response_raw) = last :: rest /\
    last <> [] /\
    Forall (fun c => Py.isspace c = false) last /\
    reported_items number_response_raw = PyInt.parse last /\
    forall w,
      fst (number_response_val_of number_response_raw w)
      = Ret (match PyInt.parse last with Some n => n | None => -1 end).
Proof.
  cbv zeta. intros Hne.
  pose proof (strip_head s) as Hh.
  destruct (Py.strip s) as [|c r] eqn:E; [congruence|].
  assert (Hsome : PyInt.split_ws (c :: r) <> []).
  { unfold PyInt.split_ws. cbn [PyInt.split_from]. rewrite Hh.
    apply split_from_some. discriminate. }
  assert (Hw : Forall
                 (fun t => t <> [] /\ Forall (fun c => Py.isspace c = false) t)
                 (rev (PyInt.split_ws (c :: r))))
    by (apply Forall_rev; apply (split_from_words (c :: r) [] (Forall_nil _))).
  destruct (rev (PyInt.split_ws (c :: r))) as [|last rest] eqn:R.
  - apply (f_equal (@List.length Py.str)) in R. rewrite length_rev in R.
    destruct (PyInt.split_ws (c :: r)); [congruence | discriminate].
  - apply Forall_inv in Hw. destruct Hw as [H1 H2].
    exists last, rest. split; [reflexivity|]. split; [exact H1|].
    split; [exact H2|].
    assert (Hr : reported_items (c :: r) = PyInt.parse last)
      by (unfold reported_items; rewrite R; reflexivity).
    split; [exact Hr|]. intros w.
    destruct (number_response_val_of_run (c :: r) w) as [m ->].
    rewrite Hr. reflexivity.
Qed.

Lemma number_answer_last_word_witness :
  exists last rest,
    rev (PyInt.split_ws (Py.strip (Py.lit " :NUM:NORM:NUMBER 3 ")))
    = last :: rest /\
    last <> [] /\
    Forall (fun c => Py.isspace c = false) last /\
    reported_items (Py.strip (Py.lit " :NUM:NORM:NUMBER 3 "))
    = PyInt.parse last /\
    forall w,
      fst (number_response_val_of
             (Py.strip (Py.lit " :NUM:NORM:NUMBER 3 ")) w)
      = Ret (match PyInt.parse last with Some n => n | None => -1 end).
Proof.
  apply (number_answer_last_word (Py.lit " :NUM:NORM:NUMBER 3 ")).
  vm_compute. discriminate.
Defined.

(** ** What ends the main loop *)

Section LoopEnds.

Variable dev : device.
Variable interval : Z.

(** What the body of a cycle comes to: a value for the flag, the
    [TimeoutError] of the watchdog, or an [Exception]. *)
Lemma cycle_body_ends w :
  exists o w1,
    cycle_body dev interval w = (o, w1) /\
    match o with
    | Ret _ => True
    | Raise e => exn_class_of e = TimeoutError \/ exn_class_of e = Exception
    | OutOfFuel => False
    end.
Proof.
  destruct (dev_write dev (n_writes w)) as [o0 a0] eqn:E0.
  destruct (write_ok o0) eqn:H0.
  - destruct o0; try discriminate.
    destruct (dev_write dev (S (n_writes w))) as [o1 a1] eqn:E1.
    destruct (write_ok o1) eqn:H1.
    + destruct o1; try discriminate.
      destruct (cycle_body_started dev interval w a0 a1 E0 E1)
        as (w1 & _ & ->).
      unfold bind.
      pose proof (poll_loop_terminates dev interval (poll_fuel interval)
                    (now w1) 0 w1 (poll_fuel_enough interval w1)) as Hne.
      destruct (poll_loop dev interval (poll_fuel interval) (now w1) 0 w1)
        as [o w2] eqn:Ep. cbn [fst] in Hne.
      pose proof (poll_run_raises _ _ _ _ _ _
                    (poll_loop_run dev interval _ _ _ _ _ _ Ep Hne)) as Hc.
      destruct o as [[]|e|]; [|do 2 eexists; split; [reflexivity|exact Hc]
                              |contradiction].
      destruct (fetch_results_serial dev interval w2)
        as (o & w3 & ok & tail & -> & _ & _ & _ & _ & Ho).
      do 2 eexists. split; [reflexivity|].
      destruct o as [b|e|]; auto. right. apply Ho.
    + destruct (cycle_body_start_failed dev interval w a0 o1 a1 E0 E1 H1)
        as (w1 & _ & ->).
      do 2 eexists. split; [reflexivity|]. right. reflexivity.
  - destruct (cycle_body_reset_failed dev interval w o0 a0 E0 H0)
      as (w1 & _ & ->).
    do 2 eexists. split; [reflexivity|]. right. reflexivity.
Qed.

(** X16: a turn of the main loop always comes back, and it leaves the
    loop exactly when its body raised the [TimeoutError] of the polling
    watchdog.  A write or a read that fails never ends the loop by itself
    (the handlers for [SerialException] and the other [IOError]s are never
    reached): such a turn is flagged and the loop goes on. *)
Theorem loop_ends_by_watchdog_only loop_count w :
  let w0 :=
    add_console (SayCycle "--- Starting Integration Cycle ---" loop_count) w in
  exists k w',
    cycle dev interval loop_count w = (Ret k, w') /\
    (k = Break <->
     exists e w1,
       cycle_body dev interval w0 = (Raise e, w1) /\
       exn_class_of e = TimeoutError).
Proof.
  cbv zeta.
  destruct (cycle_body_ends
              (add_console
                 (SayCycle "--- Starting Integration Cycle ---" loop_count) w))
    as (o & w1 & Hb & Hc).
  destruct o as [b|e|]; [| |contradiction].
  - destruct (cycle_of_return dev interval loop_count w b w1 Hb)
      as (w2 & -> & _).
    do 2 eexists. split; [reflexivity|]. rewrite Hb.
    split; [discriminate | intros (e & w3 & E & _); discriminate].
  - destruct Hc as [Hc|Hc].
    + destruct (cycle_of_timeout dev interval loop_count w e w1 Hb Hc)
        as (w2 & -> & _).
      do 2 eexists. split; [reflexivity|].
      split; [intros _; eauto | reflexivity].
    + destruct (cycle_of_abort dev interval loop_count w e w1 Hb Hc)
        as (w2 & -> & _).
      do 2 eexists. split; [reflexivity|]. rewrite Hb.
      split; [discriminate|]. intros (e' & w3 & E & He').
      injection E as -> _. congruence.
Qed.

End LoopEnds.

(** ** Text beyond ASCII *)

(** The answers of an instrument need not be ASCII: [upper] takes the
    dotless i to I, and [float] and [int] read the decimal digits and the
    white space of every script. *)
Lemma text_of_other_scripts :
  classify [0x74; 0x131; 0x6D]%N = Complete /\
  PyFloat.parse [0x661; 0x662; 0x2E; 0x665]%N = Some 12.5%float /\
  PyInt.parse [0xA0; 0x663; 0x2003]%N = Some 3 /\
  PyFloat.parse [0x131; 0x6E; 0x66]%N = None /\
  PyInt.parse [0x1C; 0x33]%N = None /\
  Py.upper [0xDF; 0x61; 0xFB03]%N = [0x53; 0x53; 0x41; 0x46; 0x46; 0x49]%N.
Proof. repeat split; vm_compute; reflexivity. Qed.
